(** * Incremental synchronisation engine of maakaf_home_backend

    A shallow embedding of [IncrementalSyncService]
    (src/github/incremental-sync.service.ts), of the part of
    [SyncMetadataService] and [AppConfigService] it calls, and the
    properties of the engine: freshness short-circuit, full and
    incremental synchronisation, the activity filter, the watermark
    record and the error paths.

    Conventions of the embedding
    - a JavaScript [Date] is the number of milliseconds since the epoch,
      an integer ([Z]); the ISO strings of the GraphQL payload are taken
      already parsed;
    - counts and totals are JavaScript numbers holding integers ([Z]);
      a watermark number may also be [-Infinity], see [number];
    - an optional chain [a?.b?.c] that may yield [undefined] is an
      [option];
    - an [async] method is a function from the world (watermark
      collection, log of sink writes, log of HTTP requests) to a new
      world and a completion, either a returned value or a thrown
      exception; writes made before a throw stay in the world. *)

From Stdlib Require Import ZArith List Lia Bool Ascii String.
From stdpp Require Import base gmap strings list.

Local Open Scope Z_scope.

(** ** JavaScript values the engine computes with *)

Module Js.

(** The numbers a watermark can hold: an integer, or the [-Infinity]
    that [Math.max()] yields when it is given no argument. *)
Inductive number : Type :=
| NegInfinity
| Fin (z : Z).

Definition max2 (a b : number) : number :=
  match a, b with
  | NegInfinity, _ => b
  | _, NegInfinity => a
  | Fin x, Fin y => Fin (Z.max x y)
  end.

(** [Math.max(...xs)]. *)
Definition Math_max (xs : list number) : number :=
  fold_right max2 NegInfinity xs.

(** [a > b]. *)
Definition gtb (a b : number) : bool :=
  match a, b with
  | NegInfinity, _ => false
  | Fin _, NegInfinity => true
  | Fin x, Fin y => y <? x
  end.

(** [a <= b]. *)
Definition leb (a b : number) : bool :=
  match a, b with
  | NegInfinity, _ => true
  | Fin _, NegInfinity => false
  | Fin x, Fin y => x <=? y
  end.

(** Truthiness of a number: only [0] is falsy here. *)
Definition truthy (n : number) : bool :=
  match n with
  | NegInfinity => true
  | Fin z => negb (z =? 0)
  end.

(** [n || 0] for an optional number. *)
Definition or_zero (n : option number) : number :=
  match n with
  | Some v => if truthy v then v else Fin 0
  | None => Fin 0
  end.

(** Truthiness of an optional string: [undefined] and [""] are falsy. *)
Definition truthy_str (s : option string) : bool :=
  match s with
  | Some v => negb (String.eqb v "")
  | None => false
  end.

(** [a || b] for optional strings. *)
Definition or_str (a b : option string) : option string :=
  if truthy_str a then a else b.

(** [xs.length]. *)
Definition len {A : Type} (xs : list A) : Z := Z.of_nat (length xs).

(** [xs || []] for an optional array. *)
Definition or_nil {A : Type} (xs : option (list A)) : list A :=
  match xs with
  | Some l => l
  | None => []
  end.

(** [s.split('/')[0]]: the text before the first slash. *)
Fixpoint split_slash_head (s : string) : string :=
  match s with
  | EmptyString => EmptyString
  | String c rest =>
      if Ascii.eqb c "/"%char then EmptyString
      else String c (split_slash_head rest)
  end.

End Js.

Import Js.

(** ** The payload of the [repository] query *)

Record CommentNode : Type := {
  comment_id : string;
  comment_body : string;
  comment_createdAt : Z;
  comment_author : option string          (* author?.login *)
}.

Record CommitNode : Type := {
  oid : string;
  commit_author : option string;          (* author?.user?.login *)
  committedDate : Z;
  message : string
}.

Record PullRequestNode : Type := {
  pr_number : Z;
  pr_title : string;
  pr_state : string;
  pr_createdAt : Z;
  pr_closedAt : option Z;
  pr_mergedAt : option Z;
  pr_author : option string;              (* author?.login *)
  pr_comments : option (list CommentNode) (* comments?.nodes *)
}.

Record IssueNode : Type := {
  issue_number : Z;
  issue_title : string;
  issue_state : string;
  issue_createdAt : Z;
  issue_closedAt : option Z;
  issue_author : option string;             (* author?.login *)
  issue_comments : option (list CommentNode) (* comments?.nodes *)
}.

Record Repository : Type := {
  history_nodes : option (list CommitNode);  (* defaultBranchRef?.target?.history?.nodes *)
  pullRequests_nodes : option (list PullRequestNode); (* pullRequests?.nodes *)
  issues_nodes : option (list IssueNode)     (* issues?.nodes *)
}.

(** The body of the HTTP response: [response.data]. *)
Record GraphqlError : Type := { err_message : option string }.

Record ResponseData : Type := { repository : option Repository }.

Record ResponseBody : Type := {
  resp_errors : option (list GraphqlError);
  resp_data : option ResponseData
}.

(** What [lastValueFrom(httpService.post(..))] settles to. *)
Inductive HttpOutcome : Type :=
| HttpRejected (reason : string)
| HttpResolved (body : ResponseBody).

(** ** The watermark record and the result of a call *)

Record TotalItems : Type := {
  commits : Z;
  pullRequests : Z;
  issues : Z;
  prComments : Z;
  issueComments : Z
}.

(** [SyncMetadata] of sync-metadata.schema.ts. *)
Record SyncMetadata : Type := {
  username : string;
  repo : string;
  lastSyncDate : Z;
  lastCommitSha : option string;
  lastPRNumber : option number;
  lastIssueNumber : option number;
  totalItems : TotalItems;
  fetchedAt : Z
}.

(** The argument of [SyncMetadataService.upsert], a
    [Partial<SyncMetadata>]: the fields every caller gives are plain,
    the three a caller may leave [undefined] are options; [fetchedAt]
    is set by [upsert] itself. *)
Record SyncData : Type := {
  sd_username : string;
  sd_repo : string;
  sd_lastSyncDate : Z;
  sd_lastCommitSha : option string;
  sd_lastPRNumber : option number;
  sd_lastIssueNumber : option number;
  sd_totalItems : TotalItems
}.

(** The value [syncUserRepoActivity] resolves to: the five totals
    spread into the object, when the spread copies them,
    [isIncremental] and [itemsFetched]. *)
Record SyncResult : Type := {
  result_totals : option TotalItems;
  isIncremental : bool;
  itemsFetched : Z
}.

(** The [repo] argument: [repo.owner] and [repo.name]. *)
Record RepoRef : Type := { repo_owner : string; repo_name : string }.

(** ** Configuration *)

(** The values [ConfigService.get] yields for the keys the engine reads. *)
Record ConfigService : Type := {
  MAX_COMMITS_PER_REPO : option Z;
  MAX_PRS_PER_REPO : option Z;
  MAX_ISSUES_PER_REPO : option Z;
  INCREMENTAL_SYNC_INTERVAL_HOURS : option Z
}.

Module AppConfigService.

(** [configService.get<number>(key) || d]. *)
Definition get_or (v : option Z) (d : Z) : Z :=
  match v with
  | Some x => if x =? 0 then d else x
  | None => d
  end.

Definition maxCommitsPerRepo (c : ConfigService) : Z :=
  get_or (MAX_COMMITS_PER_REPO c) 100.

Definition maxPRsPerRepo (c : ConfigService) : Z :=
  get_or (MAX_PRS_PER_REPO c) 100.

Definition maxIssuesPerRepo (c : ConfigService) : Z :=
  get_or (MAX_ISSUES_PER_REPO c) 100.

Definition incrementalSyncIntervalHours (c : ConfigService) : Z :=
  get_or (INCREMENTAL_SYNC_INTERVAL_HOURS c) 4.

End AppConfigService.

(** ** The world: stores, sinks, network *)

(** The query text, up to the limits it interpolates. *)
Inductive QueryText : Type :=
| FullQuery (maxCommits maxPRs maxIssues : Z)
| IncrementalQuery.

Record Variables : Type := {
  var_owner : string;
  var_name : string;
  var_since : Z;
  var_lastPRNumber : option number;
  var_lastIssueNumber : option number
}.

Record GraphqlPost : Type := {
  post_token : string;
  post_query : QueryText;
  post_variables : Variables
}.

(** Documents handed to the per-entity sinks. *)
Record CommitDoc : Type := {
  cd_repo : string;
  cd_repoOwner : string;
  cd_sha : string;
  cd_author : string;
  cd_message : string;
  cd_committedDate : Z;
  cd_rawData : CommitNode;
  cd_fetchedAt : Z
}.

Record PullRequestDoc : Type := {
  pd_repo : string;
  pd_repoOwner : string;
  pd_prNumber : Z;
  pd_title : string;
  pd_state : string;
  pd_author : string;
  pd_createdAt : Z;
  pd_closedAt : option Z;
  pd_mergedAt : option Z;
  pd_rawData : PullRequestNode;
  pd_fetchedAt : Z
}.

Record IssueDoc : Type := {
  id_repo : string;
  id_repoOwner : string;
  id_issueNumber : Z;
  id_title : string;
  id_state : string;
  id_author : string;
  id_createdAt : Z;
  id_closedAt : option Z;
  id_rawData : IssueNode;
  id_fetchedAt : Z
}.

(** A write reaching the database: a bulk upsert of one of the three
    sinks, or the upsert of a watermark record. *)
Inductive DbWrite : Type :=
| CommitsBulkUpsert (docs : list CommitDoc)
| PullRequestsBulkUpsert (docs : list PullRequestDoc)
| IssuesBulkUpsert (docs : list IssueDoc)
| SyncMetadataUpsert (doc : SyncMetadata).

Record World : Type := {
  syncMetadataModel : gmap (string * string) SyncMetadata;
  dbWrites : list DbWrite;        (* oldest first *)
  httpPosts : list GraphqlPost    (* oldest first *)
}.

(** What one call reads from outside: the clock at each place the code
    reads it, and the answer of the data source should it be asked. *)
Record Env : Type := {
  env_now : Z;               (* Date.now() in syncUserRepoActivity *)
  env_analysisStartDate : Z; (* appConfig.analysisStartDate *)
  env_response : HttpOutcome;
  env_fetchedAt : Z;         (* new Date() in cacheDataToMongoDB, one
                                reading for the documents of a call *)
  env_syncDate : Z;          (* new Date() for lastSyncDate *)
  env_upsertAt : Z           (* new Date() in SyncMetadataService.upsert *)
}.

(** ** Asynchronous computations *)

Inductive Exn : Type :=
| Error (msg : string)       (* new Error(msg) *)
| TypeError                  (* property read on null or undefined *)
| HttpError (reason : string).

Inductive Completion (A : Type) : Type :=
| Return (a : A)
| Throw (e : Exn).

Arguments Return {A} a.
Arguments Throw {A} e.

Definition Async (A : Type) : Type := World -> World * Completion A.

Definition ret {A : Type} (a : A) : Async A := fun w => (w, Return a).

Definition throw {A : Type} (e : Exn) : Async A := fun w => (w, Throw e).

Definition bind {A B : Type} (m : Async A) (k : A -> Async B) : Async B :=
  fun w =>
    match m w with
    | (w', Return a) => k a w'
    | (w', Throw e) => (w', Throw e)
    end.

Notation "'await' x <- m ;; k" := (bind m (fun x => k))
  (at level 10, x name, m at level 99, k at level 200).

Notation "'perform' m ;; k" := (bind m (fun _ => k))
  (at level 10, m at level 99, k at level 200).

(** Modelled from the spec: the per-entity sinks ([CommitsService],
    [PullRequestsService], [IssuesService]), whose sources are not part
    of the files embedded here. Section 6 of the specification gives
    their contract: [bulkUpsert(items)] takes the documents of one
    entity type and upserts them by natural key. The call resolves and
    is recorded, with its documents, at the end of the log of writes; a
    rejection of the database driver is not modelled, here or in the
    watermark store. *)
Definition db_write (d : DbWrite) : Async unit :=
  fun w =>
    ({| syncMetadataModel := syncMetadataModel w;
        dbWrites := dbWrites w ++ [d];
        httpPosts := httpPosts w |}, Return tt).

(** [s || d] for an optional string and a default. *)
Definition or_else_str (s : option string) (d : string) : string :=
  match s with
  | Some v => if String.eqb v "" then d else v
  | None => d
  end.

(** [Object.values(totals)], in the order the object literal lists its keys. *)
Definition Object_values (t : TotalItems) : list Z :=
  [commits t; pullRequests t; issues t; prComments t; issueComments t].

(** [{ ...lastSync.totalItems }] for the record [findOne] yields.
    [findByUsernameAndRepo] runs [findOne] without [lean()], so the
    record is a hydrated document, and the schema declares [totalItems]
    with an object as its [type], which makes it a nested subdocument.
    The object spread copies the own enumerable properties of that
    subdocument; the five schema paths are accessors, not own
    properties, so none of the five totals is copied. *)
Definition spread_hydrated (t : TotalItems) : option TotalItems := None.

(** [$set] of a field the argument may leave out: the value given, or
    else what is stored, since an [undefined] field is not sent. *)
Definition set_field {A : Type} (given stored : option A) : option A :=
  match given with
  | Some v => Some v
  | None => stored
  end.

(** ** SyncMetadataService (sync-metadata.service.ts) *)

Module SyncMetadataService.

(** [findOne({ username, repo })]. *)
Definition findByUsernameAndRepo (username repo : string)
  : Async (option SyncMetadata) :=
  fun w => (w, Return (syncMetadataModel w !! (username, repo))).

(** [findOneAndUpdate({username, repo}, {$set: {...syncData, fetchedAt}},
    {upsert: true, new: true})]: the fields given are set on the record
    of the key, which is created when missing; a field left out keeps
    the value stored, if any. *)
Definition upsert (env : Env) (syncData : SyncData) : Async SyncMetadata :=
  fun w =>
    let stored :=
      syncMetadataModel w !! (sd_username syncData, sd_repo syncData) in
    let doc := {| username := sd_username syncData;
                  repo := sd_repo syncData;
                  lastSyncDate := sd_lastSyncDate syncData;
                  lastCommitSha := set_field (sd_lastCommitSha syncData)
                                     (stored ≫= lastCommitSha);
                  lastPRNumber := set_field (sd_lastPRNumber syncData)
                                    (stored ≫= lastPRNumber);
                  lastIssueNumber := set_field (sd_lastIssueNumber syncData)
                                       (stored ≫= lastIssueNumber);
                  totalItems := sd_totalItems syncData;
                  fetchedAt := env_upsertAt env |} in
    ({| syncMetadataModel :=
          <[(sd_username syncData, sd_repo syncData) := doc]>
            (syncMetadataModel w);
        dbWrites := dbWrites w ++ [SyncMetadataUpsert doc];
        httpPosts := httpPosts w |}, Return doc).

End SyncMetadataService.

(** ** IncrementalSyncService (incremental-sync.service.ts) *)

Module IncrementalSyncService.

Section Service.

(** The injected configuration, and what this call reads from outside. *)
Context (appConfig : ConfigService) (env : Env).

Definition graphqlRequest (query : QueryText) (variables : Variables)
  (token : string) : Async (option ResponseData) :=
  fun w =>
    let w' := {| syncMetadataModel := syncMetadataModel w;
                 dbWrites := dbWrites w;
                 httpPosts := httpPosts w ++
                   [{| post_token := token;
                       post_query := query;
                       post_variables := variables |}] |} in
    match env_response env with
    | HttpRejected reason => (w', Throw (HttpError reason))
    | HttpResolved body =>
        match resp_errors body with
        | Some errors =>
            (w', Throw (Error ("GitHub GraphQL error: " +:+
                   or_else_str (head errors ≫= err_message) "Unknown error")))
        | None => (w', Return (resp_data body))
        end
    end.

Definition cacheDataToMongoDB (username repoFullName : string)
  (data_commits : list CommitNode) (data_pullRequests : list PullRequestNode)
  (data_issues : list IssueNode) : Async unit :=
  perform
    (if 0 <? len data_commits then
       db_write (CommitsBulkUpsert (map (fun commit =>
         {| cd_repo := repoFullName;
            cd_repoOwner := split_slash_head repoFullName;
            cd_sha := oid commit;
            cd_author := username;
            cd_message := message commit;
            cd_committedDate := committedDate commit;
            cd_rawData := commit;
            cd_fetchedAt := env_fetchedAt env |}) data_commits))
     else ret tt) ;;
  perform
    (if 0 <? len data_pullRequests then
       db_write (PullRequestsBulkUpsert (map (fun pr =>
         {| pd_repo := repoFullName;
            pd_repoOwner := split_slash_head repoFullName;
            pd_prNumber := pr_number pr;
            pd_title := pr_title pr;
            pd_state := pr_state pr;
            pd_author := username;
            pd_createdAt := pr_createdAt pr;
            pd_closedAt := pr_closedAt pr;
            pd_mergedAt := pr_mergedAt pr;
            pd_rawData := pr;
            pd_fetchedAt := env_fetchedAt env |}) data_pullRequests))
     else ret tt) ;;
  (if 0 <? len data_issues then
     db_write (IssuesBulkUpsert (map (fun issue =>
       {| id_repo := repoFullName;
          id_repoOwner := split_slash_head repoFullName;
          id_issueNumber := issue_number issue;
          id_title := issue_title issue;
          id_state := issue_state issue;
          id_author := username;
          id_createdAt := issue_createdAt issue;
          id_closedAt := issue_closedAt issue;
          id_rawData := issue;
          id_fetchedAt := env_fetchedAt env |}) data_issues))
   else ret tt).

Definition processAndCacheFullData (username repoFullName : string)
  (repository : Repository) (sixMonthsAgo : Z) : Async TotalItems :=
  let commitNodes := or_nil (history_nodes repository) in
  let userCommits := List.filter (fun commit =>
    bool_decide (commit_author commit = Some username) &&
    (sixMonthsAgo <=? committedDate commit)) commitNodes in
  let pullRequestNodes := or_nil (pullRequests_nodes repository) in
  let userPRs := List.filter (fun pr =>
    bool_decide (pr_author pr = Some username) &&
    (sixMonthsAgo <=? pr_createdAt pr)) pullRequestNodes in
  let issueNodes := or_nil (issues_nodes repository) in
  let userIssues := List.filter (fun issue =>
    bool_decide (issue_author issue = Some username) &&
    (sixMonthsAgo <=? issue_createdAt issue)) issueNodes in
  let userPRComments := fold_left (fun acc pr =>
    acc + len (List.filter (fun comment =>
      bool_decide (comment_author comment = Some username) &&
      (sixMonthsAgo <=? comment_createdAt comment))
      (or_nil (pr_comments pr)))) pullRequestNodes 0 in
  let userIssueComments := fold_left (fun acc issue =>
    acc + len (List.filter (fun comment =>
      bool_decide (comment_author comment = Some username) &&
      (sixMonthsAgo <=? comment_createdAt comment))
      (or_nil (issue_comments issue)))) issueNodes 0 in
  perform cacheDataToMongoDB username repoFullName
    userCommits userPRs userIssues ;;
  ret {| commits := len userCommits;
         pullRequests := len userPRs;
         issues := len userIssues;
         prComments := userPRComments;
         issueComments := userIssueComments |}.

Definition processAndCacheIncrementalData (username repoFullName : string)
  (newData_commits : list CommitNode)
  (newData_pullRequests : list PullRequestNode)
  (newData_issues : list IssueNode) (lastSyncDate : Z) : Async TotalItems :=
  let userCommits := List.filter (fun commit =>
    bool_decide (commit_author commit = Some username) &&
    (lastSyncDate <? committedDate commit)) newData_commits in
  let userPRs := List.filter (fun pr =>
    bool_decide (pr_author pr = Some username) &&
    (lastSyncDate <? pr_createdAt pr)) newData_pullRequests in
  let userIssues := List.filter (fun issue =>
    bool_decide (issue_author issue = Some username) &&
    (lastSyncDate <? issue_createdAt issue)) newData_issues in
  let userPRComments := fold_left (fun acc pr =>
    acc + len (List.filter (fun comment =>
      bool_decide (comment_author comment = Some username) &&
      (lastSyncDate <? comment_createdAt comment))
      (or_nil (pr_comments pr)))) newData_pullRequests 0 in
  let userIssueComments := fold_left (fun acc issue =>
    acc + len (List.filter (fun comment =>
      bool_decide (comment_author comment = Some username) &&
      (lastSyncDate <? comment_createdAt comment))
      (or_nil (issue_comments issue)))) newData_issues 0 in
  perform cacheDataToMongoDB username repoFullName
    userCommits userPRs userIssues ;;
  ret {| commits := len userCommits;
         pullRequests := len userPRs;
         issues := len userIssues;
         prComments := userPRComments;
         issueComments := userIssueComments |}.

Definition performFullSync (username : string) (repo : RepoRef)
  (token : string) : Async SyncResult :=
  let repoFullName := repo_owner repo +:+ "/" +:+ repo_name repo in
  let sixMonthsAgo := env_analysisStartDate env in
  let query := FullQuery (AppConfigService.maxCommitsPerRepo appConfig)
                         (AppConfigService.maxPRsPerRepo appConfig)
                         (AppConfigService.maxIssuesPerRepo appConfig) in
  let variables := {| var_owner := repo_owner repo;
                      var_name := repo_name repo;
                      var_since := sixMonthsAgo;
                      var_lastPRNumber := None;
                      var_lastIssueNumber := None |} in
  await data <- graphqlRequest query variables token ;;
  match data with
  | None => throw TypeError
  | Some data =>
      match repository data with
      | None => throw (Error ("Repository " +:+ repoFullName +:+ " not found"))
      | Some repository =>
          await results <- processAndCacheFullData username repoFullName
                             repository sixMonthsAgo ;;
          perform SyncMetadataService.upsert env
            {| sd_username := username;
               sd_repo := repoFullName;
               sd_lastSyncDate := env_syncDate env;
               sd_lastCommitSha := oid <$> head (or_nil (history_nodes repository));
               sd_lastPRNumber := Some (Math_max
                 (match pullRequests_nodes repository with
                  | Some nodes => map (fun pr => Fin (pr_number pr)) nodes
                  | None => [Fin 0]
                  end));
               sd_lastIssueNumber := Some (Math_max
                 (match issues_nodes repository with
                  | Some nodes => map (fun issue => Fin (issue_number issue)) nodes
                  | None => [Fin 0]
                  end));
               sd_totalItems := results |} ;;
          ret {| result_totals := Some results;
                 isIncremental := false;
                 itemsFetched := fold_left Z.add (Object_values results) 0 |}
      end
  end.

Definition performIncrementalSync (username : string) (repo : RepoRef)
  (token : string) (lastSync : SyncMetadata) : Async SyncResult :=
  let repoFullName := repo_owner repo +:+ "/" +:+ repo_name repo in
  let variables := {| var_owner := repo_owner repo;
                      var_name := repo_name repo;
                      var_since := lastSyncDate lastSync;
                      var_lastPRNumber := Some (or_zero (lastPRNumber lastSync));
                      var_lastIssueNumber := Some (or_zero (lastIssueNumber lastSync)) |} in
  await data <- graphqlRequest IncrementalQuery variables token ;;
  match data with
  | None => throw TypeError
  | Some data =>
      match repository data with
      | None => throw (Error ("Repository " +:+ repoFullName +:+ " not found"))
      | Some repository =>
          let newCommits := or_nil (List.filter (fun commit =>
            negb (truthy_str (lastCommitSha lastSync)) ||
            negb (bool_decide (Some (oid commit) = lastCommitSha lastSync)))
            <$> history_nodes repository) in
          let newPRs := or_nil (List.filter (fun pr =>
            gtb (Fin (pr_number pr)) (or_zero (lastPRNumber lastSync)))
            <$> pullRequests_nodes repository) in
          let newIssues := or_nil (List.filter (fun issue =>
            gtb (Fin (issue_number issue)) (or_zero (lastIssueNumber lastSync)))
            <$> issues_nodes repository) in
          await newResults <- processAndCacheIncrementalData username
                                repoFullName newCommits newPRs newIssues
                                (lastSyncDate lastSync) ;;
          let updatedTotals :=
            {| commits := commits (totalItems lastSync) + commits newResults;
               pullRequests := pullRequests (totalItems lastSync) + pullRequests newResults;
               issues := issues (totalItems lastSync) + issues newResults;
               prComments := prComments (totalItems lastSync) + prComments newResults;
               issueComments := issueComments (totalItems lastSync) + issueComments newResults |} in
          perform SyncMetadataService.upsert env
            {| sd_username := username;
               sd_repo := repoFullName;
               sd_lastSyncDate := env_syncDate env;
               sd_lastCommitSha := or_str (oid <$> head newCommits)
                                          (lastCommitSha lastSync);
               sd_lastPRNumber := Some (Math_max
                 (map (fun pr => Fin (pr_number pr)) newPRs ++
                  [or_zero (lastPRNumber lastSync)]));
               sd_lastIssueNumber := Some (Math_max
                 (map (fun issue => Fin (issue_number issue)) newIssues ++
                  [or_zero (lastIssueNumber lastSync)]));
               sd_totalItems := updatedTotals |} ;;
          ret {| result_totals := Some updatedTotals;
                 isIncremental := true;
                 itemsFetched := fold_left Z.add (Object_values newResults) 0 |}
      end
  end.

Definition syncUserRepoActivity (username : string) (repo : RepoRef)
  (token : string) : Async SyncResult :=
  let repoFullName := repo_owner repo +:+ "/" +:+ repo_name repo in
  await lastSync <- SyncMetadataService.findByUsernameAndRepo username
                      repoFullName ;;
  match lastSync with
  | None => performFullSync username repo token
  | Some lastSync =>
      let cacheAge := env_now env - lastSyncDate lastSync in
      let cacheValidityMs :=
        AppConfigService.incrementalSyncIntervalHours appConfig * 60 * 60 * 1000 in
      if cacheAge <? cacheValidityMs then
        ret {| result_totals := spread_hydrated (totalItems lastSync);
               isIncremental := false;
               itemsFetched := 0 |}
      else performIncrementalSync username repo token lastSync
  end.

End Service.

End IncrementalSyncService.

Import IncrementalSyncService.

(** ** Vocabulary of the statements *)

(** The value an asynchronous call resolves to, if it does. *)
Definition returned {A : Type} (r : World * Completion A) : option A :=
  match r.2 with
  | Return a => Some a
  | Throw _ => None
  end.

(** The world after sink or watermark writes [ws]: nothing else moves. *)
Definition add_writes (ws : list DbWrite) (w : World) : World :=
  {| syncMetadataModel := syncMetadataModel w;
     dbWrites := dbWrites w ++ ws;
     httpPosts := httpPosts w |}.

(** The key of the watermark record of [username] and [repo]. *)
Definition key_of (username : string) (repo : RepoRef) : string * string :=
  (username, repo_owner repo +:+ "/" +:+ repo_name repo).

(** Componentwise order on the five totals. *)
Definition totals_le (a b : TotalItems) : Prop :=
  commits a <= commits b /\
  pullRequests a <= pullRequests b /\
  issues a <= issues b /\
  prComments a <= prComments b /\
  issueComments a <= issueComments b.

(** A response of the data source that carries a repository. *)
Definition resolved (r : Repository) : HttpOutcome :=
  HttpResolved {| resp_errors := None;
                  resp_data := Some {| repository := Some r |} |}.

Definition with_response (e : Env) (h : HttpOutcome) : Env :=
  {| env_now := env_now e;
     env_analysisStartDate := env_analysisStartDate e;
     env_response := h;
     env_fetchedAt := env_fetchedAt e;
     env_syncDate := env_syncDate e;
     env_upsertAt := env_upsertAt e |}.

Definition with_history (r : Repository) (l : list CommitNode) : Repository :=
  {| history_nodes := Some l;
     pullRequests_nodes := pullRequests_nodes r;
     issues_nodes := issues_nodes r |}.

Definition with_pullRequests (r : Repository) (l : list PullRequestNode)
  : Repository :=
  {| history_nodes := history_nodes r;
     pullRequests_nodes := Some l;
     issues_nodes := issues_nodes r |}.

Definition with_issues (r : Repository) (l : list IssueNode) : Repository :=
  {| history_nodes := history_nodes r;
     pullRequests_nodes := pullRequests_nodes r;
     issues_nodes := Some l |}.

Definition with_pr_comments (p : PullRequestNode) (cs : list CommentNode)
  : PullRequestNode :=
  {| pr_number := pr_number p;
     pr_title := pr_title p;
     pr_state := pr_state p;
     pr_createdAt := pr_createdAt p;
     pr_closedAt := pr_closedAt p;
     pr_mergedAt := pr_mergedAt p;
     pr_author := pr_author p;
     pr_comments := Some cs |}.

Definition with_issue_comments (i : IssueNode) (cs : list CommentNode)
  : IssueNode :=
  {| issue_number := issue_number i;
     issue_title := issue_title i;
     issue_state := issue_state i;
     issue_createdAt := issue_createdAt i;
     issue_closedAt := issue_closedAt i;
     issue_author := issue_author i;
     issue_comments := Some cs |}.

(** The test the two filters apply to an author and a timestamp: the
    author is [u] and the timestamp is at or after the bound (full
    sync), or after it (incremental sync). *)
Definition keeps (strict : bool) (u : string) (bound : Z)
  (author : option string) (date : Z) : bool :=
  bool_decide (author = Some u) &&
  (if strict then bound <? date else bound <=? date).

(** The sum the comment loops accumulate: the comments of [xs] that
    the filter keeps. *)
Definition tally {A : Type} (comments_of : A -> option (list CommentNode))
  (strict : bool) (u : string) (bound : Z) (xs : list A) : Z :=
  fold_left (fun acc x =>
    acc + len (List.filter (fun c =>
      keeps strict u bound (comment_author c) (comment_createdAt c))
      (or_nil (comments_of x)))) xs 0.

(** The five counts the filters return for the node lists they are given. *)
Definition counts (strict : bool) (u : string) (bound : Z)
  (cs : list CommitNode) (ps : list PullRequestNode) (iss : list IssueNode)
  : TotalItems :=
  {| commits := len (List.filter (fun c =>
       keeps strict u bound (commit_author c) (committedDate c)) cs);
     pullRequests := len (List.filter (fun p =>
       keeps strict u bound (pr_author p) (pr_createdAt p)) ps);
     issues := len (List.filter (fun i =>
       keeps strict u bound (issue_author i) (issue_createdAt i)) iss);
     prComments := tally pr_comments strict u bound ps;
     issueComments := tally issue_comments strict u bound iss |}.

(** No node of the snapshot, and no comment in it, is timestamped after [t]. *)
Definition nothing_after (t : Z) (r : Repository) : bool :=
  forallb (fun c => committedDate c <=? t) (or_nil (history_nodes r)) &&
  forallb (fun p =>
    (pr_createdAt p <=? t) &&
    forallb (fun c => comment_createdAt c <=? t) (or_nil (pr_comments p)))
    (or_nil (pullRequests_nodes r)) &&
  forallb (fun i =>
    (issue_createdAt i <=? t) &&
    forallb (fun c => comment_createdAt c <=? t) (or_nil (issue_comments i)))
    (or_nil (issues_nodes r)).

(** Sequential calls for one key, one environment per call: the world
    and the completion after each call, in order. *)
Fixpoint syncMany (appConfig : ConfigService) (username : string)
  (repo : RepoRef) (token : string) (envs : list Env) (w : World)
  : list (World * Completion SyncResult) :=
  match envs with
  | [] => []
  | env :: rest =>
      let r := syncUserRepoActivity appConfig env username repo token w in
      r :: syncMany appConfig username repo token rest r.1
  end.

(** The data source reports an application-level error, or answers
    without the repository. *)
Definition upstream_failure (b : ResponseBody) : Prop :=
  is_Some (resp_errors b) \/
  (resp_errors b = None /\ resp_data b = Some {| repository := None |}).

(** ** The scenario of the specification: user octocat, repository octo/demo *)

Module Scenario.

Definition commit (sha author : string) (date : Z) : CommitNode :=
  {| oid := sha; commit_author := Some author;
     committedDate := date; message := "work" |}.

Definition comment (id author : string) (date : Z) : CommentNode :=
  {| comment_id := id; comment_body := "text";
     comment_createdAt := date; comment_author := Some author |}.

Definition pull (n : Z) (author : string) (date : Z)
  (cs : list CommentNode) : PullRequestNode :=
  {| pr_number := n; pr_title := "change"; pr_state := "OPEN";
     pr_createdAt := date; pr_closedAt := None; pr_mergedAt := None;
     pr_author := Some author; pr_comments := Some cs |}.

Definition issue (n : Z) (author : string) (date : Z)
  (cs : list CommentNode) : IssueNode :=
  {| issue_number := n; issue_title := "report"; issue_state := "OPEN";
     issue_createdAt := date; issue_closedAt := None;
     issue_author := Some author; issue_comments := Some cs |}.

Definition demo : RepoRef := {| repo_owner := "octo"; repo_name := "demo" |}.

Definition defaults : ConfigService :=
  {| MAX_COMMITS_PER_REPO := None; MAX_PRS_PER_REPO := None;
     MAX_ISSUES_PER_REPO := None; INCREMENTAL_SYNC_INTERVAL_HOURS := None |}.

Definition empty_world : World :=
  {| syncMetadataModel := ∅; dbWrites := []; httpPosts := [] |}.

(** Three commits and one pull request by octocat, two of its comments
    by octocat; a commit and a comment by someone else; no issue. *)
Definition snapshot : Repository :=
  {| history_nodes := Some [commit "c3" "octocat" 4000;
                            commit "c2" "octocat" 3000;
                            commit "c1" "octocat" 2000;
                            commit "c0" "hubot" 1500];
     pullRequests_nodes := Some [pull 7 "octocat" 2500
                             [comment "k1" "octocat" 2600;
                              comment "k2" "hubot" 2700;
                              comment "k3" "octocat" 2800]];
     issues_nodes := Some [] |}.

Definition first_call : Env :=
  {| env_now := 10000; env_analysisStartDate := 1000;
     env_response := resolved snapshot;
     env_fetchedAt := 10005; env_syncDate := 10010; env_upsertAt := 10011 |}.

(** One hour later: within the four hours of the default interval. *)
Definition second_call : Env :=
  {| env_now := 3610000; env_analysisStartDate := 3601000;
     env_response := resolved snapshot;
     env_fetchedAt := 3610005; env_syncDate := 3610010;
     env_upsertAt := 3610011 |}.

(** After the interval, with one more commit by octocat upstream. *)
Definition later_snapshot : Repository :=
  with_history snapshot [commit "c4" "octocat" 20000].

Definition third_call : Env :=
  {| env_now := 14500000; env_analysisStartDate := 14491000;
     env_response := resolved later_snapshot;
     env_fetchedAt := 14500005; env_syncDate := 14500010;
     env_upsertAt := 14500011 |}.

(** The record the first call stores for the key. *)
Definition stored_after_first : SyncMetadata :=
  {| username := "octocat"; repo := "octo/demo";
     lastSyncDate := 10010; lastCommitSha := Some "c3";
     lastPRNumber := Some (Fin 7);
     lastIssueNumber := Some NegInfinity;
     totalItems := {| commits := 3; pullRequests := 1; issues := 0;
                      prComments := 2; issueComments := 0 |};
     fetchedAt := 10011 |}.

(** The world after the first call. *)
Definition after_first : World :=
  (syncUserRepoActivity defaults first_call "octocat" demo "token"
     empty_world).1.

End Scenario.

(** ** The other methods of SyncMetadataService (sync-metadata.service.ts) *)

Module SyncMetadataMaintenance.

(** A change of the watermark collection made by a method the engine
    does not call. The log [dbWrites] records the bulk upserts and the
    watermark upserts of the engine; these methods only show in the
    collection. *)
Definition update_collection
  (f : gmap (string * string) SyncMetadata ->
       gmap (string * string) SyncMetadata) : Async unit :=
  fun w =>
    ({| syncMetadataModel := f (syncMetadataModel w);
        dbWrites := dbWrites w;
        httpPosts := httpPosts w |}, Return tt).

(** [!!findOne({ username, repo, lastSyncDate: { $gte: expiryDate } })]. *)
Definition isIncrementalSyncValid (uname rname : string) (expiryDate : Z)
  : Async bool :=
  fun w =>
    (w, Return match syncMetadataModel w !! (uname, rname) with
               | Some metadata => expiryDate <=? lastSyncDate metadata
               | None => false
               end).

(** [!!findOne({ username, repo, lastSyncDate: { $lt: fullSyncExpiryDate } })]. *)
Definition isFullSyncRequired (uname rname : string)
  (fullSyncExpiryDate : Z) : Async bool :=
  fun w =>
    (w, Return match syncMetadataModel w !! (uname, rname) with
               | Some metadata => lastSyncDate metadata <? fullSyncExpiryDate
               | None => false
               end).

(** [updateOne({ username, repo }, { $set: { totalItems, lastSyncDate:
    new Date() } })]; [now] is the reading of [new Date()]. Without the
    upsert option a missing record stays missing. *)
Definition updateTotalItems (now : Z) (uname rname : string)
  (newTotalItems : TotalItems) : Async unit :=
  update_collection (alter (fun m =>
    {| username := username m;
       repo := repo m;
       lastSyncDate := now;
       lastCommitSha := lastCommitSha m;
       lastPRNumber := lastPRNumber m;
       lastIssueNumber := lastIssueNumber m;
       totalItems := newTotalItems;
       fetchedAt := fetchedAt m |}) (uname, rname)).

(** [updateOne({ username, repo }, { $inc: { 'totalItems.commits': ..,
    .. }, $set: { lastSyncDate: new Date() } })]. *)
Definition incrementTotalItems (now : Z) (uname rname : string)
  (incrementalItems : TotalItems) : Async unit :=
  update_collection (alter (fun m =>
    {| username := username m;
       repo := repo m;
       lastSyncDate := now;
       lastCommitSha := lastCommitSha m;
       lastPRNumber := lastPRNumber m;
       lastIssueNumber := lastIssueNumber m;
       totalItems :=
         {| commits := commits (totalItems m) + commits incrementalItems;
            pullRequests :=
              pullRequests (totalItems m) + pullRequests incrementalItems;
            issues := issues (totalItems m) + issues incrementalItems;
            prComments :=
              prComments (totalItems m) + prComments incrementalItems;
            issueComments :=
              issueComments (totalItems m) + issueComments incrementalItems |};
       fetchedAt := fetchedAt m |}) (uname, rname)).

(** [deleteOne({ username, repo })]. *)
Definition deleteByUsernameAndRepo (uname rname : string) : Async unit :=
  update_collection (delete (uname, rname)).

(** [find({ username })]: the records whose [username] field is the one
    asked for, in the order the collection enumerates them. *)
Definition findAllByUsername (uname : string) : Async (list SyncMetadata) :=
  fun w =>
    (w, Return (List.filter (fun m => bool_decide (username m = uname))
                  (snd <$> map_to_list (syncMetadataModel w)))).

(** [deleteMany({ lastSyncDate: { $lt: olderThan } })]. *)
Definition cleanup (olderThan : Z) : Async unit :=
  update_collection
    (filter (fun km : (string * string) * SyncMetadata =>
               olderThan <= lastSyncDate km.2)).

End SyncMetadataMaintenance.

(** ** The date getters of AppConfigService (app-config.service.ts) *)

(** The values [ConfigService.get] yields for two more keys. *)
Record ConfigServiceTTL : Type := {
  CACHE_TTL_HOURS : option Z;
  FULL_SYNC_INTERVAL_HOURS : option Z
}.

Module AppConfigDates.

Definition cacheTTLHours (c : ConfigServiceTTL) : Z :=
  AppConfigService.get_or (CACHE_TTL_HOURS c) 24.

Definition fullSyncIntervalHours (c : ConfigServiceTTL) : Z :=
  AppConfigService.get_or (FULL_SYNC_INTERVAL_HOURS c) 24.

(** [new Date(Date.now() - hours * 60 * 60 * 1000)]; [now] is the
    reading of [Date.now()]. *)
Definition cacheExpiryDate (c : ConfigServiceTTL) (now : Z) : Z :=
  now - cacheTTLHours c * 60 * 60 * 1000.

Definition incrementalSyncExpiryDate (c : ConfigService) (now : Z) : Z :=
  now - AppConfigService.incrementalSyncIntervalHours c * 60 * 60 * 1000.

Definition fullSyncExpiryDate (c : ConfigServiceTTL) (now : Z) : Z :=
  now - fullSyncIntervalHours c * 60 * 60 * 1000.

End AppConfigDates.

(** ** More vocabulary *)

(** The world after one more HTTP request. *)
Definition add_post (p : GraphqlPost) (w : World) : World :=
  {| syncMetadataModel := syncMetadataModel w;
     dbWrites := dbWrites w;
     httpPosts := httpPosts w ++ [p] |}.

(** The documents of each kind in a list of writes. *)
Definition commit_docs (ws : list DbWrite) : list CommitDoc :=
  flat_map (fun d => match d with CommitsBulkUpsert docs => docs | _ => [] end) ws.

Definition pr_docs (ws : list DbWrite) : list PullRequestDoc :=
  flat_map (fun d => match d with PullRequestsBulkUpsert docs => docs | _ => [] end) ws.

Definition issue_docs (ws : list DbWrite) : list IssueDoc :=
  flat_map (fun d => match d with IssuesBulkUpsert docs => docs | _ => [] end) ws.

Definition watermark_docs (ws : list DbWrite) : list SyncMetadata :=
  flat_map (fun d => match d with SyncMetadataUpsert doc => [doc] | _ => [] end) ws.

(** A bulk upsert that carries no document. *)
Definition empty_bulk (d : DbWrite) : bool :=
  match d with
  | CommitsBulkUpsert [] | PullRequestsBulkUpsert [] | IssuesBulkUpsert [] => true
  | _ => false
  end.

(** The sum of the five totals. *)
Definition sum_totals (t : TotalItems) : Z :=
  commits t + pullRequests t + issues t + prComments t + issueComments t.

(** The sum of the totals stored for a key, [0] without a record. *)
Definition stored_sum (w : World) (k : string * string) : Z :=
  match syncMetadataModel w !! k with
  | Some m => sum_totals (totalItems m)
  | None => 0
  end.

(** The sum of [itemsFetched] over the calls of a run that returned. *)
Definition fetched_sum (rs : list (World * Completion SyncResult)) : Z :=
  fold_right (fun r acc =>
    match r.2 with
    | Return res => itemsFetched res + acc
    | Throw _ => acc
    end) 0 rs.

(** The world a run ends in. *)
Definition final_world (w : World) (rs : list (World * Completion SyncResult))
  : World :=
  List.last (fst <$> rs) w.

(** Every record is stored under its own [username] and [repo]. *)
Definition well_keyed (m : gmap (string * string) SyncMetadata) : Prop :=
  forall k d, m !! k = Some d -> k = (username d, repo d).

(** The text has no slash. *)
Fixpoint no_slash (s : string) : bool :=
  match s with
  | EmptyString => true
  | String c rest => negb (Ascii.eqb c "/"%char) && no_slash rest
  end.

(** The document of a sink is the projection of the node it was made
    from, stamped with the user, the repository and the clock. *)
Definition commit_doc_of (env : Env) (u rfn : string) (d : CommitDoc) : Prop :=
  cd_repo d = rfn /\ cd_repoOwner d = split_slash_head rfn /\
  cd_sha d = oid (cd_rawData d) /\ cd_author d = u /\
  cd_message d = message (cd_rawData d) /\
  cd_committedDate d = committedDate (cd_rawData d) /\
  cd_fetchedAt d = env_fetchedAt env.

Definition pr_doc_of (env : Env) (u rfn : string) (d : PullRequestDoc) : Prop :=
  pd_repo d = rfn /\ pd_repoOwner d = split_slash_head rfn /\
  pd_prNumber d = pr_number (pd_rawData d) /\
  pd_title d = pr_title (pd_rawData d) /\
  pd_state d = pr_state (pd_rawData d) /\ pd_author d = u /\
  pd_createdAt d = pr_createdAt (pd_rawData d) /\
  pd_closedAt d = pr_closedAt (pd_rawData d) /\
  pd_mergedAt d = pr_mergedAt (pd_rawData d) /\
  pd_fetchedAt d = env_fetchedAt env.

Definition issue_doc_of (env : Env) (u rfn : string) (d : IssueDoc) : Prop :=
  id_repo d = rfn /\ id_repoOwner d = split_slash_head rfn /\
  id_issueNumber d = issue_number (id_rawData d) /\
  id_title d = issue_title (id_rawData d) /\
  id_state d = issue_state (id_rawData d) /\ id_author d = u /\
  id_createdAt d = issue_createdAt (id_rawData d) /\
  id_closedAt d = issue_closedAt (id_rawData d) /\
  id_fetchedAt d = env_fetchedAt env.

(** The writes [ws] are the sink writes for the nodes [cs], [ps] and
    [iss]: no watermark write, at most three bulk upserts, none of them
    empty, and the documents are those of the nodes, in order. *)
Definition sinks_ok (env : Env) (u rfn : string) (cs : list CommitNode)
  (ps : list PullRequestNode) (iss : list IssueNode) (ws : list DbWrite)
  : Prop :=
  watermark_docs ws = [] /\
  map cd_rawData (commit_docs ws) = cs /\
  map pd_rawData (pr_docs ws) = ps /\
  map id_rawData (issue_docs ws) = iss /\
  Forall (fun d => empty_bulk d = false) ws /\
  (length ws <= 3)%nat /\
  Forall (commit_doc_of env u rfn) (commit_docs ws) /\
  Forall (pr_doc_of env u rfn) (pr_docs ws) /\
  Forall (issue_doc_of env u rfn) (issue_docs ws).

(** The request a full sync posts, and the one an incremental sync posts. *)
Definition full_post (cfg : ConfigService) (env : Env) (rp : RepoRef)
  (tok : string) : GraphqlPost :=
  {| post_token := tok;
     post_query := FullQuery (AppConfigService.maxCommitsPerRepo cfg)
                     (AppConfigService.maxPRsPerRepo cfg)
                     (AppConfigService.maxIssuesPerRepo cfg);
     post_variables :=
       {| var_owner := repo_owner rp; var_name := repo_name rp;
          var_since := env_analysisStartDate env;
          var_lastPRNumber := None; var_lastIssueNumber := None |} |}.

Definition incremental_post (rp : RepoRef) (tok : string)
  (lastSync : SyncMetadata) : GraphqlPost :=
  {| post_token := tok;
     post_query := IncrementalQuery;
     post_variables :=
       {| var_owner := repo_owner rp; var_name := repo_name rp;
          var_since := lastSyncDate lastSync;
          var_lastPRNumber := Some (or_zero (lastPRNumber lastSync));
          var_lastIssueNumber := Some (or_zero (lastIssueNumber lastSync)) |} |}.

(** The nodes of an answer that pass the marker tests of the
    incremental sync. *)
Definition new_commits (lastSync : SyncMetadata) (r : Repository)
  : list CommitNode :=
  List.filter (fun c =>
    negb (truthy_str (lastCommitSha lastSync)) ||
    negb (bool_decide (Some (oid c) = lastCommitSha lastSync)))
    (or_nil (history_nodes r)).

Definition new_prs (lastSync : SyncMetadata) (r : Repository)
  : list PullRequestNode :=
  List.filter (fun p =>
    gtb (Fin (pr_number p)) (or_zero (lastPRNumber lastSync)))
    (or_nil (pullRequests_nodes r)).

Definition new_issues (lastSync : SyncMetadata) (r : Repository)
  : list IssueNode :=
  List.filter (fun i =>
    gtb (Fin (issue_number i)) (or_zero (lastIssueNumber lastSync)))
    (or_nil (issues_nodes r)).

(** The counts of a full sync and of an incremental sync for an answer. *)
Definition full_counts (env : Env) (u : string) (r : Repository)
  : TotalItems :=
  counts false u (env_analysisStartDate env) (or_nil (history_nodes r))
    (or_nil (pullRequests_nodes r)) (or_nil (issues_nodes r)).

Definition incremental_counts (u : string) (lastSync : SyncMetadata)
  (r : Repository) : TotalItems :=
  counts true u (lastSyncDate lastSync) (new_commits lastSync r)
    (new_prs lastSync r) (new_issues lastSync r).

(** The componentwise sum of two records of totals. *)
Definition add_totals (a b : TotalItems) : TotalItems :=
  {| commits := commits a + commits b;
     pullRequests := pullRequests a + pullRequests b;
     issues := issues a + issues b;
     prComments := prComments a + prComments b;
     issueComments := issueComments a + issueComments b |}.

(** The record a full sync stores, and the one an incremental sync stores. *)
Definition full_doc (env : Env) (u : string) (rp : RepoRef) (r : Repository)
  : SyncMetadata :=
  {| username := u;
     repo := repo_owner rp +:+ "/" +:+ repo_name rp;
     lastSyncDate := env_syncDate env;
     lastCommitSha := oid <$> head (or_nil (history_nodes r));
     lastPRNumber := Some (Math_max
       (match pullRequests_nodes r with
        | Some nodes => map (fun pr => Fin (pr_number pr)) nodes
        | None => [Fin 0]
        end));
     lastIssueNumber := Some (Math_max
       (match issues_nodes r with
        | Some nodes => map (fun i => Fin (issue_number i)) nodes
        | None => [Fin 0]
        end));
     totalItems := full_counts env u r;
     fetchedAt := env_upsertAt env |}.

Definition incremental_doc (env : Env) (u : string) (rp : RepoRef)
  (lastSync : SyncMetadata) (r : Repository) : SyncMetadata :=
  {| username := u;
     repo := repo_owner rp +:+ "/" +:+ repo_name rp;
     lastSyncDate := env_syncDate env;
     lastCommitSha := or_str (oid <$> head (new_commits lastSync r))
                        (lastCommitSha lastSync);
     lastPRNumber := Some (Math_max
       (map (fun pr => Fin (pr_number pr)) (new_prs lastSync r) ++
        [or_zero (lastPRNumber lastSync)]));
     lastIssueNumber := Some (Math_max
       (map (fun i => Fin (issue_number i)) (new_issues lastSync r) ++
        [or_zero (lastIssueNumber lastSync)]));
     totalItems := add_totals (totalItems lastSync)
                     (incremental_counts u lastSync r);
     fetchedAt := env_upsertAt env |}.

(** The world after a sync that posted [p], wrote the sink writes [ws]
    and stored [doc] for the key [k]. *)
Definition synced_world (k : string * string) (doc : SyncMetadata)
  (ws : list DbWrite) (p : GraphqlPost) (w : World) : World :=
  {| syncMetadataModel := <[k := doc]> (syncMetadataModel w);
     dbWrites := dbWrites w ++ ws ++ [SyncMetadataUpsert doc];
     httpPosts := httpPosts w ++ [p] |}.

(** The results of the three ways of a call. *)
Definition cached_result (lastSync : SyncMetadata) : SyncResult :=
  {| result_totals := spread_hydrated (totalItems lastSync);
     isIncremental := false;
     itemsFetched := 0 |}.

Definition full_result (env : Env) (u : string) (r : Repository)
  : SyncResult :=
  {| result_totals := Some (full_counts env u r);
     isIncremental := false;
     itemsFetched := sum_totals (full_counts env u r) |}.

Definition incremental_result (u : string) (lastSync : SyncMetadata)
  (r : Repository) : SyncResult :=
  {| result_totals := Some (add_totals (totalItems lastSync)
                              (incremental_counts u lastSync r));
     isIncremental := true;
     itemsFetched := sum_totals (incremental_counts u lastSync r) |}.

(** The sink writes of the two filters for an answer. *)
Definition full_sinks_ok (env : Env) (u : string) (rp : RepoRef)
  (r : Repository) (ws : list DbWrite) : Prop :=
  sinks_ok env u (repo_owner rp +:+ "/" +:+ repo_name rp)
    (List.filter (fun c => keeps false u (env_analysisStartDate env)
                             (commit_author c) (committedDate c))
       (or_nil (history_nodes r)))
    (List.filter (fun p => keeps false u (env_analysisStartDate env)
                             (pr_author p) (pr_createdAt p))
       (or_nil (pullRequests_nodes r)))
    (List.filter (fun i => keeps false u (env_analysisStartDate env)
                             (issue_author i) (issue_createdAt i))
       (or_nil (issues_nodes r))) ws.

Definition incremental_sinks_ok (env : Env) (u : string) (rp : RepoRef)
  (lastSync : SyncMetadata) (r : Repository) (ws : list DbWrite) : Prop :=
  sinks_ok env u (repo_owner rp +:+ "/" +:+ repo_name rp)
    (List.filter (fun c => keeps true u (lastSyncDate lastSync)
                             (commit_author c) (committedDate c))
       (new_commits lastSync r))
    (List.filter (fun p => keeps true u (lastSyncDate lastSync)
                             (pr_author p) (pr_createdAt p))
       (new_prs lastSync r))
    (List.filter (fun i => keeps true u (lastSyncDate lastSync)
                             (issue_author i) (issue_createdAt i))
       (new_issues lastSync r)) ws.

(** The validity of the cache in milliseconds. *)
Definition cacheValidityMs (cfg : ConfigService) : Z :=
  AppConfigService.incrementalSyncIntervalHours cfg * 60 * 60 * 1000.

(** The totals stored for a key, zeros without a record. *)
Definition totals_before (w : World) (k : string * string) : TotalItems :=
  match syncMetadataModel w !! k with
  | Some m => totalItems m
  | None => {| commits := 0; pullRequests := 0; issues := 0;
               prComments := 0; issueComments := 0 |}
  end.

(** ** Lists, counts and tallies *)

Section Tally.

Context {A : Type} (g : A -> Z).

Lemma fold_left_add_shift (l : list A) (a : Z) :
  fold_left (fun acc x => acc + g x) l a =
  a + fold_left (fun acc x => acc + g x) l 0.
Proof.
  revert a. induction l as [|x l IH]; intros a; simpl.
  - lia.
  - rewrite (IH (a + g x)), (IH (0 + g x)). lia.
Qed.

Lemma fold_left_add_app (l1 l2 : list A) :
  fold_left (fun acc x => acc + g x) (l1 ++ l2) 0 =
  fold_left (fun acc x => acc + g x) l1 0 +
  fold_left (fun acc x => acc + g x) l2 0.
Proof.
  rewrite fold_left_app. apply fold_left_add_shift.
Qed.

Lemma fold_left_add_nonneg (l : list A) :
  (forall x, In x l -> 0 <= g x) ->
  0 <= fold_left (fun acc x => acc + g x) l 0.
Proof.
  induction l as [|x l IH]; intros H; simpl.
  - lia.
  - rewrite fold_left_add_shift.
    assert (0 <= g x) by (apply H; now left).
    assert (0 <= fold_left (fun acc y => acc + g y) l 0)
      by (apply IH; intros y Hy; apply H; now right).
    lia.
Qed.

Lemma fold_left_add_zero (l : list A) :
  (forall x, In x l -> g x = 0) ->
  fold_left (fun acc x => acc + g x) l 0 = 0.
Proof.
  induction l as [|x l IH]; intros H; simpl.
  - reflexivity.
  - rewrite fold_left_add_shift, (H x) by now left.
    rewrite IH; [lia | intros y Hy; apply H; now right].
Qed.

End Tally.

Lemma len_nonneg {A : Type} (l : list A) : 0 <= len l.
Proof. unfold len. lia. Qed.

Lemma len_filter_insert {A : Type} (f : A -> bool) (l1 l2 : list A) (x : A) :
  len (List.filter f (l1 ++ x :: l2)) =
  len (List.filter f (l1 ++ l2)) + (if f x then 1 else 0).
Proof.
  unfold len. rewrite !List.filter_app, !length_app. simpl.
  destruct (f x); simpl; lia.
Qed.

Lemma filter_insert_false {A : Type} (f : A -> bool) (l1 l2 : list A) (x : A) :
  f x = false -> List.filter f (l1 ++ x :: l2) = List.filter f (l1 ++ l2).
Proof.
  intros H. rewrite !List.filter_app. simpl. now rewrite H.
Qed.

Lemma filter_all_false {A : Type} (f : A -> bool) (l : list A) :
  (forall x, In x l -> f x = false) -> List.filter f l = [].
Proof.
  induction l as [|x l IH]; intros H; simpl.
  - reflexivity.
  - rewrite (H x) by now left. apply IH. intros y Hy. apply H. now right.
Qed.

Lemma tally_app {A : Type} (co : A -> option (list CommentNode))
  (strict : bool) (u : string) (bound : Z) (l1 l2 : list A) :
  tally co strict u bound (l1 ++ l2) =
  tally co strict u bound l1 + tally co strict u bound l2.
Proof. unfold tally. apply fold_left_add_app. Qed.

Lemma tally_cons {A : Type} (co : A -> option (list CommentNode))
  (strict : bool) (u : string) (bound : Z) (x : A) (l : list A) :
  tally co strict u bound (x :: l) =
  len (List.filter (fun c =>
         keeps strict u bound (comment_author c) (comment_createdAt c))
         (or_nil (co x))) + tally co strict u bound l.
Proof.
  unfold tally. simpl. now rewrite fold_left_add_shift.
Qed.

Lemma tally_nonneg {A : Type} (co : A -> option (list CommentNode))
  (strict : bool) (u : string) (bound : Z) (l : list A) :
  0 <= tally co strict u bound l.
Proof.
  unfold tally. apply fold_left_add_nonneg. intros x _. apply len_nonneg.
Qed.

Lemma counts_nonneg (strict : bool) (u : string) (bound : Z)
  (cs : list CommitNode) (ps : list PullRequestNode) (iss : list IssueNode) :
  0 <= commits (counts strict u bound cs ps iss) /\
  0 <= pullRequests (counts strict u bound cs ps iss) /\
  0 <= issues (counts strict u bound cs ps iss) /\
  0 <= prComments (counts strict u bound cs ps iss) /\
  0 <= issueComments (counts strict u bound cs ps iss).
Proof.
  simpl. repeat split; auto using len_nonneg, tally_nonneg.
Qed.

(** ** What the methods do to the world *)

Lemma add_writes_nil (w : World) : add_writes [] w = w.
Proof. destruct w. unfold add_writes. simpl. now rewrite app_nil_r. Qed.

Lemma add_writes_add_writes (a b : list DbWrite) (w : World) :
  add_writes b (add_writes a w) = add_writes (a ++ b) w.
Proof. unfold add_writes. simpl. now rewrite app_assoc. Qed.

Lemma db_write_run (d : DbWrite) (w : World) :
  db_write d w = (add_writes [d] w, Return tt).
Proof. reflexivity. Qed.

Lemma cacheDataToMongoDB_run (env : Env) (u rfn : string)
  (cs : list CommitNode) (ps : list PullRequestNode) (iss : list IssueNode)
  (w : World) :
  exists ws, cacheDataToMongoDB env u rfn cs ps iss w =
             (add_writes ws w, Return tt).
Proof.
  unfold cacheDataToMongoDB, bind, ret.
  destruct (0 <? len cs); destruct (0 <? len ps); destruct (0 <? len iss);
    rewrite ?db_write_run, ?add_writes_add_writes;
    try (eexists; reflexivity).
  exists []. now rewrite add_writes_nil.
Qed.

Lemma processAndCacheFullData_run (env : Env) (u rfn : string)
  (r : Repository) (h : Z) (w : World) :
  exists ws, processAndCacheFullData env u rfn r h w =
             (add_writes ws w,
              Return (counts false u h (or_nil (history_nodes r))
                        (or_nil (pullRequests_nodes r))
                        (or_nil (issues_nodes r)))).
Proof.
  unfold processAndCacheFullData, bind, ret.
  match goal with
  | |- context [cacheDataToMongoDB ?e ?a ?b ?c ?d ?f w] =>
      destruct (cacheDataToMongoDB_run e a b c d f w) as [ws ->]
  end.
  exists ws. reflexivity.
Qed.

Lemma processAndCacheIncrementalData_run (env : Env) (u rfn : string)
  (cs : list CommitNode) (ps : list PullRequestNode) (iss : list IssueNode)
  (last : Z) (w : World) :
  exists ws, processAndCacheIncrementalData env u rfn cs ps iss last w =
             (add_writes ws w, Return (counts true u last cs ps iss)).
Proof.
  unfold processAndCacheIncrementalData, bind, ret.
  match goal with
  | |- context [cacheDataToMongoDB ?e ?a ?b ?c ?d ?f w] =>
      destruct (cacheDataToMongoDB_run e a b c d f w) as [ws ->]
  end.
  exists ws. reflexivity.
Qed.

Lemma itemsFetched_sum (t : TotalItems) :
  fold_left Z.add (Object_values t) 0 =
  commits t + pullRequests t + issues t + prComments t + issueComments t.
Proof. unfold Object_values. simpl. lia. Qed.

Lemma set_field_None {A : Type} (given : option A) :
  set_field given None = given.
Proof. now destruct given. Qed.

(** A marker computed with the stored one as fallback is never left out. *)
Lemma set_field_or_str (a b : option string) :
  set_field (or_str a b) b = or_str a b.
Proof.
  unfold or_str, set_field. destruct a as [s|]; simpl.
  - now destruct (negb (String.eqb s "")), b.
  - now destruct b.
Qed.

(** A full sync for a key without record whose query is answered with a
    repository returns the counts of the inclusive filter and creates
    the record of the key. *)
Lemma performFullSync_resolved (cfg : ConfigService) (env : Env) (u : string)
  (rp : RepoRef) (tok : string) (r : Repository) (w : World) :
  env_response env = resolved r ->
  syncMetadataModel w !! key_of u rp = None ->
  let t := counts false u (env_analysisStartDate env)
             (or_nil (history_nodes r)) (or_nil (pullRequests_nodes r))
             (or_nil (issues_nodes r)) in
  let doc :=
    {| username := u;
       repo := repo_owner rp +:+ "/" +:+ repo_name rp;
       lastSyncDate := env_syncDate env;
       lastCommitSha := oid <$> head (or_nil (history_nodes r));
       lastPRNumber := Some (Math_max
         (match pullRequests_nodes r with
          | Some nodes => map (fun pr => Fin (pr_number pr)) nodes
          | None => [Fin 0]
          end));
       lastIssueNumber := Some (Math_max
         (match issues_nodes r with
          | Some nodes => map (fun i => Fin (issue_number i)) nodes
          | None => [Fin 0]
          end));
       totalItems := t;
       fetchedAt := env_upsertAt env |} in
  exists w',
    performFullSync cfg env u rp tok w =
      (w', Return {| result_totals := Some t;
                     isIncremental := false;
                     itemsFetched := fold_left Z.add (Object_values t) 0 |}) /\
    syncMetadataModel w' = <[key_of u rp := doc]> (syncMetadataModel w).
Proof.
  intros Hresp Hnone t doc. unfold key_of in Hnone.
  unfold performFullSync, graphqlRequest, bind. rewrite Hresp. simpl.
  match goal with
  | |- context [processAndCacheFullData ?e ?a ?b ?c ?d ?w0] =>
      destruct (processAndCacheFullData_run e a b c d w0) as [ws ->]
  end.
  simpl. rewrite Hnone. simpl. rewrite set_field_None.
  eexists. split; reflexivity.
Qed.

(** An incremental sync whose query is answered with a repository
    returns the stored totals plus the counts of the strict filter over
    the nodes that pass the marker tests, and replaces the record. *)
Lemma performIncrementalSync_resolved (cfg : ConfigService) (env : Env)
  (u : string) (rp : RepoRef) (tok : string) (lastSync : SyncMetadata)
  (r : Repository) (w : World) :
  env_response env = resolved r ->
  let newCommits := List.filter (fun c =>
    negb (truthy_str (lastCommitSha lastSync)) ||
    negb (bool_decide (Some (oid c) = lastCommitSha lastSync)))
    (or_nil (history_nodes r)) in
  let newPRs := List.filter (fun p =>
    gtb (Fin (pr_number p)) (or_zero (lastPRNumber lastSync)))
    (or_nil (pullRequests_nodes r)) in
  let newIssues := List.filter (fun i =>
    gtb (Fin (issue_number i)) (or_zero (lastIssueNumber lastSync)))
    (or_nil (issues_nodes r)) in
  let n := counts true u (lastSyncDate lastSync) newCommits newPRs newIssues in
  let t :=
    {| commits := commits (totalItems lastSync) + commits n;
       pullRequests := pullRequests (totalItems lastSync) + pullRequests n;
       issues := issues (totalItems lastSync) + issues n;
       prComments := prComments (totalItems lastSync) + prComments n;
       issueComments := issueComments (totalItems lastSync) + issueComments n |} in
  exists w' doc,
    performIncrementalSync env u rp tok lastSync w =
      (w', Return {| result_totals := Some t;
                     isIncremental := true;
                     itemsFetched := fold_left Z.add (Object_values n) 0 |}) /\
    syncMetadataModel w' = <[key_of u rp := doc]> (syncMetadataModel w) /\
    totalItems doc = t /\
    lastSyncDate doc = env_syncDate env.
Proof.
  intros Hresp newCommits newPRs newIssues n t.
  unfold performIncrementalSync, graphqlRequest, bind. rewrite Hresp. simpl.
  replace (or_nil (List.filter _ <$> history_nodes r)) with newCommits
    by (subst newCommits; now destruct (history_nodes r)).
  replace (or_nil (List.filter _ <$> pullRequests_nodes r)) with newPRs
    by (subst newPRs; now destruct (pullRequests_nodes r)).
  replace (or_nil (List.filter _ <$> issues_nodes r)) with newIssues
    by (subst newIssues; now destruct (issues_nodes r)).
  match goal with
  | |- context [processAndCacheIncrementalData ?e ?a ?b ?c ?d ?f ?g ?w0] =>
      destruct (processAndCacheIncrementalData_run e a b c d f g w0) as [ws ->]
  end.
  simpl. eexists. eexists. split; [reflexivity|]. simpl. auto.
Qed.

(** The message of the error thrown for a failing answer. *)
Lemma request_fails (cfg : ConfigService) (env : Env) (u : string)
  (rp : RepoRef) (tok : string) (b : ResponseBody) (w : World) :
  env_response env = HttpResolved b ->
  upstream_failure b ->
  let msg :=
    match resp_errors b with
    | Some errors => "GitHub GraphQL error: " +:+
                     or_else_str (head errors ≫= err_message) "Unknown error"
    | None => "Repository " +:+ (repo_owner rp +:+ "/" +:+ repo_name rp) +:+
              " not found"
    end in
  (exists w', performFullSync cfg env u rp tok w = (w', Throw (Error msg)) /\
              syncMetadataModel w' = syncMetadataModel w /\
              dbWrites w' = dbWrites w) /\
  (forall lastSync,
      exists w', performIncrementalSync env u rp tok lastSync w =
                   (w', Throw (Error msg)) /\
                 syncMetadataModel w' = syncMetadataModel w /\
                 dbWrites w' = dbWrites w).
Proof.
  intros Hresp Hfail msg. subst msg.
  split; [|intros lastSync];
    unfold performFullSync, performIncrementalSync, graphqlRequest, bind, throw;
    rewrite Hresp;
    (destruct Hfail as [[errs He] | [He Hd]]; rewrite He;
     [|rewrite Hd; simpl]);
    (eexists; split; [reflexivity|]; simpl; auto).
Qed.

(** What a call that returns must have been answered. *)
Lemma performFullSync_returns_inv (cfg : ConfigService) (env : Env)
  (u : string) (rp : RepoRef) (tok : string) (w w' : World) (res : SyncResult) :
  performFullSync cfg env u rp tok w = (w', Return res) ->
  exists r, env_response env = resolved r.
Proof.
  unfold performFullSync, graphqlRequest, bind, throw, resolved.
  destruct (env_response env) as [reason | [[errs|] [[[r|]]|]]]; simpl;
    try discriminate.
  intros _. now exists r.
Qed.

Lemma performIncrementalSync_returns_inv (env : Env) (u : string)
  (rp : RepoRef) (tok : string) (lastSync : SyncMetadata) (w w' : World)
  (res : SyncResult) :
  performIncrementalSync env u rp tok lastSync w = (w', Return res) ->
  exists r, env_response env = resolved r.
Proof.
  unfold performIncrementalSync, graphqlRequest, bind, throw, resolved.
  destruct (env_response env) as [reason | [[errs|] [[[r|]]|]]]; simpl;
    try discriminate.
  intros _. now exists r.
Qed.

(** The three ways of [syncUserRepoActivity]. *)
Lemma syncUserRepoActivity_first (cfg : ConfigService) (env : Env)
  (u : string) (rp : RepoRef) (tok : string) (w : World) :
  syncMetadataModel w !! key_of u rp = None ->
  syncUserRepoActivity cfg env u rp tok w = performFullSync cfg env u rp tok w.
Proof.
  intros H. unfold syncUserRepoActivity, bind,
    SyncMetadataService.findByUsernameAndRepo.
  unfold key_of in H. now rewrite H.
Qed.

Lemma syncUserRepoActivity_fresh (cfg : ConfigService) (env : Env)
  (u : string) (rp : RepoRef) (tok : string) (w : World)
  (lastSync : SyncMetadata) :
  syncMetadataModel w !! key_of u rp = Some lastSync ->
  env_now env - lastSyncDate lastSync <
    AppConfigService.incrementalSyncIntervalHours cfg * 60 * 60 * 1000 ->
  syncUserRepoActivity cfg env u rp tok w =
    (w, Return {| result_totals := None;
                  isIncremental := false;
                  itemsFetched := 0 |}).
Proof.
  intros H Hage. unfold syncUserRepoActivity, bind, ret,
    SyncMetadataService.findByUsernameAndRepo.
  unfold key_of in H. rewrite H.
  apply Z.ltb_lt in Hage. now rewrite Hage.
Qed.

Lemma syncUserRepoActivity_stale (cfg : ConfigService) (env : Env)
  (u : string) (rp : RepoRef) (tok : string) (w : World)
  (lastSync : SyncMetadata) :
  syncMetadataModel w !! key_of u rp = Some lastSync ->
  AppConfigService.incrementalSyncIntervalHours cfg * 60 * 60 * 1000 <=
    env_now env - lastSyncDate lastSync ->
  syncUserRepoActivity cfg env u rp tok w =
    performIncrementalSync env u rp tok lastSync w.
Proof.
  intros H Hage. unfold syncUserRepoActivity, bind, ret,
    SyncMetadataService.findByUsernameAndRepo.
  unfold key_of in H. rewrite H.
  apply Z.ltb_ge in Hage. now rewrite Hage.
Qed.

(** ** The properties *)

(** C3, in the code. When a watermark record exists for the key and
    [now - lastSyncDate] is strictly below the configured incremental
    interval, [syncUserRepoActivity] returns with [isIncremental = false]
    and [itemsFetched = 0], and the world after the call is the world
    before it: no HTTP request was posted, no sink was written and the
    watermark collection is as it was. The object returned, though,
    carries none of the five stored totals: the code spreads the
    [totalItems] of the hydrated record, and that spread copies none of
    them. *)
Theorem C3_cache_hit_returns_no_totals (cfg : ConfigService) (env : Env)
  (u : string) (rp : RepoRef) (tok : string) (w : World)
  (lastSync : SyncMetadata) :
  syncMetadataModel w !! key_of u rp = Some lastSync ->
  env_now env - lastSyncDate lastSync <
    AppConfigService.incrementalSyncIntervalHours cfg * 60 * 60 * 1000 ->
  exists res,
    syncUserRepoActivity cfg env u rp tok w = (w, Return res) /\
    result_totals res = None /\
    isIncremental res = false /\
    itemsFetched res = 0.
Proof.
  intros H Hage. eexists. split.
  - exact (syncUserRepoActivity_fresh _ _ _ _ _ _ _ H Hage).
  - simpl. auto.
Qed.

(** The second call of the scenario, one hour after the first: the
    record holds the totals 3, 1, 0, 2, 0 and the call returns none. *)
Lemma C3_cache_hit_witness :
  totalItems <$>
    (syncMetadataModel Scenario.after_first !! key_of "octocat" Scenario.demo)
    = Some {| commits := 3; pullRequests := 1; issues := 0;
              prComments := 2; issueComments := 0 |} /\
  exists res,
    syncUserRepoActivity Scenario.defaults Scenario.second_call "octocat"
      Scenario.demo "token" Scenario.after_first =
      (Scenario.after_first, Return res) /\
    result_totals res = None /\
    isIncremental res = false /\
    itemsFetched res = 0.
Proof.
  split; [vm_compute; reflexivity|].
  eapply (C3_cache_hit_returns_no_totals Scenario.defaults
            Scenario.second_call "octocat" Scenario.demo "token"
            Scenario.after_first Scenario.stored_after_first).
  - vm_compute. reflexivity.
  - vm_compute. reflexivity.
Defined.

(** C1. Empty-window watermark. A first (full) sync answered with an
    empty array of pull-request nodes stores as [lastPRNumber] the value
    of [Math.max()] taken over no argument, which is [-Infinity]: the
    [|| [0]] fallback of the code only applies when the node array is
    missing, not when it is empty. The same holds of [lastIssueNumber]
    for an empty array of issue nodes; with the node array missing the
    stored number is [0]. *)
Theorem C1_full_sync_empty_window_stores_neg_infinity (cfg : ConfigService)
  (env : Env) (u : string) (rp : RepoRef) (tok : string)
  (hist : option (list CommitNode)) :
  (forall iss,
     let r := {| history_nodes := hist; pullRequests_nodes := Some [];
                 issues_nodes := iss |} in
     exists w' res doc,
       syncUserRepoActivity cfg (with_response env (resolved r)) u rp tok
         Scenario.empty_world = (w', Return res) /\
       syncMetadataModel w' !! key_of u rp = Some doc /\
       lastPRNumber doc = Some (Math_max []) /\
       Math_max [] = NegInfinity) /\
  (forall prs,
     let r := {| history_nodes := hist; pullRequests_nodes := prs;
                 issues_nodes := Some [] |} in
     exists w' res doc,
       syncUserRepoActivity cfg (with_response env (resolved r)) u rp tok
         Scenario.empty_world = (w', Return res) /\
       syncMetadataModel w' !! key_of u rp = Some doc /\
       lastIssueNumber doc = Some (Math_max []) /\
       Math_max [] = NegInfinity) /\
  (let r := {| history_nodes := hist; pullRequests_nodes := None;
               issues_nodes := None |} in
   exists w' res doc,
     syncUserRepoActivity cfg (with_response env (resolved r)) u rp tok
       Scenario.empty_world = (w', Return res) /\
     syncMetadataModel w' !! key_of u rp = Some doc /\
     lastPRNumber doc = Some (Fin 0) /\
     lastIssueNumber doc = Some (Fin 0)).
Proof.
  repeat split; [intros iss r | intros prs r | intros r];
    rewrite syncUserRepoActivity_first by apply lookup_empty;
    (destruct (performFullSync_resolved cfg (with_response env (resolved r))
                 u rp tok r Scenario.empty_world eq_refl (lookup_empty _))
       as (w' & Hrun & Hst));
    (eexists; eexists; eexists; split; [exact Hrun|]);
    rewrite Hst, lookup_insert_eq; (split; [reflexivity|]); simpl; auto.
Qed.

(** C8, as the code has it. A first (full) sync that returns reports as
    [itemsFetched] the sum of its five counts, the comment counts
    included, and these counts are the totals it returns. *)
Theorem C8_full_sync_itemsFetched_sums_all_five (cfg : ConfigService)
  (env : Env) (u : string) (rp : RepoRef) (tok : string) (w w' : World)
  (res : SyncResult) :
  syncMetadataModel w !! key_of u rp = None ->
  syncUserRepoActivity cfg env u rp tok w = (w', Return res) ->
  isIncremental res = false /\
  exists t,
    result_totals res = Some t /\
    itemsFetched res =
      commits t + pullRequests t + issues t + prComments t + issueComments t.
Proof.
  intros Hnone Hrun. rewrite syncUserRepoActivity_first in Hrun by exact Hnone.
  destruct (performFullSync_returns_inv _ _ _ _ _ _ _ _ Hrun) as [r Hr].
  destruct (performFullSync_resolved cfg env u rp tok r w Hr Hnone)
    as (w2 & Hrun2 & _).
  rewrite Hrun2 in Hrun. injection Hrun as _ <-.
  split; [reflexivity|]. eexists. split; [reflexivity|].
  simpl. lia.
Qed.

(** In the scenario (3 commits, 1 pull request, no issue, 2 pull-request
    comments, no issue comment) the first call reports 6 items. *)
Lemma C8_scenario_witness :
  exists w' res,
    syncUserRepoActivity Scenario.defaults Scenario.first_call "octocat"
      Scenario.demo "token" Scenario.empty_world = (w', Return res) /\
    isIncremental res = false /\
    exists t,
      result_totals res = Some t /\
      t = {| commits := 3; pullRequests := 1; issues := 0;
             prComments := 2; issueComments := 0 |} /\
      itemsFetched res = 3 + 1 + 0 + 2 + 0.
Proof.
  destruct (C8_full_sync_itemsFetched_sums_all_five Scenario.defaults
              Scenario.first_call "octocat" Scenario.demo "token"
              Scenario.empty_world
              (syncUserRepoActivity Scenario.defaults Scenario.first_call
                 "octocat" Scenario.demo "token" Scenario.empty_world).1
              {| result_totals :=
                   Some {| commits := 3; pullRequests := 1; issues := 0;
                           prComments := 2; issueComments := 0 |};
                 isIncremental := false; itemsFetched := 6 |})
    as (Hinc & t & Ht & Hsum).
  - reflexivity.
  - reflexivity.
  - eexists. eexists. split; [reflexivity|]. split; [exact Hinc|].
    exists t. split; [exact Ht|]. injection Ht as <-.
    split; [reflexivity | exact Hsum].
Defined.

(** C8, as stated, fails: in the scenario the first call returns the
    totals 3, 1, 0, 2, 0 and [itemsFetched = 6], not 4. *)
Lemma C8_scenario_itemsFetched_is_not_4 :
  exists w' res,
    syncUserRepoActivity Scenario.defaults Scenario.first_call "octocat"
      Scenario.demo "token" Scenario.empty_world = (w', Return res) /\
    result_totals res =
      Some {| commits := 3; pullRequests := 1; issues := 0;
              prComments := 2; issueComments := 0 |} /\
    itemsFetched res = 6 /\
    itemsFetched res <> 4.
Proof.
  eexists. eexists. split; [reflexivity|].
  split; [reflexivity|]. split; [reflexivity|]. discriminate.
Qed.

(** After a call that returns, the key has a record; the totals the
    call returns, when it returns any, are the ones stored. *)
Lemma sync_returns_stored (cfg : ConfigService) (env : Env) (u : string)
  (rp : RepoRef) (tok : string) (w w' : World) (res : SyncResult) :
  syncUserRepoActivity cfg env u rp tok w = (w', Return res) ->
  exists doc, syncMetadataModel w' !! key_of u rp = Some doc /\
              (forall t, result_totals res = Some t -> t = totalItems doc).
Proof.
  intros Hrun.
  destruct (syncMetadataModel w !! key_of u rp) as [lastSync|] eqn:Hlook.
  - destruct (Z_lt_le_dec (env_now env - lastSyncDate lastSync)
                (AppConfigService.incrementalSyncIntervalHours cfg
                 * 60 * 60 * 1000)) as [Hfresh|Hstale].
    + rewrite (syncUserRepoActivity_fresh _ _ _ _ _ _ _ Hlook Hfresh) in Hrun.
      injection Hrun as <- <-. exists lastSync. split; [exact Hlook|].
      intros t Ht. discriminate.
    + rewrite (syncUserRepoActivity_stale _ _ _ _ _ _ _ Hlook Hstale) in Hrun.
      destruct (performIncrementalSync_returns_inv _ _ _ _ _ _ _ _ Hrun)
        as [r Hr].
      destruct (performIncrementalSync_resolved cfg env u rp tok lastSync r w Hr)
        as (w2 & doc & Hrun2 & Hst & Htot & _).
      rewrite Hrun2 in Hrun. injection Hrun as <- <-.
      exists doc. rewrite Hst, lookup_insert_eq. split; [reflexivity|].
      intros t Ht. injection Ht as <-. now rewrite Htot.
  - rewrite syncUserRepoActivity_first in Hrun by exact Hlook.
    destruct (performFullSync_returns_inv _ _ _ _ _ _ _ _ Hrun) as [r Hr].
    destruct (performFullSync_resolved cfg env u rp tok r w Hr Hlook)
      as (w2 & Hrun2 & Hst).
    rewrite Hrun2 in Hrun. injection Hrun as <- <-.
    eexists. rewrite Hst, lookup_insert_eq. split; [reflexivity|].
    intros t Ht. injection Ht as <-. reflexivity.
Qed.

(** A call that returns never lowers the totals stored for the key. *)
Lemma sync_totals_grow (cfg : ConfigService) (env : Env) (u : string)
  (rp : RepoRef) (tok : string) (w w' : World) (res : SyncResult)
  (lastSync : SyncMetadata) :
  syncMetadataModel w !! key_of u rp = Some lastSync ->
  syncUserRepoActivity cfg env u rp tok w = (w', Return res) ->
  exists doc, syncMetadataModel w' !! key_of u rp = Some doc /\
              totals_le (totalItems lastSync) (totalItems doc).
Proof.
  intros Hlook Hrun.
  destruct (Z_lt_le_dec (env_now env - lastSyncDate lastSync)
              (AppConfigService.incrementalSyncIntervalHours cfg
               * 60 * 60 * 1000)) as [Hfresh|Hstale].
  - rewrite (syncUserRepoActivity_fresh _ _ _ _ _ _ _ Hlook Hfresh) in Hrun.
    injection Hrun as <- _. exists lastSync. split; [exact Hlook|].
    unfold totals_le. lia.
  - rewrite (syncUserRepoActivity_stale _ _ _ _ _ _ _ Hlook Hstale) in Hrun.
    destruct (performIncrementalSync_returns_inv _ _ _ _ _ _ _ _ Hrun)
      as [r Hr].
    destruct (performIncrementalSync_resolved cfg env u rp tok lastSync r w Hr)
      as (w2 & doc & Hrun2 & Hst & Htot & _).
    rewrite Hrun2 in Hrun. injection Hrun as <- _.
    exists doc. rewrite Hst, lookup_insert_eq. split; [reflexivity|].
    rewrite Htot.
    unfold totals_le. cbn [commits pullRequests issues
                           prComments issueComments].
    match goal with
    | |- context [counts ?s ?a ?b ?cs ?ps ?iss] =>
        pose proof (counts_nonneg s a b cs ps iss)
    end.
    lia.
Qed.

(** C2. Monotonicity. In any sequence of sequential calls of
    [syncUserRepoActivity] for one key, if the call number [n] and the
    call after it both return, then the key has a record after each of
    them, and each of the five totals stored after the later call is at
    least the one stored after the earlier call; the totals a call
    returns, when it returns any, are the ones stored after it. *)
Theorem C2_totals_monotone_across_syncs (cfg : ConfigService) (u : string)
  (rp : RepoRef) (tok : string) (envs : list Env) (w : World) (n : nat)
  (w1 w2 : World) (r1 r2 : SyncResult) :
  syncMany cfg u rp tok envs w !! n = Some (w1, Return r1) ->
  syncMany cfg u rp tok envs w !! S n = Some (w2, Return r2) ->
  exists d1 d2,
    syncMetadataModel w1 !! key_of u rp = Some d1 /\
    syncMetadataModel w2 !! key_of u rp = Some d2 /\
    totals_le (totalItems d1) (totalItems d2) /\
    (forall t, result_totals r1 = Some t -> t = totalItems d1) /\
    (forall t, result_totals r2 = Some t -> t = totalItems d2).
Proof.
  revert w n. induction envs as [|e1 envs IH]; intros w n Hn HSn.
  - discriminate.
  - destruct n as [|n].
    + destruct envs as [|e2 envs]; [discriminate|].
      simpl in Hn, HSn. injection Hn as Hn. injection HSn as HSn.
      rewrite Hn in HSn. simpl in HSn.
      destruct (sync_returns_stored _ _ _ _ _ _ _ _ Hn) as (d1 & Hd1 & Hr1).
      destruct (sync_returns_stored _ _ _ _ _ _ _ _ HSn) as (d2 & Hd2 & Hr2).
      destruct (sync_totals_grow _ _ _ _ _ _ _ _ _ Hd1 HSn)
        as (d2' & Hd2' & Hle).
      rewrite Hd2 in Hd2'. injection Hd2' as <-.
      exists d1, d2. auto.
    + simpl in Hn, HSn. exact (IH _ _ Hn HSn).
Qed.

(** The three calls of the scenario: after the second (served from the
    record) the stored commits are 3, after the third (incremental, one
    new commit) they are 4. *)
Lemma C2_scenario_witness :
  exists w1 r1 w2 r2 d1 d2,
    syncMany Scenario.defaults "octocat" Scenario.demo "token"
      [Scenario.first_call; Scenario.second_call; Scenario.third_call]
      Scenario.empty_world !! 1%nat = Some (w1, Return r1) /\
    syncMany Scenario.defaults "octocat" Scenario.demo "token"
      [Scenario.first_call; Scenario.second_call; Scenario.third_call]
      Scenario.empty_world !! 2%nat = Some (w2, Return r2) /\
    syncMetadataModel w1 !! key_of "octocat" Scenario.demo = Some d1 /\
    syncMetadataModel w2 !! key_of "octocat" Scenario.demo = Some d2 /\
    commits (totalItems d1) = 3 /\
    commits (totalItems d2) = 4 /\
    isIncremental r2 = true /\
    itemsFetched r2 = 1 /\
    totals_le (totalItems d1) (totalItems d2).
Proof.
  destruct (C2_totals_monotone_across_syncs Scenario.defaults "octocat"
              Scenario.demo "token"
              [Scenario.first_call; Scenario.second_call; Scenario.third_call]
              Scenario.empty_world 1
              (syncUserRepoActivity Scenario.defaults Scenario.second_call
                 "octocat" Scenario.demo "token" Scenario.after_first).1
              (syncUserRepoActivity Scenario.defaults Scenario.third_call
                 "octocat" Scenario.demo "token" Scenario.after_first).1
              {| result_totals := None; isIncremental := false;
                 itemsFetched := 0 |}
              {| result_totals :=
                   Some {| commits := 4; pullRequests := 1; issues := 0;
                           prComments := 2; issueComments := 0 |};
                 isIncremental := true; itemsFetched := 1 |})
    as (d1 & d2 & Hd1 & Hd2 & Hle & _).
  - vm_compute. reflexivity.
  - vm_compute. reflexivity.
  - eexists. eexists. eexists. eexists. exists d1, d2.
    split; [vm_compute; reflexivity|]. split; [vm_compute; reflexivity|].
    split; [exact Hd1|]. split; [exact Hd2|].
    vm_compute in Hd1. injection Hd1 as <-.
    vm_compute in Hd2. injection Hd2 as <-.
    split; [reflexivity|]. split; [reflexivity|].
    split; [reflexivity|]. split; [reflexivity|]. exact Hle.
Defined.

(** The strict filter keeps nothing of a snapshot with nothing after
    the bound, whatever the marker tests let through. *)
Lemma counts_nothing_after (u : string) (t : Z) (r : Repository)
  (f : CommitNode -> bool) (g : PullRequestNode -> bool)
  (h : IssueNode -> bool) :
  nothing_after t r = true ->
  counts true u t (List.filter f (or_nil (history_nodes r)))
    (List.filter g (or_nil (pullRequests_nodes r)))
    (List.filter h (or_nil (issues_nodes r))) =
  {| commits := 0; pullRequests := 0; issues := 0;
     prComments := 0; issueComments := 0 |}.
Proof.
  unfold nothing_after. rewrite !andb_true_iff, !forallb_forall.
  intros [[Hc Hp] Hi].
  assert (Hk : forall a d, (d <=? t) = true -> keeps true u t a d = false).
  { intros a d Hd. unfold keeps. apply Z.leb_le in Hd.
    replace (t <? d) with false by (symmetry; apply Z.ltb_ge; lia).
    apply andb_false_r. }
  unfold counts. f_equal.
  - rewrite filter_all_false; [reflexivity|].
    intros c Hin. apply Hk, Hc. apply List.filter_In in Hin. tauto.
  - rewrite filter_all_false; [reflexivity|].
    intros p Hin. apply List.filter_In in Hin as [Hin _].
    specialize (Hp p Hin). apply andb_true_iff in Hp. apply Hk. tauto.
  - rewrite filter_all_false; [reflexivity|].
    intros i Hin. apply List.filter_In in Hin as [Hin _].
    specialize (Hi i Hin). apply andb_true_iff in Hi. apply Hk. tauto.
  - unfold tally. apply fold_left_add_zero. intros p Hin.
    apply List.filter_In in Hin as [Hin _].
    specialize (Hp p Hin). apply andb_true_iff in Hp as [_ Hp].
    rewrite forallb_forall in Hp.
    rewrite filter_all_false; [reflexivity|].
    intros c Hc'. apply Hk, Hp, Hc'.
  - unfold tally. apply fold_left_add_zero. intros i Hin.
    apply List.filter_In in Hin as [Hin _].
    specialize (Hi i Hin). apply andb_true_iff in Hi as [_ Hi].
    rewrite forallb_forall in Hi.
    rewrite filter_all_false; [reflexivity|].
    intros c Hc'. apply Hk, Hi, Hc'.
Qed.

Lemma totals_plus_zero (t : TotalItems) :
  {| commits := commits t + 0; pullRequests := pullRequests t + 0;
     issues := issues t + 0; prComments := prComments t + 0;
     issueComments := issueComments t + 0 |} = t.
Proof. destruct t. simpl. f_equal; lia. Qed.

(** C7. No double count. Start from a key without a watermark record;
    a first call (a full sync) returns; the next call is answered with a
    snapshot in which no commit, pull request, issue or comment is
    timestamped after the [lastSyncDate] the full sync stored. Then the
    next call returns and the five totals stored for the key after it
    are those stored after the full sync, which are the totals the full
    sync returned. When the interval has elapsed, so that the next call
    is an incremental sync, it reports no fetched item and returns these
    same totals. *)
Theorem C7_no_double_count_after_full_sync (cfg : ConfigService)
  (e1 e2 : Env) (u : string) (rp : RepoRef) (tok : string)
  (w w1 : World) (r1 : SyncResult) (doc1 : SyncMetadata) (snap : Repository) :
  syncMetadataModel w !! key_of u rp = None ->
  syncUserRepoActivity cfg e1 u rp tok w = (w1, Return r1) ->
  syncMetadataModel w1 !! key_of u rp = Some doc1 ->
  env_response e2 = resolved snap ->
  nothing_after (lastSyncDate doc1) snap = true ->
  exists w2 r2 doc2,
    syncUserRepoActivity cfg e2 u rp tok w1 = (w2, Return r2) /\
    syncMetadataModel w2 !! key_of u rp = Some doc2 /\
    totalItems doc2 = totalItems doc1 /\
    result_totals r1 = Some (totalItems doc1) /\
    (AppConfigService.incrementalSyncIntervalHours cfg * 60 * 60 * 1000 <=
       env_now e2 - lastSyncDate doc1 ->
     isIncremental r2 = true /\
     itemsFetched r2 = 0 /\
     result_totals r2 = Some (totalItems doc1)).
Proof.
  intros Hnone Hrun1 Hdoc1 Hresp Hquiet.
  assert (Hr1 : result_totals r1 = Some (totalItems doc1)).
  { rewrite syncUserRepoActivity_first in Hrun1 by exact Hnone.
    destruct (performFullSync_returns_inv _ _ _ _ _ _ _ _ Hrun1) as [r Hr].
    destruct (performFullSync_resolved cfg e1 u rp tok r w Hr Hnone)
      as (w0 & Hrun0 & Hst0).
    rewrite Hrun0 in Hrun1. injection Hrun1 as <- <-.
    rewrite Hst0, lookup_insert_eq in Hdoc1. injection Hdoc1 as <-.
    reflexivity. }
  destruct (Z_lt_le_dec (env_now e2 - lastSyncDate doc1)
              (AppConfigService.incrementalSyncIntervalHours cfg
               * 60 * 60 * 1000)) as [Hfresh|Hstale].
  - rewrite (syncUserRepoActivity_fresh _ _ _ _ _ _ _ Hdoc1 Hfresh).
    eexists. eexists. exists doc1. split; [reflexivity|].
    split; [exact Hdoc1|]. split; [reflexivity|]. split; [exact Hr1|].
    intros Hle. lia.
  - rewrite (syncUserRepoActivity_stale _ _ _ _ _ _ _ Hdoc1 Hstale).
    destruct (performIncrementalSync_resolved cfg e2 u rp tok doc1 snap w1 Hresp)
      as (w2 & doc2 & Hrun2 & Hst & Hdoc2 & _).
    rewrite counts_nothing_after in Hrun2, Hdoc2 by exact Hquiet.
    cbn [commits pullRequests issues prComments issueComments] in Hrun2, Hdoc2.
    rewrite totals_plus_zero in Hrun2, Hdoc2.
    exists w2. eexists. exists doc2. split; [exact Hrun2|].
    rewrite Hst, lookup_insert_eq. split; [reflexivity|].
    split; [exact Hdoc2|]. split; [exact Hr1|].
    intros _. simpl. auto.
Qed.

(** The full sync of the scenario, then a call after the interval has
    elapsed that is answered with the same snapshot. *)
Lemma C7_scenario_witness :
  exists w2 r2 doc2,
    syncUserRepoActivity Scenario.defaults
      (with_response Scenario.third_call (resolved Scenario.snapshot))
      "octocat" Scenario.demo "token" Scenario.after_first = (w2, Return r2) /\
    syncMetadataModel w2 !! key_of "octocat" Scenario.demo = Some doc2 /\
    totalItems doc2 =
      {| commits := 3; pullRequests := 1; issues := 0;
         prComments := 2; issueComments := 0 |} /\
    isIncremental r2 = true /\
    itemsFetched r2 = 0.
Proof.
  destruct (C7_no_double_count_after_full_sync Scenario.defaults
            Scenario.first_call
            (with_response Scenario.third_call (resolved Scenario.snapshot))
            "octocat" Scenario.demo "token" Scenario.empty_world
            Scenario.after_first
            {| result_totals :=
                 Some {| commits := 3; pullRequests := 1; issues := 0;
                         prComments := 2; issueComments := 0 |};
               isIncremental := false; itemsFetched := 6 |}
            Scenario.stored_after_first
            Scenario.snapshot)
    as (w2 & r2 & doc2 & Hrun & Hst & Htot & _ & Hinc).
  - reflexivity.
  - vm_compute. reflexivity.
  - vm_compute. reflexivity.
  - reflexivity.
  - vm_compute. reflexivity.
  - exists w2, r2, doc2. split; [exact Hrun|]. split; [exact Hst|].
    split; [exact Htot|].
    assert (Hle : AppConfigService.incrementalSyncIntervalHours
                    Scenario.defaults * 60 * 60 * 1000 <=
                  env_now (with_response Scenario.third_call
                             (resolved Scenario.snapshot))
                  - lastSyncDate Scenario.stored_after_first)
      by (vm_compute; discriminate).
    destruct (Hinc Hle) as (Hi & Hf & _). split; assumption.
Defined.

(** C6. Upstream failure. When the call has to ask the data source (no
    record for the key, or a stale one) and the answer carries
    application-level errors, or carries no repository, the call throws
    an [Error]; the watermark collection and the log of sink and
    watermark writes are those of before the call. The message ends
    with the message of the first upstream error when there is one and
    it is not empty; for a missing repository it names the repository. *)
Theorem C6_upstream_failure_writes_nothing (cfg : ConfigService) (env : Env)
  (u : string) (rp : RepoRef) (tok : string) (w : World) (b : ResponseBody) :
  env_response env = HttpResolved b ->
  upstream_failure b ->
  (forall lastSync,
     syncMetadataModel w !! key_of u rp = Some lastSync ->
     AppConfigService.incrementalSyncIntervalHours cfg * 60 * 60 * 1000 <=
       env_now env - lastSyncDate lastSync) ->
  exists w' msg,
    syncUserRepoActivity cfg env u rp tok w = (w', Throw (Error msg)) /\
    syncMetadataModel w' = syncMetadataModel w /\
    dbWrites w' = dbWrites w /\
    (forall e rest m,
       resp_errors b = Some (e :: rest) -> err_message e = Some m ->
       m <> "" -> msg = "GitHub GraphQL error: " +:+ m) /\
    (resp_errors b = None ->
     msg = "Repository " +:+ (repo_owner rp +:+ "/" +:+ repo_name rp) +:+
           " not found").
Proof.
  intros Hresp Hfail Hstale.
  destruct (request_fails cfg env u rp tok b w Hresp Hfail) as [Hfull Hincr].
  assert (Hrun : exists w',
    syncUserRepoActivity cfg env u rp tok w =
      (w', Throw (Error
         match resp_errors b with
         | Some errors => "GitHub GraphQL error: " +:+
             or_else_str (head errors ≫= err_message) "Unknown error"
         | None => "Repository " +:+
             (repo_owner rp +:+ "/" +:+ repo_name rp) +:+ " not found"
         end)) /\
    syncMetadataModel w' = syncMetadataModel w /\ dbWrites w' = dbWrites w).
  { destruct (syncMetadataModel w !! key_of u rp) as [lastSync|] eqn:Hlook.
    - rewrite (syncUserRepoActivity_stale _ _ _ _ _ _ _ Hlook
                 (Hstale _ eq_refl)).
      apply Hincr.
    - rewrite syncUserRepoActivity_first by exact Hlook. apply Hfull. }
  destruct Hrun as (w' & Hrun & Hst & Hwr).
  exists w'. eexists. split; [exact Hrun|].
  split; [exact Hst|]. split; [exact Hwr|]. split.
  - intros e rest m -> Hm Hne. simpl. rewrite Hm. simpl.
    destruct (String.eqb_spec m ""); [contradiction | reflexivity].
  - intros ->. reflexivity.
Qed.

(** A first call answered with one upstream error. *)
Lemma C6_upstream_failure_witness :
  exists w',
    syncUserRepoActivity Scenario.defaults
      (with_response Scenario.first_call
         (HttpResolved
            {| resp_errors :=
                 Some [{| err_message :=
                            Some "Could not resolve to a Repository" |}];
               resp_data := None |}))
      "octocat" Scenario.demo "token" Scenario.empty_world =
      (w', Throw (Error
         "GitHub GraphQL error: Could not resolve to a Repository")) /\
    syncMetadataModel w' = ∅ /\
    dbWrites w' = [].
Proof.
  destruct (C6_upstream_failure_writes_nothing Scenario.defaults
              (with_response Scenario.first_call
                 (HttpResolved
                    {| resp_errors :=
                         Some [{| err_message :=
                                    Some "Could not resolve to a Repository" |}];
                       resp_data := None |}))
              "octocat" Scenario.demo "token" Scenario.empty_world
              {| resp_errors :=
                   Some [{| err_message :=
                              Some "Could not resolve to a Repository" |}];
                 resp_data := None |})
    as (w' & msg & Hrun & Hst & Hwr & Hmsg & _).
  - reflexivity.
  - left. eexists. reflexivity.
  - intros lastSync H. vm_compute in H. discriminate.
  - exists w'.
    rewrite (Hmsg _ _ _ eq_refl eq_refl) in Hrun by discriminate.
    auto.
Defined.

(** *** The activity filter *)

Lemma full_returns (env : Env) (u rfn : string) (r : Repository) (h : Z)
  (w : World) :
  returned (processAndCacheFullData env u rfn r h w) =
  Some (counts false u h (or_nil (history_nodes r))
          (or_nil (pullRequests_nodes r)) (or_nil (issues_nodes r))).
Proof.
  destruct (processAndCacheFullData_run env u rfn r h w) as [ws ->].
  reflexivity.
Qed.

Lemma incremental_returns (env : Env) (u rfn : string)
  (cs : list CommitNode) (ps : list PullRequestNode) (iss : list IssueNode)
  (last : Z) (w : World) :
  returned (processAndCacheIncrementalData env u rfn cs ps iss last w) =
  Some (counts true u last cs ps iss).
Proof.
  destruct (processAndCacheIncrementalData_run env u rfn cs ps iss last w)
    as [ws ->].
  reflexivity.
Qed.

Lemma keeps_at_bound_inclusive (u : string) (b : Z) :
  keeps false u b (Some u) b = true.
Proof.
  unfold keeps. rewrite bool_decide_eq_true_2 by reflexivity.
  simpl. apply Z.leb_refl.
Qed.

Lemma keeps_at_bound_strict (u : string) (a : option string) (b : Z) :
  keeps true u b a b = false.
Proof.
  unfold keeps. rewrite Z.ltb_irrefl. apply andb_false_r.
Qed.

Lemma tally_insert_pr_comment (strict : bool) (u : string) (b : Z)
  (l1 l2 : list PullRequestNode) (p : PullRequestNode)
  (cs1 cs2 : list CommentNode) (k : CommentNode) :
  tally pr_comments strict u b
    (l1 ++ with_pr_comments p (cs1 ++ k :: cs2) :: l2) =
  tally pr_comments strict u b (l1 ++ with_pr_comments p (cs1 ++ cs2) :: l2) +
  (if keeps strict u b (comment_author k) (comment_createdAt k)
   then 1 else 0).
Proof.
  rewrite !tally_app, !tally_cons. simpl.
  rewrite (len_filter_insert (fun c =>
    keeps strict u b (comment_author c) (comment_createdAt c))).
  lia.
Qed.

Lemma tally_insert_issue_comment (strict : bool) (u : string) (b : Z)
  (l1 l2 : list IssueNode) (i : IssueNode)
  (cs1 cs2 : list CommentNode) (k : CommentNode) :
  tally issue_comments strict u b
    (l1 ++ with_issue_comments i (cs1 ++ k :: cs2) :: l2) =
  tally issue_comments strict u b
    (l1 ++ with_issue_comments i (cs1 ++ cs2) :: l2) +
  (if keeps strict u b (comment_author k) (comment_createdAt k)
   then 1 else 0).
Proof.
  rewrite !tally_app, !tally_cons. simpl.
  rewrite (len_filter_insert (fun c =>
    keeps strict u b (comment_author c) (comment_createdAt c))).
  lia.
Qed.

(** C4. Boundary timestamps. The filter of the full sync is inclusive:
    adding to the raw nodes a commit, pull request or issue authored by
    the user and timestamped exactly at the horizon raises the
    corresponding count by one, and so does adding such a comment to a
    pull request or an issue. The filter of the incremental sync is
    strict: adding a commit or a comment timestamped exactly at
    [lastSyncDate] leaves all five counts as they are, and adding such a
    pull request or issue leaves the pull-request and issue counts as
    they are. *)
Theorem C4_inclusive_full_strict_incremental (env : Env) (u rfn : string)
  (bound : Z) (w : World) :
  (forall r l1 l2 c,
     commit_author c = Some u -> committedDate c = bound ->
     exists t t',
       returned (processAndCacheFullData env u rfn
                   (with_history r (l1 ++ c :: l2)) bound w) = Some t /\
       returned (processAndCacheFullData env u rfn
                   (with_history r (l1 ++ l2)) bound w) = Some t' /\
       commits t = commits t' + 1) /\
  (forall r l1 l2 p,
     pr_author p = Some u -> pr_createdAt p = bound ->
     exists t t',
       returned (processAndCacheFullData env u rfn
                   (with_pullRequests r (l1 ++ p :: l2)) bound w) = Some t /\
       returned (processAndCacheFullData env u rfn
                   (with_pullRequests r (l1 ++ l2)) bound w) = Some t' /\
       pullRequests t = pullRequests t' + 1) /\
  (forall r l1 l2 i,
     issue_author i = Some u -> issue_createdAt i = bound ->
     exists t t',
       returned (processAndCacheFullData env u rfn
                   (with_issues r (l1 ++ i :: l2)) bound w) = Some t /\
       returned (processAndCacheFullData env u rfn
                   (with_issues r (l1 ++ l2)) bound w) = Some t' /\
       issues t = issues t' + 1) /\
  (forall r l1 l2 p cs1 cs2 k,
     comment_author k = Some u -> comment_createdAt k = bound ->
     exists t t',
       returned (processAndCacheFullData env u rfn
                   (with_pullRequests r
                      (l1 ++ with_pr_comments p (cs1 ++ k :: cs2) :: l2))
                   bound w) = Some t /\
       returned (processAndCacheFullData env u rfn
                   (with_pullRequests r
                      (l1 ++ with_pr_comments p (cs1 ++ cs2) :: l2))
                   bound w) = Some t' /\
       prComments t = prComments t' + 1) /\
  (forall r l1 l2 i cs1 cs2 k,
     comment_author k = Some u -> comment_createdAt k = bound ->
     exists t t',
       returned (processAndCacheFullData env u rfn
                   (with_issues r
                      (l1 ++ with_issue_comments i (cs1 ++ k :: cs2) :: l2))
                   bound w) = Some t /\
       returned (processAndCacheFullData env u rfn
                   (with_issues r
                      (l1 ++ with_issue_comments i (cs1 ++ cs2) :: l2))
                   bound w) = Some t' /\
       issueComments t = issueComments t' + 1) /\
  (forall ps iss l1 l2 c,
     committedDate c = bound ->
     exists t,
       returned (processAndCacheIncrementalData env u rfn
                   (l1 ++ c :: l2) ps iss bound w) = Some t /\
       returned (processAndCacheIncrementalData env u rfn
                   (l1 ++ l2) ps iss bound w) = Some t) /\
  (forall cs iss l1 l2 p,
     pr_createdAt p = bound ->
     exists t t',
       returned (processAndCacheIncrementalData env u rfn
                   cs (l1 ++ p :: l2) iss bound w) = Some t /\
       returned (processAndCacheIncrementalData env u rfn
                   cs (l1 ++ l2) iss bound w) = Some t' /\
       pullRequests t = pullRequests t') /\
  (forall cs ps l1 l2 i,
     issue_createdAt i = bound ->
     exists t t',
       returned (processAndCacheIncrementalData env u rfn
                   cs ps (l1 ++ i :: l2) bound w) = Some t /\
       returned (processAndCacheIncrementalData env u rfn
                   cs ps (l1 ++ l2) bound w) = Some t' /\
       issues t = issues t') /\
  (forall cs iss l1 l2 p cs1 cs2 k,
     comment_createdAt k = bound ->
     exists t,
       returned (processAndCacheIncrementalData env u rfn cs
                   (l1 ++ with_pr_comments p (cs1 ++ k :: cs2) :: l2)
                   iss bound w) = Some t /\
       returned (processAndCacheIncrementalData env u rfn cs
                   (l1 ++ with_pr_comments p (cs1 ++ cs2) :: l2)
                   iss bound w) = Some t) /\
  (forall cs ps l1 l2 i cs1 cs2 k,
     comment_createdAt k = bound ->
     exists t,
       returned (processAndCacheIncrementalData env u rfn cs ps
                   (l1 ++ with_issue_comments i (cs1 ++ k :: cs2) :: l2)
                   bound w) = Some t /\
       returned (processAndCacheIncrementalData env u rfn cs ps
                   (l1 ++ with_issue_comments i (cs1 ++ cs2) :: l2)
                   bound w) = Some t).
Proof.
  repeat apply conj.
  - intros r l1 l2 c Ha Hd. eexists. eexists.
    split; [apply full_returns|]. split; [apply full_returns|].
    cbn [commits counts with_history history_nodes or_nil].
    rewrite len_filter_insert, Ha, Hd, keeps_at_bound_inclusive. reflexivity.
  - intros r l1 l2 p Ha Hd. eexists. eexists.
    split; [apply full_returns|]. split; [apply full_returns|].
    cbn [pullRequests counts with_pullRequests pullRequests_nodes or_nil].
    rewrite len_filter_insert, Ha, Hd, keeps_at_bound_inclusive. reflexivity.
  - intros r l1 l2 i Ha Hd. eexists. eexists.
    split; [apply full_returns|]. split; [apply full_returns|].
    cbn [issues counts with_issues issues_nodes or_nil].
    rewrite len_filter_insert, Ha, Hd, keeps_at_bound_inclusive. reflexivity.
  - intros r l1 l2 p cs1 cs2 k Ha Hd. eexists. eexists.
    split; [apply full_returns|]. split; [apply full_returns|].
    cbn [prComments counts with_pullRequests pullRequests_nodes or_nil].
    rewrite tally_insert_pr_comment, Ha, Hd, keeps_at_bound_inclusive.
    reflexivity.
  - intros r l1 l2 i cs1 cs2 k Ha Hd. eexists. eexists.
    split; [apply full_returns|]. split; [apply full_returns|].
    cbn [issueComments counts with_issues issues_nodes or_nil].
    rewrite tally_insert_issue_comment, Ha, Hd, keeps_at_bound_inclusive.
    reflexivity.
  - intros ps iss l1 l2 c Hd. eexists.
    split; [apply incremental_returns|].
    rewrite incremental_returns. f_equal. unfold counts. f_equal.
    rewrite len_filter_insert, Hd, keeps_at_bound_strict. lia.
  - intros cs iss l1 l2 p Hd. eexists. eexists.
    split; [apply incremental_returns|].
    split; [apply incremental_returns|].
    cbn [pullRequests counts].
    rewrite len_filter_insert, Hd, keeps_at_bound_strict. lia.
  - intros cs ps l1 l2 i Hd. eexists. eexists.
    split; [apply incremental_returns|].
    split; [apply incremental_returns|].
    cbn [issues counts].
    rewrite len_filter_insert, Hd, keeps_at_bound_strict. lia.
  - intros cs iss l1 l2 p cs1 cs2 k Hd. eexists.
    split; [apply incremental_returns|].
    rewrite incremental_returns. f_equal. unfold counts. f_equal.
    + rewrite !len_filter_insert. reflexivity.
    + rewrite tally_insert_pr_comment, Hd, keeps_at_bound_strict. lia.
  - intros cs ps l1 l2 i cs1 cs2 k Hd. eexists.
    split; [apply incremental_returns|].
    rewrite incremental_returns. f_equal. unfold counts. f_equal.
    + rewrite !len_filter_insert. reflexivity.
    + rewrite tally_insert_issue_comment, Hd, keeps_at_bound_strict. lia.
Qed.

(** At its boundaries: a commit by octocat at the horizon of the first
    call is counted by the full filter; a commit stamped at the
    [lastSyncDate] of the filter is not counted by the incremental one. *)
Lemma C4_boundary_witness :
  (exists t t',
     returned (processAndCacheFullData Scenario.first_call "octocat"
                 "octo/demo"
                 (with_history Scenario.snapshot
                    ([Scenario.commit "c3" "octocat" 4000] ++
                     Scenario.commit "c-1" "octocat" 1000 ::
                     [Scenario.commit "c2" "octocat" 3000]))
                 1000 Scenario.empty_world) = Some t /\
     returned (processAndCacheFullData Scenario.first_call "octocat"
                 "octo/demo"
                 (with_history Scenario.snapshot
                    ([Scenario.commit "c3" "octocat" 4000] ++
                     [Scenario.commit "c2" "octocat" 3000]))
                 1000 Scenario.empty_world) = Some t' /\
     commits t = commits t' + 1) /\
  (exists t,
     returned (processAndCacheIncrementalData Scenario.first_call "octocat"
                 "octo/demo"
                 ([Scenario.commit "c5" "octocat" 1001] ++
                  Scenario.commit "c4" "octocat" 1000 :: [])
                 [] [] 1000 Scenario.empty_world) = Some t /\
     returned (processAndCacheIncrementalData Scenario.first_call "octocat"
                 "octo/demo"
                 ([Scenario.commit "c5" "octocat" 1001] ++ [])
                 [] [] 1000 Scenario.empty_world) = Some t).
Proof.
  destruct (C4_inclusive_full_strict_incremental Scenario.first_call
              "octocat" "octo/demo" 1000 Scenario.empty_world)
    as (Hfull & _ & _ & _ & _ & Hincr & _).
  split.
  - apply Hfull; reflexivity.
  - apply Hincr; reflexivity.
Defined.

(** C9. Comments are counted on every pull request and issue of the raw
    nodes the filter is given, whoever authored the pull request or the
    issue: adding to a pull request that is not the user's a comment
    authored by the user that meets the time bound raises [prComments]
    by one, in the full filter (bound inclusive) and in the incremental
    filter (bound strict); the same holds of issues and
    [issueComments]. *)
Theorem C9_comments_counted_on_all_nodes (env : Env) (u rfn : string)
  (bound : Z) (w : World) :
  (forall r l1 l2 p cs1 cs2 k,
     pr_author p <> Some u ->
     comment_author k = Some u -> bound <= comment_createdAt k ->
     exists t t',
       returned (processAndCacheFullData env u rfn
                   (with_pullRequests r
                      (l1 ++ with_pr_comments p (cs1 ++ k :: cs2) :: l2))
                   bound w) = Some t /\
       returned (processAndCacheFullData env u rfn
                   (with_pullRequests r
                      (l1 ++ with_pr_comments p (cs1 ++ cs2) :: l2))
                   bound w) = Some t' /\
       prComments t = prComments t' + 1) /\
  (forall r l1 l2 i cs1 cs2 k,
     issue_author i <> Some u ->
     comment_author k = Some u -> bound <= comment_createdAt k ->
     exists t t',
       returned (processAndCacheFullData env u rfn
                   (with_issues r
                      (l1 ++ with_issue_comments i (cs1 ++ k :: cs2) :: l2))
                   bound w) = Some t /\
       returned (processAndCacheFullData env u rfn
                   (with_issues r
                      (l1 ++ with_issue_comments i (cs1 ++ cs2) :: l2))
                   bound w) = Some t' /\
       issueComments t = issueComments t' + 1) /\
  (forall cs iss l1 l2 p cs1 cs2 k,
     pr_author p <> Some u ->
     comment_author k = Some u -> bound < comment_createdAt k ->
     exists t t',
       returned (processAndCacheIncrementalData env u rfn cs
                   (l1 ++ with_pr_comments p (cs1 ++ k :: cs2) :: l2)
                   iss bound w) = Some t /\
       returned (processAndCacheIncrementalData env u rfn cs
                   (l1 ++ with_pr_comments p (cs1 ++ cs2) :: l2)
                   iss bound w) = Some t' /\
       prComments t = prComments t' + 1) /\
  (forall cs ps l1 l2 i cs1 cs2 k,
     issue_author i <> Some u ->
     comment_author k = Some u -> bound < comment_createdAt k ->
     exists t t',
       returned (processAndCacheIncrementalData env u rfn cs ps
                   (l1 ++ with_issue_comments i (cs1 ++ k :: cs2) :: l2)
                   bound w) = Some t /\
       returned (processAndCacheIncrementalData env u rfn cs ps
                   (l1 ++ with_issue_comments i (cs1 ++ cs2) :: l2)
                   bound w) = Some t' /\
       issueComments t = issueComments t' + 1).
Proof.
  assert (Hfull : forall a d, a = Some u -> bound <= d ->
                              keeps false u bound a d = true).
  { intros a d -> Hd. unfold keeps.
    rewrite bool_decide_eq_true_2 by reflexivity.
    simpl. now apply Z.leb_le. }
  assert (Hincr : forall a d, a = Some u -> bound < d ->
                              keeps true u bound a d = true).
  { intros a d -> Hd. unfold keeps.
    rewrite bool_decide_eq_true_2 by reflexivity.
    simpl. now apply Z.ltb_lt. }
  repeat apply conj.
  - intros r l1 l2 p cs1 cs2 k _ Ha Hd. eexists. eexists.
    split; [apply full_returns|]. split; [apply full_returns|].
    cbn [prComments counts with_pullRequests pullRequests_nodes or_nil].
    now rewrite tally_insert_pr_comment, Hfull.
  - intros r l1 l2 i cs1 cs2 k _ Ha Hd. eexists. eexists.
    split; [apply full_returns|]. split; [apply full_returns|].
    cbn [issueComments counts with_issues issues_nodes or_nil].
    now rewrite tally_insert_issue_comment, Hfull.
  - intros cs iss l1 l2 p cs1 cs2 k _ Ha Hd. eexists. eexists.
    split; [apply incremental_returns|].
    split; [apply incremental_returns|].
    cbn [prComments counts].
    now rewrite tally_insert_pr_comment, Hincr.
  - intros cs ps l1 l2 i cs1 cs2 k _ Ha Hd. eexists. eexists.
    split; [apply incremental_returns|].
    split; [apply incremental_returns|].
    cbn [issueComments counts].
    now rewrite tally_insert_issue_comment, Hincr.
Qed.

(** A comment of octocat on a pull request opened by hubot. *)
Lemma C9_foreign_pull_request_witness :
  exists t t',
    returned (processAndCacheFullData Scenario.first_call "octocat"
                "octo/demo"
                (with_pullRequests Scenario.snapshot
                   ([] ++ with_pr_comments
                            (Scenario.pull 8 "hubot" 2000 [])
                            ([] ++ Scenario.comment "k9" "octocat" 2100 :: [])
                       :: []))
                1000 Scenario.empty_world) = Some t /\
    returned (processAndCacheFullData Scenario.first_call "octocat"
                "octo/demo"
                (with_pullRequests Scenario.snapshot
                   ([] ++ with_pr_comments
                            (Scenario.pull 8 "hubot" 2000 []) ([] ++ [])
                       :: []))
                1000 Scenario.empty_world) = Some t' /\
    pullRequests t = 0 /\
    prComments t' = 0 /\
    prComments t = prComments t' + 1.
Proof.
  destruct (C9_comments_counted_on_all_nodes Scenario.first_call "octocat"
              "octo/demo" 1000 Scenario.empty_world) as (Hfull & _).
  destruct (Hfull Scenario.snapshot [] []
              (Scenario.pull 8 "hubot" 2000 []) [] []
              (Scenario.comment "k9" "octocat" 2100))
    as (t & t' & Ht & Ht' & Hsum).
  - discriminate.
  - reflexivity.
  - vm_compute. discriminate.
  - exists t, t'. split; [exact Ht|]. split; [exact Ht'|].
    rewrite full_returns in Ht, Ht'.
    injection Ht as <-. injection Ht' as <-.
    split; [reflexivity|]. split; [reflexivity|]. exact Hsum.
Defined.

(** *** The marker tests of the incremental sync *)

Lemma len_filter_filter_insert {A : Type} (f g : A -> bool)
  (l1 l2 : list A) (x : A) :
  len (List.filter f (List.filter g (l1 ++ x :: l2))) =
  len (List.filter f (List.filter g (l1 ++ l2))) +
  (if g x && f x then 1 else 0).
Proof.
  rewrite !(List.filter_app g). simpl. destruct (g x); simpl.
  - apply len_filter_insert.
  - lia.
Qed.

(** A number at or below a stored watermark does not exceed the
    threshold [lastNumber || 0] the code compares with. *)
Lemma gtb_or_zero_false (n : Z) (wm : number) :
  leb (Fin n) wm = true -> gtb (Fin n) (or_zero (Some wm)) = false.
Proof.
  destruct wm as [|z]; simpl; [discriminate|].
  intros H. apply Z.leb_le in H.
  destruct (z =? 0) eqn:Hz; simpl; apply Z.ltb_ge.
  - apply Z.eqb_eq in Hz. lia.
  - lia.
Qed.

(** The marker test rejects the commit whose identifier is the stored,
    non-empty marker. *)
Lemma marker_rejects (sha : string) :
  sha <> "" ->
  negb (truthy_str (Some sha)) ||
  negb (bool_decide (Some sha = Some sha)) = false.
Proof.
  intros H. simpl. destruct (String.eqb_spec sha ""); [contradiction|].
  simpl. now rewrite bool_decide_eq_true_2.
Qed.

(** The run of an incremental sync only depends on the node lists
    through the nodes that pass the marker tests. *)
Lemma performIncrementalSync_congr (env : Env) (u : string) (rp : RepoRef)
  (tok : string) (lastSync : SyncMetadata) (w : World) (r1 r2 : Repository) :
  or_nil (List.filter (fun c =>
            negb (truthy_str (lastCommitSha lastSync)) ||
            negb (bool_decide (Some (oid c) = lastCommitSha lastSync)))
          <$> history_nodes r1) =
  or_nil (List.filter (fun c =>
            negb (truthy_str (lastCommitSha lastSync)) ||
            negb (bool_decide (Some (oid c) = lastCommitSha lastSync)))
          <$> history_nodes r2) ->
  or_nil (List.filter (fun p =>
            gtb (Fin (pr_number p)) (or_zero (lastPRNumber lastSync)))
          <$> pullRequests_nodes r1) =
  or_nil (List.filter (fun p =>
            gtb (Fin (pr_number p)) (or_zero (lastPRNumber lastSync)))
          <$> pullRequests_nodes r2) ->
  or_nil (List.filter (fun i =>
            gtb (Fin (issue_number i)) (or_zero (lastIssueNumber lastSync)))
          <$> issues_nodes r1) =
  or_nil (List.filter (fun i =>
            gtb (Fin (issue_number i)) (or_zero (lastIssueNumber lastSync)))
          <$> issues_nodes r2) ->
  performIncrementalSync (with_response env (resolved r1)) u rp tok lastSync w =
  performIncrementalSync (with_response env (resolved r2)) u rp tok lastSync w.
Proof.
  intros H1 H2 H3.
  unfold performIncrementalSync, graphqlRequest, bind.
  cbn [env_response with_response resolved resp_errors resp_data repository].
  rewrite H1, H2, H3. reflexivity.
Qed.

(** C5. New-ness in an incremental sync. A commit is counted only if it
    passes both tests: a commit of the answer that is timestamped at or
    before [lastSyncDate], or whose identifier is the stored (non-empty)
    [lastCommitSha], adds nothing to the totals the sync returns, while
    a commit of the user that is newer than [lastSyncDate] and whose
    identifier differs from the marker adds one to [commits]. A pull
    request or an issue whose number is at or below the stored
    [lastPRNumber] or [lastIssueNumber] adds nothing to the totals. *)
Theorem C5_incremental_newness_tests (cfg : ConfigService) (env : Env)
  (u : string) (rp : RepoRef) (tok : string) (lastSync : SyncMetadata)
  (w : World) :
  (forall r l1 l2 c,
     committedDate c <= lastSyncDate lastSync \/
     (lastCommitSha lastSync = Some (oid c) /\ oid c <> "") ->
     exists w1 r1 w2 r2,
       performIncrementalSync
         (with_response env (resolved (with_history r (l1 ++ c :: l2))))
         u rp tok lastSync w = (w1, Return r1) /\
       performIncrementalSync
         (with_response env (resolved (with_history r (l1 ++ l2))))
         u rp tok lastSync w = (w2, Return r2) /\
       (exists t, result_totals r1 = Some t /\ result_totals r2 = Some t) /\
       itemsFetched r1 = itemsFetched r2) /\
  (forall r l1 l2 c,
     commit_author c = Some u ->
     lastSyncDate lastSync < committedDate c ->
     Some (oid c) <> lastCommitSha lastSync ->
     exists w1 r1 w2 r2,
       performIncrementalSync
         (with_response env (resolved (with_history r (l1 ++ c :: l2))))
         u rp tok lastSync w = (w1, Return r1) /\
       performIncrementalSync
         (with_response env (resolved (with_history r (l1 ++ l2))))
         u rp tok lastSync w = (w2, Return r2) /\
       exists t1 t2,
         result_totals r1 = Some t1 /\ result_totals r2 = Some t2 /\
         commits t1 = commits t2 + 1) /\
  (forall r l1 l2 p wm,
     lastPRNumber lastSync = Some wm ->
     leb (Fin (pr_number p)) wm = true ->
     exists w1 r1 w2 r2,
       performIncrementalSync
         (with_response env (resolved (with_pullRequests r (l1 ++ p :: l2))))
         u rp tok lastSync w = (w1, Return r1) /\
       performIncrementalSync
         (with_response env (resolved (with_pullRequests r (l1 ++ l2))))
         u rp tok lastSync w = (w2, Return r2) /\
       (exists t, result_totals r1 = Some t /\ result_totals r2 = Some t) /\
       itemsFetched r1 = itemsFetched r2) /\
  (forall r l1 l2 i wm,
     lastIssueNumber lastSync = Some wm ->
     leb (Fin (issue_number i)) wm = true ->
     exists w1 r1 w2 r2,
       performIncrementalSync
         (with_response env (resolved (with_issues r (l1 ++ i :: l2))))
         u rp tok lastSync w = (w1, Return r1) /\
       performIncrementalSync
         (with_response env (resolved (with_issues r (l1 ++ l2))))
         u rp tok lastSync w = (w2, Return r2) /\
       (exists t, result_totals r1 = Some t /\ result_totals r2 = Some t) /\
       itemsFetched r1 = itemsFetched r2).
Proof.
  repeat apply conj.
  - intros r l1 l2 c Hold.
    destruct (performIncrementalSync_resolved cfg
                (with_response env (resolved (with_history r (l1 ++ c :: l2))))
                u rp tok lastSync _ w eq_refl) as (w1 & d1 & H1 & _).
    destruct (performIncrementalSync_resolved cfg
                (with_response env (resolved (with_history r (l1 ++ l2))))
                u rp tok lastSync _ w eq_refl) as (w2 & d2 & H2 & _).
    eexists. eexists. eexists. eexists.
    split; [exact H1|]. split; [exact H2|].
    cbn [result_totals itemsFetched with_history history_nodes
         pullRequests_nodes issues_nodes or_nil].
    match goal with
    | |- context [counts true u ?b (List.filter ?m (l1 ++ c :: l2)) ?ps ?iss] =>
        assert (Hc : counts true u b (List.filter m (l1 ++ c :: l2)) ps iss =
                     counts true u b (List.filter m (l1 ++ l2)) ps iss)
    end.
    { unfold counts. f_equal. rewrite len_filter_filter_insert.
      match goal with
      | |- context [if ?g && ?f then _ else _] =>
          replace (g && f) with false; [lia|]
      end.
      symmetry. apply andb_false_iff.
      destruct Hold as [Hd | [Hm Hne]].
      - right. unfold keeps.
        replace (lastSyncDate lastSync <? committedDate c) with false
          by (symmetry; apply Z.ltb_ge; lia).
        apply andb_false_r.
      - left. rewrite Hm. now apply marker_rejects. }
    rewrite Hc. split; [eexists; split; reflexivity | reflexivity].
  - intros r l1 l2 c Ha Hd Hne.
    destruct (performIncrementalSync_resolved cfg
                (with_response env (resolved (with_history r (l1 ++ c :: l2))))
                u rp tok lastSync _ w eq_refl) as (w1 & d1 & H1 & _).
    destruct (performIncrementalSync_resolved cfg
                (with_response env (resolved (with_history r (l1 ++ l2))))
                u rp tok lastSync _ w eq_refl) as (w2 & d2 & H2 & _).
    eexists. eexists. eexists. eexists.
    split; [exact H1|]. split; [exact H2|].
    eexists. eexists. split; [reflexivity|]. split; [reflexivity|].
    cbn [result_totals commits counts with_history history_nodes or_nil].
    rewrite len_filter_filter_insert.
    match goal with
    | |- context [if ?g && ?f then _ else _] =>
        replace (g && f) with true; [lia|]
    end.
    symmetry. apply andb_true_iff. split.
    + apply orb_true_iff. right. apply negb_true_iff.
      now apply bool_decide_eq_false_2.
    + unfold keeps. rewrite Ha, bool_decide_eq_true_2 by reflexivity.
      simpl. now apply Z.ltb_lt.
  - intros r l1 l2 p wm Hwm Hle.
    destruct (performIncrementalSync_resolved cfg
                (with_response env (resolved (with_pullRequests r (l1 ++ l2))))
                u rp tok lastSync _ w eq_refl) as (w2 & d2 & H2 & _).
    assert (Heq :
      performIncrementalSync
        (with_response env (resolved (with_pullRequests r (l1 ++ p :: l2))))
        u rp tok lastSync w =
      performIncrementalSync
        (with_response env (resolved (with_pullRequests r (l1 ++ l2))))
        u rp tok lastSync w).
    { apply performIncrementalSync_congr; try reflexivity.
      cbn [with_pullRequests pullRequests_nodes fmap option_fmap option_map
           or_nil].
      apply filter_insert_false. rewrite Hwm. now apply gtb_or_zero_false. }
    eexists. eexists. eexists. eexists.
    split; [rewrite Heq; exact H2|]. split; [exact H2|].
    split; [eexists; split; reflexivity | reflexivity].
  - intros r l1 l2 i wm Hwm Hle.
    destruct (performIncrementalSync_resolved cfg
                (with_response env (resolved (with_issues r (l1 ++ l2))))
                u rp tok lastSync _ w eq_refl) as (w2 & d2 & H2 & _).
    assert (Heq :
      performIncrementalSync
        (with_response env (resolved (with_issues r (l1 ++ i :: l2))))
        u rp tok lastSync w =
      performIncrementalSync
        (with_response env (resolved (with_issues r (l1 ++ l2))))
        u rp tok lastSync w).
    { apply performIncrementalSync_congr; try reflexivity.
      cbn [with_issues issues_nodes fmap option_fmap option_map or_nil].
      apply filter_insert_false. rewrite Hwm. now apply gtb_or_zero_false. }
    eexists. eexists. eexists. eexists.
    split; [rewrite Heq; exact H2|]. split; [exact H2|].
    split; [eexists; split; reflexivity | reflexivity].
Qed.

(** After the first call of the scenario the marker is commit c3: a
    commit with that identifier is not counted again, however recent
    its timestamp. *)
Lemma C5_marker_witness :
  exists w1 r1 w2 r2,
    performIncrementalSync
      (with_response Scenario.third_call
         (resolved (with_history Scenario.snapshot
            ([Scenario.commit "c4" "octocat" 20000] ++
             Scenario.commit "c3" "octocat" 20000 :: []))))
      "octocat" Scenario.demo "token" Scenario.stored_after_first
      Scenario.after_first = (w1, Return r1) /\
    performIncrementalSync
      (with_response Scenario.third_call
         (resolved (with_history Scenario.snapshot
            ([Scenario.commit "c4" "octocat" 20000] ++ []))))
      "octocat" Scenario.demo "token" Scenario.stored_after_first
      Scenario.after_first = (w2, Return r2) /\
    (exists t, result_totals r1 = Some t /\ result_totals r2 = Some t) /\
    itemsFetched r1 = itemsFetched r2.
Proof.
  destruct (C5_incremental_newness_tests Scenario.defaults Scenario.third_call
              "octocat" Scenario.demo "token" Scenario.stored_after_first
              Scenario.after_first) as (Hold & _).
  apply Hold. right. split; [reflexivity | discriminate].
Defined.

(** C10. In an incremental sync the comments are tallied over the pull
    requests and issues that pass the number test only: a pull request
    of the answer whose number is at or below the stored [lastPRNumber]
    can be left out of the answer, whatever comments it carries,
    without changing the run, that is the world after it and the result
    it returns; and the same holds of an issue whose number is at or
    below the stored [lastIssueNumber]. *)
Theorem C10_comments_on_old_nodes_not_tallied (cfg : ConfigService)
  (env : Env) (u : string) (rp : RepoRef) (tok : string)
  (lastSync : SyncMetadata) (w : World) :
  (forall r l1 l2 p cs wm,
     lastPRNumber lastSync = Some wm ->
     leb (Fin (pr_number p)) wm = true ->
     exists w' res,
       performIncrementalSync
         (with_response env
            (resolved (with_pullRequests r
               (l1 ++ with_pr_comments p cs :: l2))))
         u rp tok lastSync w = (w', Return res) /\
       performIncrementalSync
         (with_response env (resolved (with_pullRequests r (l1 ++ l2))))
         u rp tok lastSync w = (w', Return res)) /\
  (forall r l1 l2 i cs wm,
     lastIssueNumber lastSync = Some wm ->
     leb (Fin (issue_number i)) wm = true ->
     exists w' res,
       performIncrementalSync
         (with_response env
            (resolved (with_issues r
               (l1 ++ with_issue_comments i cs :: l2))))
         u rp tok lastSync w = (w', Return res) /\
       performIncrementalSync
         (with_response env (resolved (with_issues r (l1 ++ l2))))
         u rp tok lastSync w = (w', Return res)).
Proof.
  split.
  - intros r l1 l2 p cs wm Hwm Hle.
    destruct (performIncrementalSync_resolved cfg
                (with_response env (resolved (with_pullRequests r (l1 ++ l2))))
                u rp tok lastSync _ w eq_refl) as (w2 & d2 & H2 & _).
    eexists. eexists. split; [|exact H2].
    rewrite <- H2. apply performIncrementalSync_congr; try reflexivity.
    cbn [with_pullRequests pullRequests_nodes fmap option_fmap option_map or_nil].
    apply filter_insert_false. rewrite Hwm. now apply gtb_or_zero_false.
  - intros r l1 l2 i cs wm Hwm Hle.
    destruct (performIncrementalSync_resolved cfg
                (with_response env (resolved (with_issues r (l1 ++ l2))))
                u rp tok lastSync _ w eq_refl) as (w2 & d2 & H2 & _).
    eexists. eexists. split; [|exact H2].
    rewrite <- H2. apply performIncrementalSync_congr; try reflexivity.
    cbn [with_issues issues_nodes fmap option_fmap option_map or_nil].
    apply filter_insert_false. rewrite Hwm. now apply gtb_or_zero_false.
Qed.

(** After the first call of the scenario the stored [lastPRNumber] is
    7: a later comment of octocat on pull request 7 is not tallied. *)
Lemma C10_old_pull_request_witness :
  exists w' res,
    performIncrementalSync
      (with_response Scenario.third_call
         (resolved (with_pullRequests Scenario.later_snapshot
            ([] ++ with_pr_comments (Scenario.pull 7 "octocat" 2500 [])
                     [Scenario.comment "k4" "octocat" 30000] :: []))))
      "octocat" Scenario.demo "token" Scenario.stored_after_first
      Scenario.after_first = (w', Return res) /\
    performIncrementalSync
      (with_response Scenario.third_call
         (resolved (with_pullRequests Scenario.later_snapshot ([] ++ []))))
      "octocat" Scenario.demo "token" Scenario.stored_after_first
      Scenario.after_first = (w', Return res).
Proof.
  destruct (C10_comments_on_old_nodes_not_tallied Scenario.defaults
              Scenario.third_call "octocat" Scenario.demo "token"
              Scenario.stored_after_first Scenario.after_first) as (Hpr & _).
  apply (Hpr _ _ _ _ _ (Fin 7)); reflexivity.
Defined.

(** ** The watermark store *)

Import SyncMetadataMaintenance.

(** X1. Round trip of the watermark store. After [upsert], looking the
    key up yields the record [upsert] returned. That record carries the
    key, the [lastSyncDate] and the totals of the argument and the
    clock reading as [fetchedAt]; each of [lastCommitSha],
    [lastPRNumber] and [lastIssueNumber] is the value the argument
    gives, and when the argument leaves it out it is the value stored
    for the key before, or nothing when the key had no record. The
    records of the other keys are as before. An [upsert] for the same
    key that gives all three of these fields overwrites: of two upserts
    in a row only the second shows in the collection. *)
Theorem X1_upsert_then_find (env : Env) (d : SyncData) (w : World) :
  (exists doc,
     SyncMetadataService.upsert env d w =
       ((SyncMetadataService.upsert env d w).1, Return doc) /\
     SyncMetadataService.findByUsernameAndRepo (sd_username d) (sd_repo d)
       (SyncMetadataService.upsert env d w).1 =
       ((SyncMetadataService.upsert env d w).1, Return (Some doc)) /\
     username doc = sd_username d /\ repo doc = sd_repo d /\
     lastSyncDate doc = sd_lastSyncDate d /\
     totalItems doc = sd_totalItems d /\
     fetchedAt doc = env_upsertAt env /\
     (forall v, sd_lastCommitSha d = Some v -> lastCommitSha doc = Some v) /\
     (forall v, sd_lastPRNumber d = Some v -> lastPRNumber doc = Some v) /\
     (forall v, sd_lastIssueNumber d = Some v ->
                lastIssueNumber doc = Some v) /\
     (sd_lastCommitSha d = None ->
      lastCommitSha doc =
        syncMetadataModel w !! (sd_username d, sd_repo d) ≫= lastCommitSha) /\
     (sd_lastPRNumber d = None ->
      lastPRNumber doc =
        syncMetadataModel w !! (sd_username d, sd_repo d) ≫= lastPRNumber) /\
     (sd_lastIssueNumber d = None ->
      lastIssueNumber doc =
        syncMetadataModel w !! (sd_username d, sd_repo d)
          ≫= lastIssueNumber)) /\
  (forall k, k <> (sd_username d, sd_repo d) ->
     syncMetadataModel (SyncMetadataService.upsert env d w).1 !! k =
     syncMetadataModel w !! k) /\
  (forall env2 d2,
     sd_username d2 = sd_username d -> sd_repo d2 = sd_repo d ->
     sd_lastCommitSha d2 <> None -> sd_lastPRNumber d2 <> None ->
     sd_lastIssueNumber d2 <> None ->
     syncMetadataModel
       (SyncMetadataService.upsert env2 d2
          (SyncMetadataService.upsert env d w).1).1 =
     syncMetadataModel (SyncMetadataService.upsert env2 d2 w).1).
Proof.
  repeat apply conj.
  - eexists. split; [reflexivity|]. split.
    + unfold SyncMetadataService.findByUsernameAndRepo. simpl.
      now rewrite lookup_insert_eq.
    + simpl. repeat split; try (intros v ->; reflexivity);
        intros ->; reflexivity.
  - intros k Hk. simpl. now rewrite lookup_insert_ne.
  - intros env2 d2 Hu Hr Hc Hp Hi. simpl. rewrite Hu, Hr.
    destruct (sd_lastCommitSha d2); [|contradiction].
    destruct (sd_lastPRNumber d2); [|contradiction].
    destruct (sd_lastIssueNumber d2); [|contradiction].
    simpl. apply insert_insert_eq.
Qed.

(** An upsert for the key of the scenario that gives new totals and
    leaves the three markers out: the record keeps the markers the
    first call stored, commit c3 and pull request 7. *)
Lemma X1_upsert_witness :
  exists doc,
    SyncMetadataService.upsert Scenario.third_call
      {| sd_username := "octocat"; sd_repo := "octo/demo";
         sd_lastSyncDate := 20000; sd_lastCommitSha := None;
         sd_lastPRNumber := None; sd_lastIssueNumber := Some (Fin 0);
         sd_totalItems := {| commits := 4; pullRequests := 1; issues := 0;
                             prComments := 2; issueComments := 0 |} |}
      Scenario.after_first =
      ((SyncMetadataService.upsert Scenario.third_call
          {| sd_username := "octocat"; sd_repo := "octo/demo";
             sd_lastSyncDate := 20000; sd_lastCommitSha := None;
             sd_lastPRNumber := None; sd_lastIssueNumber := Some (Fin 0);
             sd_totalItems := {| commits := 4; pullRequests := 1; issues := 0;
                                 prComments := 2; issueComments := 0 |} |}
          Scenario.after_first).1, Return doc) /\
    lastCommitSha doc = Some "c3" /\
    lastPRNumber doc = Some (Fin 7) /\
    commits (totalItems doc) = 4.
Proof.
  destruct (X1_upsert_then_find Scenario.third_call
           {| sd_username := "octocat"; sd_repo := "octo/demo";
              sd_lastSyncDate := 20000; sd_lastCommitSha := None;
              sd_lastPRNumber := None;
              sd_lastIssueNumber := Some (Fin 0);
              sd_totalItems := {| commits := 4; pullRequests := 1; issues := 0;
                                  prComments := 2; issueComments := 0 |} |}
           Scenario.after_first)
    as ((doc & Hrun & _ & _ & _ & _ & Htot & _ & _ & _ & _ & Hc & Hp & _)
        & _ & _).
  exists doc. split; [exact Hrun|].
  split; [rewrite (Hc eq_refl); vm_compute; reflexivity|].
  split; [rewrite (Hp eq_refl); vm_compute; reflexivity|].
  rewrite Htot. reflexivity.
Defined.

(** X2. Deleting a record resets the key. After
    [deleteByUsernameAndRepo] the lookup of the key yields nothing and
    the other records are as before; and a following
    [syncUserRepoActivity] that is answered with a repository is a full
    sync, whatever the deleted record held and however recent it was:
    it returns the counts of the inclusive filter from the analysis
    horizon, with [isIncremental = false]. *)
Theorem X2_delete_resets_key (cfg : ConfigService) (env : Env) (u : string)
  (rp : RepoRef) (tok : string) (w : World) (r : Repository) :
  env_response env = resolved r ->
  let w0 := (deleteByUsernameAndRepo u
               (repo_owner rp +:+ "/" +:+ repo_name rp) w).1 in
  SyncMetadataService.findByUsernameAndRepo u
    (repo_owner rp +:+ "/" +:+ repo_name rp) w0 = (w0, Return None) /\
  (forall k, k <> key_of u rp ->
     syncMetadataModel w0 !! k = syncMetadataModel w !! k) /\
  exists w' res,
    syncUserRepoActivity cfg env u rp tok w0 = (w', Return res) /\
    isIncremental res = false /\
    result_totals res =
      Some (counts false u (env_analysisStartDate env)
              (or_nil (history_nodes r)) (or_nil (pullRequests_nodes r))
              (or_nil (issues_nodes r))).
Proof.
  intros Hresp w0.
  assert (Hnone : syncMetadataModel w0 !! key_of u rp = None).
  { subst w0. simpl. apply lookup_delete_eq. }
  repeat apply conj.
  - unfold SyncMetadataService.findByUsernameAndRepo. unfold key_of in Hnone.
    now rewrite Hnone.
  - intros k Hk. subst w0. simpl. now rewrite lookup_delete_ne.
  - rewrite syncUserRepoActivity_first by exact Hnone.
    destruct (performFullSync_resolved cfg env u rp tok r w0 Hresp Hnone)
      as (w' & Hrun & _).
    eexists. eexists. split; [exact Hrun|]. split; reflexivity.
Qed.

(** The record of the scenario is deleted right after the first call:
    a call with the same clock, which would have been served from the
    cache, is a full sync again. *)
Lemma X2_delete_witness :
  exists w' res,
    syncUserRepoActivity Scenario.defaults Scenario.first_call "octocat"
      Scenario.demo "token"
      (deleteByUsernameAndRepo "octocat" "octo/demo" Scenario.after_first).1
      = (w', Return res) /\
    isIncremental res = false /\
    result_totals res =
      Some {| commits := 3; pullRequests := 1; issues := 0;
              prComments := 2; issueComments := 0 |}.
Proof.
  destruct (X2_delete_resets_key Scenario.defaults Scenario.first_call
              "octocat" Scenario.demo "token" Scenario.after_first
              Scenario.snapshot eq_refl) as (_ & _ & w' & res & Hrun & Hinc & Htot).
  exists w', res. split; [exact Hrun|]. split; [exact Hinc|].
  rewrite Htot. reflexivity.
Defined.

(** X3. [incrementTotalItems] adds to an existing record and never
    creates one. With a record for the key, each of the five totals
    grows by the increment, [lastSyncDate] becomes the clock reading and
    the markers are kept; without a record the collection is unchanged;
    the other keys are untouched in both cases. Two increments in a row
    amount to one increment by the sums. *)
Theorem X3_incrementTotalItems_adds (now : Z) (u r : string)
  (inc : TotalItems) (w : World) :
  (forall m,
     syncMetadataModel w !! (u, r) = Some m ->
     exists m',
       syncMetadataModel (incrementTotalItems now u r inc w).1 !! (u, r)
         = Some m' /\
       commits (totalItems m') = commits (totalItems m) + commits inc /\
       pullRequests (totalItems m') =
         pullRequests (totalItems m) + pullRequests inc /\
       issues (totalItems m') = issues (totalItems m) + issues inc /\
       prComments (totalItems m') =
         prComments (totalItems m) + prComments inc /\
       issueComments (totalItems m') =
         issueComments (totalItems m) + issueComments inc /\
       lastSyncDate m' = now /\
       lastCommitSha m' = lastCommitSha m /\
       lastPRNumber m' = lastPRNumber m /\
       lastIssueNumber m' = lastIssueNumber m /\
       username m' = username m /\ repo m' = repo m) /\
  (syncMetadataModel w !! (u, r) = None ->
   syncMetadataModel (incrementTotalItems now u r inc w).1 =
   syncMetadataModel w) /\
  (forall k, k <> (u, r) ->
     syncMetadataModel (incrementTotalItems now u r inc w).1 !! k =
     syncMetadataModel w !! k) /\
  (forall now2 inc2,
     syncMetadataModel
       (incrementTotalItems now2 u r inc2
          (incrementTotalItems now u r inc w).1).1 =
     syncMetadataModel
       (incrementTotalItems now2 u r
          {| commits := commits inc + commits inc2;
             pullRequests := pullRequests inc + pullRequests inc2;
             issues := issues inc + issues inc2;
             prComments := prComments inc + prComments inc2;
             issueComments := issueComments inc + issueComments inc2 |} w).1).
Proof.
  repeat apply conj.
  - intros m Hm. simpl. rewrite lookup_alter_eq, Hm. simpl.
    eexists. split; [reflexivity|]. simpl. repeat split.
  - intros Hnone. simpl. apply map_eq. intros k.
    destruct (decide ((u, r) = k)) as [<-|Hne].
    + now rewrite lookup_alter_eq, Hnone.
    + now rewrite lookup_alter_ne.
  - intros k Hk. simpl. now rewrite lookup_alter_ne.
  - intros now2 inc2. simpl. apply map_eq. intros k.
    destruct (decide ((u, r) = k)) as [<-|Hne].
    + rewrite !lookup_alter_eq.
      destruct (syncMetadataModel w !! (u, r)) as [m|]; [|reflexivity].
      simpl. f_equal. f_equal. f_equal; lia.
    + now rewrite !lookup_alter_ne.
Qed.

(** The record of the scenario, incremented by one commit and one
    pull-request comment. *)
Lemma X3_increment_witness :
  exists m',
    syncMetadataModel
      (incrementTotalItems 20000 "octocat" "octo/demo"
         {| commits := 1; pullRequests := 0; issues := 0;
            prComments := 1; issueComments := 0 |}
         Scenario.after_first).1 !! ("octocat", "octo/demo") = Some m' /\
    totalItems m' =
      {| commits := 4; pullRequests := 1; issues := 0;
         prComments := 3; issueComments := 0 |} /\
    lastSyncDate m' = 20000 /\
    lastCommitSha m' = Some "c3".
Proof.
  destruct (X3_incrementTotalItems_adds 20000 "octocat" "octo/demo"
              {| commits := 1; pullRequests := 0; issues := 0;
                 prComments := 1; issueComments := 0 |}
              Scenario.after_first) as (Hadd & _).
  destruct (Hadd Scenario.stored_after_first)
    as (m' & Hm' & H1 & H2 & H3 & H4 & H5 & Hd & Hs & _).
  - vm_compute. reflexivity.
  - exists m'. split; [exact Hm'|]. split.
    + destruct m' as [? ? ? ? ? ? [? ? ? ? ?] ?]. simpl in *.
      now rewrite H1, H2, H3, H4, H5.
    + split; [exact Hd | exact Hs].
Defined.

(** X4. [updateTotalItems] replaces the totals of an existing record and
    never creates one. With a record for the key the totals become the
    ones given, [lastSyncDate] becomes the clock reading and the markers
    are kept; without a record the collection is unchanged; the other
    keys are untouched; of two updates in a row only the second shows. *)
Theorem X4_updateTotalItems_sets (now : Z) (u r : string) (t : TotalItems)
  (w : World) :
  (forall m,
     syncMetadataModel w !! (u, r) = Some m ->
     exists m',
       syncMetadataModel (updateTotalItems now u r t w).1 !! (u, r) = Some m' /\
       totalItems m' = t /\
       lastSyncDate m' = now /\
       lastCommitSha m' = lastCommitSha m /\
       lastPRNumber m' = lastPRNumber m /\
       lastIssueNumber m' = lastIssueNumber m /\
       username m' = username m /\ repo m' = repo m) /\
  (syncMetadataModel w !! (u, r) = None ->
   syncMetadataModel (updateTotalItems now u r t w).1 = syncMetadataModel w) /\
  (forall k, k <> (u, r) ->
     syncMetadataModel (updateTotalItems now u r t w).1 !! k =
     syncMetadataModel w !! k) /\
  (forall now2 t2,
     syncMetadataModel
       (updateTotalItems now2 u r t2 (updateTotalItems now u r t w).1).1 =
     syncMetadataModel (updateTotalItems now2 u r t2 w).1).
Proof.
  repeat apply conj.
  - intros m Hm. simpl. rewrite lookup_alter_eq, Hm. simpl.
    eexists. split; [reflexivity|]. simpl. repeat split.
  - intros Hnone. simpl. apply map_eq. intros k.
    destruct (decide ((u, r) = k)) as [<-|Hne].
    + now rewrite lookup_alter_eq, Hnone.
    + now rewrite lookup_alter_ne.
  - intros k Hk. simpl. now rewrite lookup_alter_ne.
  - intros now2 t2. simpl. apply map_eq. intros k.
    destruct (decide ((u, r) = k)) as [<-|Hne].
    + rewrite !lookup_alter_eq.
      now destruct (syncMetadataModel w !! (u, r)).
    + now rewrite !lookup_alter_ne.
Qed.

(** The totals of the record of the scenario are replaced. *)
Lemma X4_update_witness :
  exists m',
    syncMetadataModel
      (updateTotalItems 20000 "octocat" "octo/demo"
         {| commits := 9; pullRequests := 8; issues := 7;
            prComments := 6; issueComments := 5 |}
         Scenario.after_first).1 !! ("octocat", "octo/demo") = Some m' /\
    totalItems m' =
      {| commits := 9; pullRequests := 8; issues := 7;
         prComments := 6; issueComments := 5 |} /\
    lastSyncDate m' = 20000 /\
    lastPRNumber m' = Some (Fin 7).
Proof.
  destruct (X4_updateTotalItems_sets 20000 "octocat" "octo/demo"
              {| commits := 9; pullRequests := 8; issues := 7;
                 prComments := 6; issueComments := 5 |}
              Scenario.after_first) as (Hset & _).
  destruct (Hset Scenario.stored_after_first)
    as (m' & Hm' & Ht & Hd & _ & Hp & _).
  - vm_compute. reflexivity.
  - exists m'. auto.
Defined.

(** ** The writes and the requests of a call *)

Lemma map_map_id {A B : Type} (f : A -> B) (g : B -> A) (l : list A) :
  (forall x, g (f x) = x) -> map g (map f l) = l.
Proof.
  intros H. induction l as [|x l IH]; simpl; [reflexivity|].
  now rewrite H, IH.
Qed.

Lemma Forall_map_intro {A B : Type} (P : B -> Prop) (f : A -> B)
  (l : list A) :
  (forall x, P (f x)) -> Forall P (map f l).
Proof.
  intros H. induction l as [|x l IH]; simpl; constructor; auto.
Qed.

Lemma ltb_len_nil {A : Type} : (0 <? len (@nil A)) = false.
Proof. reflexivity. Qed.

Lemma ltb_len_cons {A : Type} (x : A) (l : list A) :
  (0 <? len (x :: l)) = true.
Proof. unfold len. apply Z.ltb_lt. simpl. lia. Qed.

Lemma cacheDataToMongoDB_sinks (env : Env) (u rfn : string)
  (cs : list CommitNode) (ps : list PullRequestNode) (iss : list IssueNode)
  (w : World) :
  exists ws, cacheDataToMongoDB env u rfn cs ps iss w =
               (add_writes ws w, Return tt) /\
             sinks_ok env u rfn cs ps iss ws.
Proof.
  unfold cacheDataToMongoDB, bind, ret, sinks_ok.
  destruct cs as [|c cs]; destruct ps as [|p ps]; destruct iss as [|i iss];
    rewrite ?ltb_len_nil, ?ltb_len_cons;
    rewrite ?db_write_run, ?add_writes_add_writes;
    (eexists; split; [reflexivity || (rewrite <- add_writes_nil at 1; reflexivity) |]);
    cbn [app commit_docs pr_docs issue_docs watermark_docs flat_map map
         cd_rawData pd_rawData id_rawData length];
    rewrite ?app_nil_r;
    repeat apply conj;
    try reflexivity;
    try (f_equal; apply map_map_id; reflexivity);
    try lia;
    repeat (constructor; try reflexivity);
    try (apply Forall_map_intro; intros x; repeat split);
    try (cbv [commit_doc_of pr_doc_of issue_doc_of]; repeat split).
Qed.

Lemma processAndCacheFullData_sinks (env : Env) (u rfn : string)
  (r : Repository) (h : Z) (w : World) :
  exists ws,
    processAndCacheFullData env u rfn r h w =
      (add_writes ws w,
       Return (counts false u h (or_nil (history_nodes r))
                 (or_nil (pullRequests_nodes r)) (or_nil (issues_nodes r)))) /\
    sinks_ok env u rfn
      (List.filter (fun c => keeps false u h (commit_author c) (committedDate c))
         (or_nil (history_nodes r)))
      (List.filter (fun p => keeps false u h (pr_author p) (pr_createdAt p))
         (or_nil (pullRequests_nodes r)))
      (List.filter (fun i => keeps false u h (issue_author i) (issue_createdAt i))
         (or_nil (issues_nodes r))) ws.
Proof.
  unfold processAndCacheFullData, bind, ret.
  match goal with
  | |- context [cacheDataToMongoDB ?e ?a ?b ?c ?d ?f w] =>
      destruct (cacheDataToMongoDB_sinks e a b c d f w) as (ws & -> & Hok)
  end.
  exists ws. split; [reflexivity | exact Hok].
Qed.

Lemma processAndCacheIncrementalData_sinks (env : Env) (u rfn : string)
  (cs : list CommitNode) (ps : list PullRequestNode) (iss : list IssueNode)
  (last : Z) (w : World) :
  exists ws,
    processAndCacheIncrementalData env u rfn cs ps iss last w =
      (add_writes ws w, Return (counts true u last cs ps iss)) /\
    sinks_ok env u rfn
      (List.filter (fun c => keeps true u last (commit_author c) (committedDate c)) cs)
      (List.filter (fun p => keeps true u last (pr_author p) (pr_createdAt p)) ps)
      (List.filter (fun i => keeps true u last (issue_author i) (issue_createdAt i)) iss)
      ws.
Proof.
  unfold processAndCacheIncrementalData, bind, ret.
  match goal with
  | |- context [cacheDataToMongoDB ?e ?a ?b ?c ?d ?f w] =>
      destruct (cacheDataToMongoDB_sinks e a b c d f w) as (ws & -> & Hok)
  end.
  exists ws. split; [reflexivity | exact Hok].
Qed.

(** The world after a full sync, for a key without a record, that was
    answered with a repository. *)
Lemma performFullSync_world (cfg : ConfigService) (env : Env) (u : string)
  (rp : RepoRef) (tok : string) (r : Repository) (w : World) :
  env_response env = resolved r ->
  syncMetadataModel w !! key_of u rp = None ->
  exists ws,
    performFullSync cfg env u rp tok w =
      ({| syncMetadataModel :=
            <[key_of u rp := full_doc env u rp r]> (syncMetadataModel w);
          dbWrites := dbWrites w ++ ws ++
                      [SyncMetadataUpsert (full_doc env u rp r)];
          httpPosts := httpPosts w ++ [full_post cfg env rp tok] |},
       Return {| result_totals := Some (full_counts env u r);
                 isIncremental := false;
                 itemsFetched := sum_totals (full_counts env u r) |}) /\
    sinks_ok env u (repo_owner rp +:+ "/" +:+ repo_name rp)
      (List.filter (fun c => keeps false u (env_analysisStartDate env)
                               (commit_author c) (committedDate c))
         (or_nil (history_nodes r)))
      (List.filter (fun p => keeps false u (env_analysisStartDate env)
                               (pr_author p) (pr_createdAt p))
         (or_nil (pullRequests_nodes r)))
      (List.filter (fun i => keeps false u (env_analysisStartDate env)
                               (issue_author i) (issue_createdAt i))
         (or_nil (issues_nodes r))) ws.
Proof.
  intros Hresp Hnone. unfold key_of in Hnone.
  unfold performFullSync, graphqlRequest, bind. rewrite Hresp. simpl.
  match goal with
  | |- context [processAndCacheFullData ?e ?a ?b ?c ?d ?w0] =>
      destruct (processAndCacheFullData_sinks e a b c d w0) as (ws & -> & Hok)
  end.
  simpl. rewrite Hnone. simpl. rewrite set_field_None.
  exists ws. split; [|exact Hok].
  rewrite <- app_assoc. unfold sum_totals, full_counts, full_doc, full_post.
  simpl. repeat f_equal; lia.
Qed.

(** The world after an incremental sync, from the record of the key,
    that was answered with a repository. *)
Lemma performIncrementalSync_world (env : Env) (u : string) (rp : RepoRef)
  (tok : string) (lastSync : SyncMetadata) (r : Repository) (w : World) :
  env_response env = resolved r ->
  syncMetadataModel w !! key_of u rp = Some lastSync ->
  exists ws,
    performIncrementalSync env u rp tok lastSync w =
      ({| syncMetadataModel :=
            <[key_of u rp := incremental_doc env u rp lastSync r]>
              (syncMetadataModel w);
          dbWrites := dbWrites w ++ ws ++
                      [SyncMetadataUpsert (incremental_doc env u rp lastSync r)];
          httpPosts := httpPosts w ++ [incremental_post rp tok lastSync] |},
       Return {| result_totals :=
                   Some (add_totals (totalItems lastSync)
                           (incremental_counts u lastSync r));
                 isIncremental := true;
                 itemsFetched :=
                   sum_totals (incremental_counts u lastSync r) |}) /\
    sinks_ok env u (repo_owner rp +:+ "/" +:+ repo_name rp)
      (List.filter (fun c => keeps true u (lastSyncDate lastSync)
                               (commit_author c) (committedDate c))
         (new_commits lastSync r))
      (List.filter (fun p => keeps true u (lastSyncDate lastSync)
                               (pr_author p) (pr_createdAt p))
         (new_prs lastSync r))
      (List.filter (fun i => keeps true u (lastSyncDate lastSync)
                               (issue_author i) (issue_createdAt i))
         (new_issues lastSync r)) ws.
Proof.
  intros Hresp Hlook. unfold key_of in Hlook.
  unfold performIncrementalSync, graphqlRequest, bind. rewrite Hresp. simpl.
  replace (or_nil (List.filter _ <$> history_nodes r))
    with (new_commits lastSync r)
    by (unfold new_commits; now destruct (history_nodes r)).
  replace (or_nil (List.filter _ <$> pullRequests_nodes r))
    with (new_prs lastSync r)
    by (unfold new_prs; now destruct (pullRequests_nodes r)).
  replace (or_nil (List.filter _ <$> issues_nodes r))
    with (new_issues lastSync r)
    by (unfold new_issues; now destruct (issues_nodes r)).
  match goal with
  | |- context [processAndCacheIncrementalData ?e ?a ?b ?c ?d ?f ?g ?w0] =>
      destruct (processAndCacheIncrementalData_sinks e a b c d f g w0)
        as (ws & -> & Hok)
  end.
  simpl. rewrite Hlook. simpl. rewrite set_field_or_str.
  exists ws. split; [|exact Hok].
  rewrite <- app_assoc.
  unfold sum_totals, incremental_counts, incremental_doc, incremental_post,
    add_totals.
  simpl. repeat f_equal; lia.
Qed.

(** A call that has to ask and is not answered with a repository throws
    after its request, before any write. *)
Lemma performFullSync_throws (cfg : ConfigService) (env : Env) (u : string)
  (rp : RepoRef) (tok : string) (w : World) :
  (forall r, env_response env <> resolved r) ->
  exists e, performFullSync cfg env u rp tok w =
              (add_post (full_post cfg env rp tok) w, Throw e).
Proof.
  intros Hno.
  unfold performFullSync, graphqlRequest, bind, throw, resolved in *.
  destruct (env_response env) as [reason | [[errs|] [[[r|]]|]]]; simpl;
    try (eexists; reflexivity).
  now destruct (Hno r).
Qed.

Lemma performIncrementalSync_throws (env : Env) (u : string) (rp : RepoRef)
  (tok : string) (lastSync : SyncMetadata) (w : World) :
  (forall r, env_response env <> resolved r) ->
  exists e, performIncrementalSync env u rp tok lastSync w =
              (add_post (incremental_post rp tok lastSync) w, Throw e).
Proof.
  intros Hno.
  unfold performIncrementalSync, graphqlRequest, bind, throw, resolved in *.
  destruct (env_response env) as [reason | [[errs|] [[[r|]]|]]]; simpl;
    try (eexists; reflexivity).
  now destruct (Hno r).
Qed.

(** A response is a repository or it is not. *)
Lemma response_cases (h : HttpOutcome) :
  (exists r, h = resolved r) \/ (forall r, h <> resolved r).
Proof.
  unfold resolved.
  destruct h as [reason | [[errs|] [[[r|]]|]]];
    try (right; intros r'; discriminate).
  left. now exists r.
Qed.

(** The five ways a call can go. *)
Lemma sync_outcome (cfg : ConfigService) (env : Env) (u : string)
  (rp : RepoRef) (tok : string) (w : World) :
  (exists m,
     syncMetadataModel w !! key_of u rp = Some m /\
     env_now env - lastSyncDate m < cacheValidityMs cfg /\
     syncUserRepoActivity cfg env u rp tok w = (w, Return (cached_result m)))
  \/
  (exists e,
     syncMetadataModel w !! key_of u rp = None /\
     (forall r, env_response env <> resolved r) /\
     syncUserRepoActivity cfg env u rp tok w =
       (add_post (full_post cfg env rp tok) w, Throw e))
  \/
  (exists m e,
     syncMetadataModel w !! key_of u rp = Some m /\
     cacheValidityMs cfg <= env_now env - lastSyncDate m /\
     (forall r, env_response env <> resolved r) /\
     syncUserRepoActivity cfg env u rp tok w =
       (add_post (incremental_post rp tok m) w, Throw e))
  \/
  (exists r ws,
     syncMetadataModel w !! key_of u rp = None /\
     env_response env = resolved r /\
     full_sinks_ok env u rp r ws /\
     syncUserRepoActivity cfg env u rp tok w =
       (synced_world (key_of u rp) (full_doc env u rp r) ws
          (full_post cfg env rp tok) w,
        Return (full_result env u r)))
  \/
  (exists m r ws,
     syncMetadataModel w !! key_of u rp = Some m /\
     cacheValidityMs cfg <= env_now env - lastSyncDate m /\
     env_response env = resolved r /\
     incremental_sinks_ok env u rp m r ws /\
     syncUserRepoActivity cfg env u rp tok w =
       (synced_world (key_of u rp) (incremental_doc env u rp m r) ws
          (incremental_post rp tok m) w,
        Return (incremental_result u m r))).
Proof.
  unfold cacheValidityMs.
  destruct (syncMetadataModel w !! key_of u rp) as [m|] eqn:Hlook.
  - destruct (Z_lt_le_dec (env_now env - lastSyncDate m)
                (AppConfigService.incrementalSyncIntervalHours cfg
                 * 60 * 60 * 1000)) as [Hfresh|Hstale].
    + left. exists m. split; [reflexivity|]. split; [exact Hfresh|].
      exact (syncUserRepoActivity_fresh _ _ _ _ _ _ _ Hlook Hfresh).
    + rewrite (syncUserRepoActivity_stale _ _ _ _ _ _ _ Hlook Hstale).
      destruct (response_cases (env_response env)) as [[r Hr]|Hno].
      * do 4 right. exists m, r.
        destruct (performIncrementalSync_world env u rp tok m r w Hr Hlook)
          as (ws & Hrun & Hok).
        exists ws. auto.
      * do 2 right. left.
        destruct (performIncrementalSync_throws env u rp tok m w Hno)
          as (e & Hrun).
        exists m, e. auto.
  - rewrite syncUserRepoActivity_first by exact Hlook.
    destruct (response_cases (env_response env)) as [[r Hr]|Hno].
    + do 3 right. left. exists r.
      destruct (performFullSync_world cfg env u rp tok r w Hr Hlook)
        as (ws & Hrun & Hok).
      exists ws. auto.
    + right. left.
      destruct (performFullSync_throws cfg env u rp tok w Hno) as (e & Hrun).
      exists e. auto.
Qed.

(** ** The engine: failures, requests and writes *)

(** X5. A request that fails leaves no trace in the database. When
    [syncUserRepoActivity] has to ask (the key has no record, or a stale
    one) and the answer is not a repository, be it a rejected HTTP
    request, a body with errors, a body without [data] or a missing
    repository, the call throws; the watermark collection and the log
    of sink and watermark writes are those of before the call, and
    exactly one request was posted. Failures of the database calls
    themselves are outside this statement. *)
Theorem X5_failed_request_leaves_database_unchanged (cfg : ConfigService)
  (env : Env) (u : string) (rp : RepoRef) (tok : string) (w : World) :
  (forall r, env_response env <> resolved r) ->
  (forall m,
     syncMetadataModel w !! key_of u rp = Some m ->
     cacheValidityMs cfg <= env_now env - lastSyncDate m) ->
  exists w' e,
    syncUserRepoActivity cfg env u rp tok w = (w', Throw e) /\
    syncMetadataModel w' = syncMetadataModel w /\
    dbWrites w' = dbWrites w /\
    exists p, httpPosts w' = httpPosts w ++ [p].
Proof.
  intros Hno Hstale.
  destruct (sync_outcome cfg env u rp tok w)
    as [(m & Hm & Hfresh & H) | [(e' & _ & _ & H) | [(m & e' & _ & _ & _ & H)
       | [(r & ws & _ & Hr & _ & H) | (m & r & ws & _ & _ & Hr & _ & H)]]]].
  - specialize (Hstale m Hm). lia.
  - rewrite H. eexists. exists e'. split; [reflexivity|]. simpl. eauto.
  - rewrite H. eexists. exists e'. split; [reflexivity|]. simpl. eauto.
  - now destruct (Hno r).
  - now destruct (Hno r).
Qed.

(** A first call whose HTTP request is rejected. *)
Lemma X5_rejected_request_witness :
  exists w',
    syncUserRepoActivity Scenario.defaults
      (with_response Scenario.first_call (HttpRejected "ECONNRESET"))
      "octocat" Scenario.demo "token" Scenario.empty_world =
      (w', Throw (HttpError "ECONNRESET")) /\
    syncMetadataModel w' = ∅ /\
    dbWrites w' = [] /\
    exists p, httpPosts w' = [] ++ [p].
Proof.
  destruct (X5_failed_request_leaves_database_unchanged Scenario.defaults
              (with_response Scenario.first_call (HttpRejected "ECONNRESET"))
              "octocat" Scenario.demo "token" Scenario.empty_world)
    as (w' & e & Hrun & Hst & Hlog & Hpost).
  - intros r. discriminate.
  - intros m Hm. vm_compute in Hm. discriminate.
  - exists w'. vm_compute in Hrun. injection Hrun as <- <-.
    split; [vm_compute; reflexivity|]. auto.
Defined.

(** X6. A call only touches its own key and asks at most once. Whatever
    the outcome of [syncUserRepoActivity], the records stored under any
    other key, be it another user or another repository, are as before,
    and the call posted no request or exactly one. *)
Theorem X6_other_keys_untouched (cfg : ConfigService) (env : Env)
  (u : string) (rp : RepoRef) (tok : string) (w : World) :
  (forall k, k <> key_of u rp ->
     syncMetadataModel (syncUserRepoActivity cfg env u rp tok w).1 !! k =
     syncMetadataModel w !! k) /\
  (httpPosts (syncUserRepoActivity cfg env u rp tok w).1 = httpPosts w \/
   exists p, httpPosts (syncUserRepoActivity cfg env u rp tok w).1 =
             httpPosts w ++ [p]).
Proof.
  destruct (sync_outcome cfg env u rp tok w)
    as [(m & _ & _ & H) | [(e' & _ & _ & H) | [(m & e' & _ & _ & _ & H)
       | [(r & ws & _ & _ & _ & H) | (m & r & ws & _ & _ & _ & _ & H)]]]];
    rewrite H; simpl; (split; [intros k Hk | eauto]);
    try reflexivity; now rewrite lookup_insert_ne.
Qed.

(** The record of another repository of octocat survives the calls for
    octo/demo. *)
Lemma X6_other_repository_witness :
  syncMetadataModel
    (syncUserRepoActivity Scenario.defaults Scenario.third_call "octocat"
       Scenario.demo "token" Scenario.after_first).1
    !! ("octocat", "octo/other") =
  syncMetadataModel Scenario.after_first !! ("octocat", "octo/other").
Proof.
  apply (X6_other_keys_untouched Scenario.defaults Scenario.third_call
           "octocat" Scenario.demo "token" Scenario.after_first).
  vm_compute. discriminate.
Defined.

(** X7. What is asked. Without a record for the key the call posts the
    full query, with the configured limits (100 each by default) and
    [since] set to the analysis horizon; with a stale record it posts
    the incremental query with [since] set to the stored [lastSyncDate]
    and the stored numbers ([0] when missing) as variables. This holds
    whatever the data source answers. *)
Theorem X7_request_posted (cfg : ConfigService) (env : Env) (u : string)
  (rp : RepoRef) (tok : string) (w : World) :
  (syncMetadataModel w !! key_of u rp = None ->
   exists p,
     httpPosts (syncUserRepoActivity cfg env u rp tok w).1 =
       httpPosts w ++ [p] /\
     post_token p = tok /\
     post_query p = FullQuery (AppConfigService.maxCommitsPerRepo cfg)
                      (AppConfigService.maxPRsPerRepo cfg)
                      (AppConfigService.maxIssuesPerRepo cfg) /\
     var_owner (post_variables p) = repo_owner rp /\
     var_name (post_variables p) = repo_name rp /\
     var_since (post_variables p) = env_analysisStartDate env /\
     (MAX_COMMITS_PER_REPO cfg = None ->
      AppConfigService.maxCommitsPerRepo cfg = 100)) /\
  (forall m,
     syncMetadataModel w !! key_of u rp = Some m ->
     AppConfigService.incrementalSyncIntervalHours cfg * 60 * 60 * 1000 <=
       env_now env - lastSyncDate m ->
     exists p,
       httpPosts (syncUserRepoActivity cfg env u rp tok w).1 =
         httpPosts w ++ [p] /\
       post_token p = tok /\
       post_query p = IncrementalQuery /\
       var_owner (post_variables p) = repo_owner rp /\
       var_name (post_variables p) = repo_name rp /\
       var_since (post_variables p) = lastSyncDate m /\
       var_lastPRNumber (post_variables p) = Some (or_zero (lastPRNumber m)) /\
       var_lastIssueNumber (post_variables p) =
         Some (or_zero (lastIssueNumber m))).
Proof.
  split.
  - intros Hnone.
    destruct (sync_outcome cfg env u rp tok w)
      as [(m & Hm & _) | [(e' & _ & _ & H) | [(m & e' & Hm & _)
         | [(r & ws & _ & _ & _ & H) | (m & r & ws & Hm & _)]]]];
      try congruence;
      rewrite H; simpl; eexists; (split; [reflexivity|]); simpl;
      repeat split; intros Hc; unfold AppConfigService.maxCommitsPerRepo;
      now rewrite Hc.
  - intros m Hm Hstale.
    destruct (sync_outcome cfg env u rp tok w)
      as [(m' & Hm' & Hfresh & _) | [(e' & Hn & _)
         | [(m' & e' & Hm' & _ & _ & H)
         | [(r & ws & Hn & _) | (m' & r & ws & Hm' & _ & _ & _ & H)]]]];
      try congruence.
    + rewrite Hm in Hm'. injection Hm' as <-. unfold cacheValidityMs in Hfresh.
      lia.
    + rewrite Hm in Hm'. injection Hm' as <-.
      rewrite H. simpl. eexists. split; [reflexivity|]. simpl. repeat split.
    + rewrite Hm in Hm'. injection Hm' as <-.
      rewrite H. simpl. eexists. split; [reflexivity|]. simpl. repeat split.
Qed.

(** The third call of the scenario asks for what happened since the
    first call stored its record. *)
Lemma X7_incremental_request_witness :
  exists p,
    httpPosts
      (syncUserRepoActivity Scenario.defaults Scenario.third_call "octocat"
         Scenario.demo "token" Scenario.after_first).1 =
      httpPosts Scenario.after_first ++ [p] /\
    post_query p = IncrementalQuery /\
    var_since (post_variables p) = 10010 /\
    var_lastPRNumber (post_variables p) = Some (Fin 7) /\
    var_lastIssueNumber (post_variables p) = Some NegInfinity.
Proof.
  destruct (X7_request_posted Scenario.defaults Scenario.third_call "octocat"
              Scenario.demo "token" Scenario.after_first) as (_ & Hincr).
  destruct (Hincr Scenario.stored_after_first)
    as (p & Hp & _ & Hq & _ & _ & Hs & Hn & Hi).
  - vm_compute. reflexivity.
  - vm_compute. discriminate.
  - exists p. auto.
Defined.

(** X8. The watermark is written last, and once. A call that returns
    either changed nothing at all (served from the cache), or appended
    to the log at most three bulk upserts followed by exactly one
    watermark upsert; the record written is the one stored for the key
    after the call: it carries the user and the repository of the call,
    the totals the call returned, and the clock readings. *)
Theorem X8_watermark_written_last (cfg : ConfigService) (env : Env)
  (u : string) (rp : RepoRef) (tok : string) (w w' : World)
  (res : SyncResult) :
  syncUserRepoActivity cfg env u rp tok w = (w', Return res) ->
  w' = w \/
  exists ws doc,
    dbWrites w' = dbWrites w ++ ws ++ [SyncMetadataUpsert doc] /\
    watermark_docs ws = [] /\
    (length ws <= 3)%nat /\
    syncMetadataModel w' !! key_of u rp = Some doc /\
    username doc = u /\
    repo doc = repo_owner rp +:+ "/" +:+ repo_name rp /\
    result_totals res = Some (totalItems doc) /\
    lastSyncDate doc = env_syncDate env /\
    fetchedAt doc = env_upsertAt env.
Proof.
  intros Hrun.
  destruct (sync_outcome cfg env u rp tok w)
    as [(m & _ & _ & H) | [(e' & _ & _ & H) | [(m & e' & _ & _ & _ & H)
       | [(r & ws & _ & _ & Hok & H) | (m & r & ws & _ & _ & _ & Hok & H)]]]];
    rewrite H in Hrun; try discriminate; injection Hrun as <- <-.
  - now left.
  - right. destruct Hok as (Hw & _ & _ & _ & _ & Hlen & _).
    exists ws. eexists. split; [reflexivity|]. simpl.
    rewrite lookup_insert_eq. repeat split; assumption.
  - right. destruct Hok as (Hw & _ & _ & _ & _ & Hlen & _).
    exists ws. eexists. split; [reflexivity|]. simpl.
    rewrite lookup_insert_eq. repeat split; assumption.
Qed.

(** The first call of the scenario: two bulk upserts (commits, pull
    requests), then the watermark. *)
Lemma X8_first_call_witness :
  exists w' res,
    syncUserRepoActivity Scenario.defaults Scenario.first_call "octocat"
      Scenario.demo "token" Scenario.empty_world = (w', Return res) /\
    length (dbWrites w') = 3%nat /\
    (w' = Scenario.empty_world \/
     exists ws doc,
       dbWrites w' = dbWrites Scenario.empty_world ++ ws ++
                     [SyncMetadataUpsert doc] /\
       watermark_docs ws = [] /\
       (length ws <= 3)%nat /\
       syncMetadataModel w' !! key_of "octocat" Scenario.demo = Some doc /\
       username doc = "octocat" /\
       repo doc = "octo/demo" /\
       result_totals res = Some (totalItems doc) /\
       lastSyncDate doc = 10010 /\
       fetchedAt doc = 10011).
Proof.
  eexists. eexists. split; [reflexivity|]. split; [reflexivity|].
  apply (X8_watermark_written_last Scenario.defaults Scenario.first_call
           "octocat" Scenario.demo "token" Scenario.empty_world).
  reflexivity.
Defined.

(** *** Sink documents *)

Lemma keeps_author (strict : bool) (u : string) (b : Z) (a : option string)
  (d : Z) :
  keeps strict u b a d = true -> a = Some u.
Proof.
  unfold keeps. intros H. apply andb_true_iff in H as [H _].
  now apply bool_decide_eq_true in H.
Qed.

Lemma len_map {A B : Type} (f : A -> B) (l : list A) : len (map f l) = len l.
Proof. unfold len. now rewrite length_map. Qed.

Lemma commit_docs_watermark (ws : list DbWrite) (doc : SyncMetadata) :
  commit_docs (ws ++ [SyncMetadataUpsert doc]) = commit_docs ws.
Proof. unfold commit_docs. rewrite flat_map_app. simpl. apply app_nil_r. Qed.

Lemma pr_docs_watermark (ws : list DbWrite) (doc : SyncMetadata) :
  pr_docs (ws ++ [SyncMetadataUpsert doc]) = pr_docs ws.
Proof. unfold pr_docs. rewrite flat_map_app. simpl. apply app_nil_r. Qed.

Lemma issue_docs_watermark (ws : list DbWrite) (doc : SyncMetadata) :
  issue_docs (ws ++ [SyncMetadataUpsert doc]) = issue_docs ws.
Proof. unfold issue_docs. rewrite flat_map_app. simpl. apply app_nil_r. Qed.

(** What the sink writes of a call say about its counts and authors. *)
Lemma sinks_ok_counts (env : Env) (u rfn : string) (strict : bool) (b : Z)
  (cs : list CommitNode) (ps : list PullRequestNode) (iss : list IssueNode)
  (ws : list DbWrite) :
  sinks_ok env u rfn
    (List.filter (fun c => keeps strict u b (commit_author c) (committedDate c)) cs)
    (List.filter (fun p => keeps strict u b (pr_author p) (pr_createdAt p)) ps)
    (List.filter (fun i => keeps strict u b (issue_author i) (issue_createdAt i)) iss)
    ws ->
  len (commit_docs ws) = commits (counts strict u b cs ps iss) /\
  len (pr_docs ws) = pullRequests (counts strict u b cs ps iss) /\
  len (issue_docs ws) = issues (counts strict u b cs ps iss) /\
  (forall d, In d (commit_docs ws) -> commit_author (cd_rawData d) = Some u) /\
  (forall d, In d (pr_docs ws) -> pr_author (pd_rawData d) = Some u) /\
  (forall d, In d (issue_docs ws) -> issue_author (id_rawData d) = Some u).
Proof.
  intros (_ & Hc & Hp & Hi & _).
  repeat apply conj.
  - simpl. now rewrite <- Hc, len_map.
  - simpl. now rewrite <- Hp, len_map.
  - simpl. now rewrite <- Hi, len_map.
  - intros d Hd. apply (in_map cd_rawData) in Hd. rewrite Hc in Hd.
    apply List.filter_In in Hd as [_ Hd]. exact (keeps_author _ _ _ _ _ Hd).
  - intros d Hd. apply (in_map pd_rawData) in Hd. rewrite Hp in Hd.
    apply List.filter_In in Hd as [_ Hd]. exact (keeps_author _ _ _ _ _ Hd).
  - intros d Hd. apply (in_map id_rawData) in Hd. rewrite Hi in Hd.
    apply List.filter_In in Hd as [_ Hd]. exact (keeps_author _ _ _ _ _ Hd).
Qed.

(** X9. The sinks receive exactly the items the call counted. For a call
    that returns, the writes it appended to the log contain no empty
    bulk upsert; the number of commit, pull-request and issue documents
    in them is the growth of the corresponding total stored for the
    key, from the record of before the call (from zero without a
    record) to the record of after the call; and every document is made
    from a node authored by the user and carries the user, the
    repository and the fields of its node. *)
Theorem X9_sinks_receive_counted_items (cfg : ConfigService) (env : Env)
  (u : string) (rp : RepoRef) (tok : string) (w w' : World)
  (res : SyncResult) :
  syncUserRepoActivity cfg env u rp tok w = (w', Return res) ->
  exists ws,
    dbWrites w' = dbWrites w ++ ws /\
    Forall (fun d => empty_bulk d = false) ws /\
    commits (totals_before w' (key_of u rp)) =
      commits (totals_before w (key_of u rp)) + len (commit_docs ws) /\
    pullRequests (totals_before w' (key_of u rp)) =
      pullRequests (totals_before w (key_of u rp)) + len (pr_docs ws) /\
    issues (totals_before w' (key_of u rp)) =
      issues (totals_before w (key_of u rp)) + len (issue_docs ws) /\
    (forall d, In d (commit_docs ws) ->
       commit_author (cd_rawData d) = Some u /\
       commit_doc_of env u (repo_owner rp +:+ "/" +:+ repo_name rp) d) /\
    (forall d, In d (pr_docs ws) ->
       pr_author (pd_rawData d) = Some u /\
       pr_doc_of env u (repo_owner rp +:+ "/" +:+ repo_name rp) d) /\
    (forall d, In d (issue_docs ws) ->
       issue_author (id_rawData d) = Some u /\
       issue_doc_of env u (repo_owner rp +:+ "/" +:+ repo_name rp) d).
Proof.
  intros Hrun.
  destruct (sync_outcome cfg env u rp tok w)
    as [(m & Hm & _ & H) | [(e' & _ & _ & H) | [(m & e' & _ & _ & _ & H)
       | [(r & ws & Hm & _ & Hok & H) | (m & r & ws & Hm & _ & _ & Hok & H)]]]];
    rewrite H in Hrun; try discriminate; injection Hrun as <- _;
    unfold totals_before, synced_world;
    cbn [syncMetadataModel dbWrites]; rewrite ?lookup_insert_eq, Hm.
  - exists []. rewrite app_nil_r. unfold len. simpl.
    split; [reflexivity|]. split; [constructor|].
    repeat apply conj; try lia; intros d Hd; destruct Hd.
  - exists (ws ++ [SyncMetadataUpsert (full_doc env u rp r)]).
    rewrite commit_docs_watermark, pr_docs_watermark, issue_docs_watermark.
    destruct (sinks_ok_counts _ _ _ _ _ _ _ _ _ Hok)
      as (Hc & Hp & Hi & Ac & Ap & Ai).
    destruct Hok as (_ & _ & _ & _ & Hne & _ & Fc & Fp & Fi).
    rewrite List.Forall_forall in Fc. rewrite List.Forall_forall in Fp.
    rewrite List.Forall_forall in Fi.
    split; [reflexivity|]. split.
    { apply Forall_app. split; [exact Hne|]. now constructor. }
    rewrite Hc, Hp, Hi. simpl.
    repeat apply conj; try lia; intros d Hd; split; auto.
  - exists (ws ++ [SyncMetadataUpsert (incremental_doc env u rp m r)]).
    rewrite commit_docs_watermark, pr_docs_watermark, issue_docs_watermark.
    destruct (sinks_ok_counts _ _ _ _ _ _ _ _ _ Hok)
      as (Hc & Hp & Hi & Ac & Ap & Ai).
    destruct Hok as (_ & _ & _ & _ & Hne & _ & Fc & Fp & Fi).
    rewrite List.Forall_forall in Fc. rewrite List.Forall_forall in Fp.
    rewrite List.Forall_forall in Fi.
    split; [reflexivity|]. split.
    { apply Forall_app. split; [exact Hne|]. now constructor. }
    rewrite Hc, Hp, Hi. simpl.
    repeat apply conj; try lia; intros d Hd; split; auto.
Qed.

(** The third call of the scenario writes one commit document: the
    stored commits go from 3 to 4. *)
Lemma X9_third_call_witness :
  exists w' res ws,
    syncUserRepoActivity Scenario.defaults Scenario.third_call "octocat"
      Scenario.demo "token" Scenario.after_first = (w', Return res) /\
    dbWrites w' = dbWrites Scenario.after_first ++ ws /\
    commits (totals_before w' (key_of "octocat" Scenario.demo)) =
      3 + len (commit_docs ws) /\
    commits (totals_before w' (key_of "octocat" Scenario.demo)) = 4.
Proof.
  destruct (X9_sinks_receive_counted_items Scenario.defaults
              Scenario.third_call "octocat" Scenario.demo "token"
              Scenario.after_first
              (syncUserRepoActivity Scenario.defaults Scenario.third_call
                 "octocat" Scenario.demo "token" Scenario.after_first).1
              {| result_totals :=
                   Some {| commits := 4; pullRequests := 1; issues := 0;
                           prComments := 2; issueComments := 0 |};
                 isIncremental := true; itemsFetched := 1 |})
    as (ws & Hw & _ & Hc & _).
  - vm_compute. reflexivity.
  - eexists. eexists. exists ws. split; [vm_compute; reflexivity|].
    split; [exact Hw|]. split; [exact Hc | vm_compute; reflexivity].
Defined.

(** *** Watermarks *)

Lemma leb_refl (a : number) : leb a a = true.
Proof. destruct a; simpl; [reflexivity | apply Z.leb_refl]. Qed.

Lemma leb_trans (a b c : number) :
  leb a b = true -> leb b c = true -> leb a c = true.
Proof.
  destruct a, b, c; simpl; try reflexivity; try discriminate.
  rewrite !Z.leb_le. lia.
Qed.

Lemma leb_max2_l (a b : number) : leb a (max2 a b) = true.
Proof.
  destruct a, b; simpl; try reflexivity; try apply Z.leb_refl.
  apply Z.leb_le. lia.
Qed.

Lemma leb_max2_r (a b : number) : leb b (max2 a b) = true.
Proof.
  destruct a, b; simpl; try reflexivity; try apply Z.leb_refl.
  apply Z.leb_le. lia.
Qed.

Lemma gtb_false_leb (a b : number) : gtb a b = false -> leb a b = true.
Proof.
  destruct a, b; simpl; try reflexivity; try discriminate.
  rewrite Z.ltb_ge, Z.leb_le. lia.
Qed.

(** [Math.max] is an upper bound of its arguments. *)
Lemma Math_max_upper (x : number) (l : list number) :
  In x l -> leb x (Math_max l) = true.
Proof.
  induction l as [|y l IH]; intros Hin; [destruct Hin|].
  simpl. destruct Hin as [<-|Hin].
  - apply leb_max2_l.
  - eapply leb_trans; [apply IH, Hin | apply leb_max2_r].
Qed.

(** Over integers, [Math.max] of at least one argument is one of them. *)
Lemma Math_max_Fin {A : Type} (f : A -> Z) (x : A) (l : list A) :
  exists n,
    Math_max (map (fun y => Fin (f y)) (x :: l)) = Fin n /\
    (forall y, In y (x :: l) -> f y <= n) /\
    (exists y, In y (x :: l) /\ f y = n).
Proof.
  revert x. induction l as [|z l IH]; intros x.
  - exists (f x). simpl. split; [reflexivity|]. split.
    + intros y [<-|[]]. lia.
    + exists x. auto.
  - destruct (IH z) as (n & Hn & Hub & (y & Hy & Hfy)).
    exists (Z.max (f x) n).
    change (Math_max (map (fun y => Fin (f y)) (x :: z :: l)))
      with (max2 (Fin (f x)) (Math_max (map (fun y => Fin (f y)) (z :: l)))).
    rewrite Hn. simpl. split; [reflexivity|]. split.
    + intros y' [<-|Hin]; [lia|]. specialize (Hub y' Hin). lia.
    + destruct (Z.max_spec (f x) n) as [[_ ->]|[_ ->]].
      * exists y. split; [now right | exact Hfy].
      * exists x. split; [now left | reflexivity].
Qed.

(** The threshold [lastNumber || 0] of a stored number is that number. *)
Lemma or_zero_Some (wm : number) : or_zero (Some wm) = wm.
Proof.
  destruct wm as [|z]; simpl; [reflexivity|].
  destruct (z =? 0) eqn:Hz; simpl; [|reflexivity].
  apply Z.eqb_eq in Hz. now subst.
Qed.

(** X10. The watermarks a full sync stores. After a first call that is
    answered with a repository, the stored [lastPRNumber] is, when the
    answer lists at least one pull request, the number of one of them
    and at least the number of each, whoever authored them and whatever
    their dates; the same holds of [lastIssueNumber] and the issues;
    [lastCommitSha] is the identifier of the first commit of the
    history, if any. *)
Theorem X10_full_sync_watermarks (cfg : ConfigService) (env : Env)
  (u : string) (rp : RepoRef) (tok : string) (w : World) (r : Repository) :
  syncMetadataModel w !! key_of u rp = None ->
  env_response env = resolved r ->
  exists w' res doc,
    syncUserRepoActivity cfg env u rp tok w = (w', Return res) /\
    syncMetadataModel w' !! key_of u rp = Some doc /\
    (forall p ps,
       pullRequests_nodes r = Some (p :: ps) ->
       exists n,
         lastPRNumber doc = Some (Fin n) /\
         (forall q, In q (p :: ps) -> pr_number q <= n) /\
         (exists q, In q (p :: ps) /\ pr_number q = n)) /\
    (forall i iss,
       issues_nodes r = Some (i :: iss) ->
       exists n,
         lastIssueNumber doc = Some (Fin n) /\
         (forall j, In j (i :: iss) -> issue_number j <= n) /\
         (exists j, In j (i :: iss) /\ issue_number j = n)) /\
    (forall c cs,
       history_nodes r = Some (c :: cs) -> lastCommitSha doc = Some (oid c)) /\
    (or_nil (history_nodes r) = [] -> lastCommitSha doc = None).
Proof.
  intros Hnone Hresp.
  rewrite syncUserRepoActivity_first by exact Hnone.
  destruct (performFullSync_world cfg env u rp tok r w Hresp Hnone)
    as (ws & Hrun & _).
  eexists. eexists. exists (full_doc env u rp r).
  split; [exact Hrun|]. simpl. rewrite lookup_insert_eq.
  split; [reflexivity|]. repeat apply conj.
  - intros p ps Hp. rewrite Hp.
    destruct (Math_max_Fin pr_number p ps) as (n & Hn & Hub & Hex).
    exists n. rewrite Hn. auto.
  - intros i iss Hi. rewrite Hi.
    destruct (Math_max_Fin issue_number i iss) as (n & Hn & Hub & Hex).
    exists n. rewrite Hn. auto.
  - intros c cs Hc. now rewrite Hc.
  - intros Hc. now rewrite Hc.
Qed.

(** The first call of the scenario: pull request 7 is the only one, and
    commit c3 heads the history. *)
Lemma X10_first_call_witness :
  exists w' res doc,
    syncUserRepoActivity Scenario.defaults Scenario.first_call "octocat"
      Scenario.demo "token" Scenario.empty_world = (w', Return res) /\
    syncMetadataModel w' !! key_of "octocat" Scenario.demo = Some doc /\
    lastPRNumber doc = Some (Fin 7) /\
    lastCommitSha doc = Some "c3".
Proof.
  destruct (X10_full_sync_watermarks Scenario.defaults Scenario.first_call
              "octocat" Scenario.demo "token" Scenario.empty_world
              Scenario.snapshot)
    as (w' & res & doc & Hrun & Hdoc & Hpr & _ & Hc & _).
  - reflexivity.
  - reflexivity.
  - exists w', res, doc. split; [exact Hrun|]. split; [exact Hdoc|].
    split.
    + vm_compute in Hrun. injection Hrun as <- <-.
      vm_compute in Hdoc. injection Hdoc as <-. reflexivity.
    + exact (Hc _ _ eq_refl).
Defined.

(** X11. The number watermarks an incremental sync stores. After a call
    on a stale record that is answered with a repository, the stored
    [lastPRNumber] is at least the threshold the call compared with
    (the number stored before, [0] when there was none), and at least
    the number of every pull request of the answer; the same holds of
    [lastIssueNumber] and the issues. *)
Theorem X11_incremental_watermarks_cover_answer (cfg : ConfigService)
  (env : Env) (u : string) (rp : RepoRef) (tok : string) (w : World)
  (m : SyncMetadata) (r : Repository) :
  syncMetadataModel w !! key_of u rp = Some m ->
  AppConfigService.incrementalSyncIntervalHours cfg * 60 * 60 * 1000 <=
    env_now env - lastSyncDate m ->
  env_response env = resolved r ->
  exists w' res doc np ni,
    syncUserRepoActivity cfg env u rp tok w = (w', Return res) /\
    syncMetadataModel w' !! key_of u rp = Some doc /\
    lastPRNumber doc = Some np /\
    lastIssueNumber doc = Some ni /\
    leb (or_zero (lastPRNumber m)) np = true /\
    leb (or_zero (lastIssueNumber m)) ni = true /\
    (forall wm, lastPRNumber m = Some wm -> leb wm np = true) /\
    (forall wm, lastIssueNumber m = Some wm -> leb wm ni = true) /\
    (forall p, In p (or_nil (pullRequests_nodes r)) ->
       leb (Fin (pr_number p)) np = true) /\
    (forall i, In i (or_nil (issues_nodes r)) ->
       leb (Fin (issue_number i)) ni = true).
Proof.
  intros Hm Hstale Hresp.
  rewrite (syncUserRepoActivity_stale _ _ _ _ _ _ _ Hm Hstale).
  destruct (performIncrementalSync_world env u rp tok m r w Hresp Hm)
    as (ws & Hrun & _).
  eexists. eexists. exists (incremental_doc env u rp m r).
  eexists. eexists.
  split; [exact Hrun|]. simpl. rewrite lookup_insert_eq.
  split; [reflexivity|]. split; [reflexivity|]. split; [reflexivity|].
  assert (Hbp : leb (or_zero (lastPRNumber m))
                  (Math_max (map (fun pr => Fin (pr_number pr)) (new_prs m r)
                             ++ [or_zero (lastPRNumber m)])) = true).
  { apply Math_max_upper, in_or_app. right. now left. }
  assert (Hbi : leb (or_zero (lastIssueNumber m))
                  (Math_max (map (fun i => Fin (issue_number i))
                               (new_issues m r)
                             ++ [or_zero (lastIssueNumber m)])) = true).
  { apply Math_max_upper, in_or_app. right. now left. }
  repeat apply conj.
  - exact Hbp.
  - exact Hbi.
  - intros wm Hwm. eapply leb_trans; [|exact Hbp].
    rewrite Hwm, or_zero_Some. apply leb_refl.
  - intros wm Hwm. eapply leb_trans; [|exact Hbi].
    rewrite Hwm, or_zero_Some. apply leb_refl.
  - intros p Hp.
    destruct (gtb (Fin (pr_number p)) (or_zero (lastPRNumber m))) eqn:Hg.
    + apply (Math_max_upper (Fin (pr_number p))), in_or_app. left.
      apply (in_map (fun pr => Fin (pr_number pr))).
      unfold new_prs. apply List.filter_In. now split.
    + apply (leb_trans (Fin (pr_number p)) (or_zero (lastPRNumber m)));
        [apply gtb_false_leb, Hg | exact Hbp].
  - intros i Hi.
    destruct (gtb (Fin (issue_number i)) (or_zero (lastIssueNumber m))) eqn:Hg.
    + apply (Math_max_upper (Fin (issue_number i))), in_or_app. left.
      apply (in_map (fun j => Fin (issue_number j))).
      unfold new_issues. apply List.filter_In. now split.
    + apply (leb_trans (Fin (issue_number i)) (or_zero (lastIssueNumber m)));
        [apply gtb_false_leb, Hg | exact Hbi].
Qed.

(** The third call of the scenario, answered with a new pull request 9. *)
Lemma X11_new_pull_request_witness :
  exists w' res doc,
    syncUserRepoActivity Scenario.defaults
      (with_response Scenario.third_call
         (resolved (with_pullRequests Scenario.later_snapshot
            [Scenario.pull 9 "hubot" 30000 [];
             Scenario.pull 7 "octocat" 2500 []])))
      "octocat" Scenario.demo "token" Scenario.after_first = (w', Return res) /\
    syncMetadataModel w' !! key_of "octocat" Scenario.demo = Some doc /\
    lastPRNumber doc = Some (Fin 9) /\
    pullRequests <$> result_totals res = Some 1.
Proof.
  destruct (X11_incremental_watermarks_cover_answer Scenario.defaults
              (with_response Scenario.third_call
                 (resolved (with_pullRequests Scenario.later_snapshot
                    [Scenario.pull 9 "hubot" 30000 [];
                     Scenario.pull 7 "octocat" 2500 []])))
              "octocat" Scenario.demo "token" Scenario.after_first
              Scenario.stored_after_first
              (with_pullRequests Scenario.later_snapshot
                 [Scenario.pull 9 "hubot" 30000 [];
                  Scenario.pull 7 "octocat" 2500 []]))
    as (w' & res & doc & np & ni & Hrun & Hdoc & _).
  - vm_compute. reflexivity.
  - vm_compute. discriminate.
  - reflexivity.
  - exists w', res, doc. split; [exact Hrun|]. split; [exact Hdoc|].
    vm_compute in Hrun.
    injection Hrun as <- <-. vm_compute in Hdoc. injection Hdoc as <-.
    split; reflexivity.
Defined.

(** *** Runs of calls *)

(** X12. The flag [isIncremental]. A call that returns reports
    [isIncremental = true] exactly when it found a record for the key
    that was no longer fresh, that is when it ran the incremental
    query; a first sync and a call served from the cache both report
    [false]. *)
Theorem X12_isIncremental_iff_stale_record (cfg : ConfigService) (env : Env)
  (u : string) (rp : RepoRef) (tok : string) (w w' : World)
  (res : SyncResult) :
  syncUserRepoActivity cfg env u rp tok w = (w', Return res) ->
  (isIncremental res = true <->
   exists m,
     syncMetadataModel w !! key_of u rp = Some m /\
     AppConfigService.incrementalSyncIntervalHours cfg * 60 * 60 * 1000 <=
       env_now env - lastSyncDate m) /\
  (isIncremental res = true ->
   exists m,
     syncMetadataModel w !! key_of u rp = Some m /\
     httpPosts w' = httpPosts w ++ [incremental_post rp tok m]).
Proof.
  intros Hrun.
  destruct (sync_outcome cfg env u rp tok w)
    as [(m & Hm & Hage & H) | [(e' & _ & _ & H) | [(m & e' & _ & _ & _ & H)
       | [(r & ws & Hm & _ & _ & H) | (m & r & ws & Hm & Hage & _ & _ & H)]]]];
    rewrite H in Hrun; try discriminate; injection Hrun as <- <-;
    unfold cacheValidityMs in *; simpl.
  - split; [split|]; try discriminate.
    intros (m' & Hm' & Hage'). rewrite Hm in Hm'. injection Hm' as <-. lia.
  - split; [split|]; try discriminate.
    intros (m' & Hm' & _). congruence.
  - split; [split|]; eauto.
Qed.

(** The second call of the scenario reports [false], the third [true]. *)
Lemma X12_third_call_witness :
  exists w' res,
    syncUserRepoActivity Scenario.defaults Scenario.third_call "octocat"
      Scenario.demo "token" Scenario.after_first = (w', Return res) /\
    isIncremental res = true /\
    exists m,
      syncMetadataModel Scenario.after_first !! key_of "octocat" Scenario.demo
        = Some m /\
      AppConfigService.incrementalSyncIntervalHours Scenario.defaults
        * 60 * 60 * 1000 <=
        env_now Scenario.third_call - lastSyncDate m.
Proof.
  eexists. eexists. split; [vm_compute; reflexivity|].
  split; [reflexivity|].
  apply (X12_isIncremental_iff_stale_record Scenario.defaults
           Scenario.third_call "octocat" Scenario.demo "token"
           Scenario.after_first
           (syncUserRepoActivity Scenario.defaults Scenario.third_call
              "octocat" Scenario.demo "token" Scenario.after_first).1
           {| result_totals :=
                Some {| commits := 4; pullRequests := 1; issues := 0;
                        prComments := 2; issueComments := 0 |};
              isIncremental := true; itemsFetched := 1 |}).
  - vm_compute. reflexivity.
  - reflexivity.
Defined.

Lemma last_cons {A : Type} (a d : A) (l : list A) :
  List.last (a :: l) d = List.last l a.
Proof.
  revert a d. induction l as [|b l IH]; intros a d; [reflexivity|].
  change (List.last (a :: b :: l) d) with (List.last (b :: l) d).
  now rewrite (IH b d), (IH b a).
Qed.

Lemma final_world_cons (w : World) (r : World * Completion SyncResult)
  (rs : list (World * Completion SyncResult)) :
  final_world w (r :: rs) = final_world r.1 rs.
Proof. unfold final_world. simpl. apply last_cons. Qed.

Lemma sum_totals_add (a b : TotalItems) :
  sum_totals (add_totals a b) = sum_totals a + sum_totals b.
Proof. unfold sum_totals, add_totals. simpl. lia. Qed.

(** One call: the stored sum grows by what the call reports. *)
Lemma sync_step_sum (cfg : ConfigService) (env : Env) (u : string)
  (rp : RepoRef) (tok : string) (w : World) :
  stored_sum (syncUserRepoActivity cfg env u rp tok w).1 (key_of u rp) =
  stored_sum w (key_of u rp) +
  match (syncUserRepoActivity cfg env u rp tok w).2 with
  | Return res => itemsFetched res
  | Throw _ => 0
  end.
Proof.
  destruct (sync_outcome cfg env u rp tok w)
    as [(m & Hm & _ & H) | [(e' & Hm & _ & H) | [(m & e' & Hm & _ & _ & H)
       | [(r & ws & Hm & _ & _ & H) | (m & r & ws & Hm & _ & _ & _ & H)]]]];
    rewrite H; unfold stored_sum; simpl; rewrite ?lookup_insert_eq, Hm;
    simpl; rewrite ?sum_totals_add; lia.
Qed.

(** X13. [itemsFetched] accounts for the growth of the totals. Over any
    run of sequential calls for one key, whatever the answers of the
    data source and whichever calls throw, the sum of the five totals
    stored for the key at the end is the sum stored at the start ([0]
    without a record) plus the sum of the [itemsFetched] of the calls
    that returned. *)
Theorem X13_itemsFetched_accounts_for_totals (cfg : ConfigService)
  (u : string) (rp : RepoRef) (tok : string) (envs : list Env) (w : World) :
  stored_sum (final_world w (syncMany cfg u rp tok envs w)) (key_of u rp) =
  stored_sum w (key_of u rp) + fetched_sum (syncMany cfg u rp tok envs w).
Proof.
  revert w. induction envs as [|env envs IH]; intros w.
  - simpl. unfold final_world. simpl. lia.
  - cbn [syncMany]. rewrite final_world_cons, IH. cbn [fst].
    rewrite sync_step_sum. cbn [fetched_sum fold_right].
    fold (fetched_sum (syncMany cfg u rp tok envs
            (syncUserRepoActivity cfg env u rp tok w).1)).
    destruct ((syncUserRepoActivity cfg env u rp tok w).2); lia.
Qed.

(** The three calls of the scenario: 6 items, none, then 1, for a
    stored sum of 7. *)
Lemma X13_scenario_witness :
  stored_sum
    (final_world Scenario.empty_world
       (syncMany Scenario.defaults "octocat" Scenario.demo "token"
          [Scenario.first_call; Scenario.second_call; Scenario.third_call]
          Scenario.empty_world))
    (key_of "octocat" Scenario.demo) = 0 + (6 + (0 + (1 + 0))).
Proof.
  rewrite (X13_itemsFetched_accounts_for_totals Scenario.defaults "octocat"
             Scenario.demo "token"
             [Scenario.first_call; Scenario.second_call; Scenario.third_call]
             Scenario.empty_world).
  vm_compute. reflexivity.
Defined.

(** One call: at most one request, and no watermark write without one. *)
Lemma sync_step_budget (cfg : ConfigService) (env : Env) (u : string)
  (rp : RepoRef) (tok : string) (w : World) :
  (length (httpPosts (syncUserRepoActivity cfg env u rp tok w).1) <=
   length (httpPosts w) + 1)%nat /\
  (length (httpPosts w) <=
   length (httpPosts (syncUserRepoActivity cfg env u rp tok w).1))%nat /\
  (length (watermark_docs (dbWrites w)) <=
   length (watermark_docs
             (dbWrites (syncUserRepoActivity cfg env u rp tok w).1)))%nat /\
  (length (watermark_docs
             (dbWrites (syncUserRepoActivity cfg env u rp tok w).1)) +
   length (httpPosts w) <=
   length (watermark_docs (dbWrites w)) +
   length (httpPosts (syncUserRepoActivity cfg env u rp tok w).1))%nat.
Proof.
  destruct (sync_outcome cfg env u rp tok w)
    as [(m & _ & _ & H) | [(e' & _ & _ & H) | [(m & e' & _ & _ & _ & H)
       | [(r & ws & _ & _ & Hok & H) | (m & r & ws & _ & _ & _ & Hok & H)]]]];
    rewrite H; simpl; rewrite ?length_app; simpl; try lia;
    destruct Hok as (Hwm & _);
    unfold watermark_docs in *; rewrite !flat_map_app, Hwm; simpl;
    rewrite !length_app; simpl; lia.
Qed.

(** X14. The budget of a run. Over any run of sequential calls for one
    key the engine posts at most one request per call, and it writes at
    most one watermark record per request posted: it never stores a
    watermark without having asked the data source in the same call. *)
Theorem X14_run_budget (cfg : ConfigService) (u : string) (rp : RepoRef)
  (tok : string) (envs : list Env) (w : World) :
  (length (httpPosts (final_world w (syncMany cfg u rp tok envs w))) <=
   length (httpPosts w) + length envs)%nat /\
  (length (httpPosts w) <=
   length (httpPosts (final_world w (syncMany cfg u rp tok envs w))))%nat /\
  (length (watermark_docs (dbWrites w)) <=
   length (watermark_docs
             (dbWrites (final_world w (syncMany cfg u rp tok envs w)))))%nat /\
  (length (watermark_docs
             (dbWrites (final_world w (syncMany cfg u rp tok envs w)))) +
   length (httpPosts w) <=
   length (watermark_docs (dbWrites w)) +
   length (httpPosts (final_world w (syncMany cfg u rp tok envs w))))%nat.
Proof.
  revert w. induction envs as [|env envs IH]; intros w.
  - unfold final_world. simpl. lia.
  - cbn [syncMany]. rewrite final_world_cons. cbn [fst length].
    destruct (IH (syncUserRepoActivity cfg env u rp tok w).1)
      as (I1 & I2 & I3 & I4).
    destruct (sync_step_budget cfg env u rp tok w) as (S1 & S2 & S3 & S4).
    repeat split; lia.
Qed.

(** The three calls of the scenario post two requests and write two
    watermark records. *)
Lemma X14_scenario_witness :
  (length (httpPosts
             (final_world Scenario.empty_world
                (syncMany Scenario.defaults "octocat" Scenario.demo "token"
                   [Scenario.first_call; Scenario.second_call;
                    Scenario.third_call] Scenario.empty_world))) <=
   0 + 3)%nat.
Proof.
  apply (X14_run_budget Scenario.defaults "octocat" Scenario.demo "token"
           [Scenario.first_call; Scenario.second_call; Scenario.third_call]
           Scenario.empty_world).
Defined.

(** *** The filters, the error paths and the configuration *)

Lemma len_filter_le {A : Type} (f g : A -> bool) (l : list A) :
  (forall x, f x = true -> g x = true) ->
  len (List.filter f l) <= len (List.filter g l).
Proof.
  intros H. unfold len. apply inj_le.
  induction l as [|x l IH]; simpl; [lia|].
  destruct (f x) eqn:Hf.
  - rewrite (H x Hf). simpl. lia.
  - destruct (g x); simpl; lia.
Qed.

Lemma len_filter_le_len {A : Type} (f : A -> bool) (l : list A) :
  len (List.filter f l) <= len l.
Proof. unfold len. apply inj_le, List.filter_length_le. Qed.

Lemma fold_left_add_le {A : Type} (g h : A -> Z) (l : list A) :
  (forall x, g x <= h x) ->
  fold_left (fun acc x => acc + g x) l 0 <=
  fold_left (fun acc x => acc + h x) l 0.
Proof.
  intros H. induction l as [|x l IH]; simpl; [lia|].
  rewrite (fold_left_add_shift g l (0 + g x)),
          (fold_left_add_shift h l (0 + h x)).
  specialize (H x). lia.
Qed.

Lemma counts_le (s1 s2 : bool) (u : string) (b1 b2 : Z)
  (cs : list CommitNode) (ps : list PullRequestNode) (iss : list IssueNode) :
  (forall a d, keeps s1 u b1 a d = true -> keeps s2 u b2 a d = true) ->
  totals_le (counts s1 u b1 cs ps iss) (counts s2 u b2 cs ps iss).
Proof.
  intros H. unfold totals_le, counts, tally. simpl.
  repeat split;
    try (apply len_filter_le; intros x; apply H);
    apply fold_left_add_le; intros x; apply len_filter_le; intros c; apply H.
Qed.

(** X15. The filters shrink as the bound moves forward, and the strict
    filter never counts more than the inclusive one. On the same raw
    nodes, each of the five counts of the full filter for a later
    horizon is at most the count for an earlier horizon; each count of
    the incremental filter is at most the count of the full filter for
    the same bound; and the commit, pull-request and issue counts are
    at most the number of nodes given. *)
Theorem X15_filters_shrink_with_bound (env : Env) (u rfn : string)
  (r : Repository) (b1 b2 : Z) (w : World) :
  b1 <= b2 ->
  exists t1 t2 t3,
    returned (processAndCacheFullData env u rfn r b1 w) = Some t1 /\
    returned (processAndCacheFullData env u rfn r b2 w) = Some t2 /\
    returned (processAndCacheIncrementalData env u rfn
                (or_nil (history_nodes r)) (or_nil (pullRequests_nodes r))
                (or_nil (issues_nodes r)) b2 w) = Some t3 /\
    totals_le t2 t1 /\
    totals_le t3 t2 /\
    commits t1 <= len (or_nil (history_nodes r)) /\
    pullRequests t1 <= len (or_nil (pullRequests_nodes r)) /\
    issues t1 <= len (or_nil (issues_nodes r)).
Proof.
  intros Hb. eexists. eexists. eexists.
  split; [apply full_returns|]. split; [apply full_returns|].
  split; [apply incremental_returns|].
  split; [|split].
  - apply counts_le. intros a d. unfold keeps.
    rewrite !andb_true_iff, !Z.leb_le. intros [Ha Hd]. split; [exact Ha | lia].
  - apply counts_le. intros a d. unfold keeps.
    rewrite !andb_true_iff, Z.leb_le, Z.ltb_lt. intros [Ha Hd].
    split; [exact Ha | lia].
  - simpl. repeat split; apply len_filter_le_len.
Qed.

(** The snapshot of the scenario, filtered from 1000 and from 2500. *)
Lemma X15_scenario_witness :
  exists t1 t2 t3,
    returned (processAndCacheFullData Scenario.first_call "octocat"
                "octo/demo" Scenario.snapshot 1000 Scenario.empty_world)
      = Some t1 /\
    returned (processAndCacheFullData Scenario.first_call "octocat"
                "octo/demo" Scenario.snapshot 2500 Scenario.empty_world)
      = Some t2 /\
    returned (processAndCacheIncrementalData Scenario.first_call "octocat"
                "octo/demo" (or_nil (history_nodes Scenario.snapshot))
                (or_nil (pullRequests_nodes Scenario.snapshot))
                (or_nil (issues_nodes Scenario.snapshot)) 2500
                Scenario.empty_world) = Some t3 /\
    totals_le t2 t1 /\
    totals_le t3 t2 /\
    commits t1 <= len (or_nil (history_nodes Scenario.snapshot)) /\
    pullRequests t1 <= len (or_nil (pullRequests_nodes Scenario.snapshot)) /\
    issues t1 <= len (or_nil (issues_nodes Scenario.snapshot)).
Proof.
  apply (X15_filters_shrink_with_bound Scenario.first_call "octocat"
           "octo/demo" Scenario.snapshot 1000 2500 Scenario.empty_world).
  lia.
Defined.

(** X16. The fallback message, and errors before data. When the call
    has to ask and the answer carries an [errors] array whose first
    element is missing (the array is empty), has no message, or has an
    empty message, the call throws the [Error] "GitHub GraphQL error:
    Unknown error"; this is so whatever [data] the same answer carries,
    a repository included, and nothing is written. *)
Theorem X16_unknown_error_fallback (cfg : ConfigService) (env : Env)
  (u : string) (rp : RepoRef) (tok : string) (w : World)
  (errs : list GraphqlError) (d : option ResponseData) :
  env_response env =
    HttpResolved {| resp_errors := Some errs; resp_data := d |} ->
  (head errs ≫= err_message = None \/ head errs ≫= err_message = Some "") ->
  (forall m,
     syncMetadataModel w !! key_of u rp = Some m ->
     AppConfigService.incrementalSyncIntervalHours cfg * 60 * 60 * 1000 <=
       env_now env - lastSyncDate m) ->
  exists w',
    syncUserRepoActivity cfg env u rp tok w =
      (w', Throw (Error "GitHub GraphQL error: Unknown error")) /\
    syncMetadataModel w' = syncMetadataModel w /\
    dbWrites w' = dbWrites w.
Proof.
  intros Hresp Hmsg Hstale.
  assert (Hfail : upstream_failure
                    {| resp_errors := Some errs; resp_data := d |})
    by (left; simpl; eauto).
  destruct (request_fails cfg env u rp tok _ w Hresp Hfail) as [Hfull Hincr].
  cbn [resp_errors] in Hfull, Hincr.
  assert (Hm : or_else_str (head errs ≫= err_message) "Unknown error"
               = "Unknown error")
    by (destruct Hmsg as [-> | ->]; reflexivity).
  rewrite Hm in Hfull, Hincr.
  destruct (syncMetadataModel w !! key_of u rp) as [m|] eqn:Hlook.
  - rewrite (syncUserRepoActivity_stale _ _ _ _ _ _ _ Hlook (Hstale _ eq_refl)).
    apply Hincr.
  - rewrite syncUserRepoActivity_first by exact Hlook. apply Hfull.
Qed.

(** A first call answered with an empty [errors] array beside a full
    [data]. *)
Lemma X16_empty_errors_witness :
  exists w',
    syncUserRepoActivity Scenario.defaults
      (with_response Scenario.first_call
         (HttpResolved
            {| resp_errors := Some [];
               resp_data :=
                 Some {| repository := Some Scenario.snapshot |} |}))
      "octocat" Scenario.demo "token" Scenario.empty_world =
      (w', Throw (Error "GitHub GraphQL error: Unknown error")) /\
    syncMetadataModel w' = syncMetadataModel Scenario.empty_world /\
    dbWrites w' = dbWrites Scenario.empty_world.
Proof.
  apply (X16_unknown_error_fallback Scenario.defaults
           (with_response Scenario.first_call
              (HttpResolved
                 {| resp_errors := Some [];
                    resp_data :=
                      Some {| repository := Some Scenario.snapshot |} |}))
           "octocat" Scenario.demo "token" Scenario.empty_world []
           (Some {| repository := Some Scenario.snapshot |})).
  - reflexivity.
  - left. reflexivity.
  - intros m Hm. vm_compute in Hm. discriminate.
Defined.

(** X17. When a call that has to ask can return. Without a record for
    the key, or with a stale one, [syncUserRepoActivity] returns only
    when the answer has no [errors] field and a [data] with a
    repository. A rejected HTTP request is rethrown as it is, and an
    answer with neither [errors] nor [data] makes the call throw a
    [TypeError]. *)
Theorem X17_returns_only_with_repository (cfg : ConfigService) (env : Env)
  (u : string) (rp : RepoRef) (tok : string) (w : World) :
  (forall m,
     syncMetadataModel w !! key_of u rp = Some m ->
     AppConfigService.incrementalSyncIntervalHours cfg * 60 * 60 * 1000 <=
       env_now env - lastSyncDate m) ->
  (forall w' res,
     syncUserRepoActivity cfg env u rp tok w = (w', Return res) ->
     exists r, env_response env = resolved r) /\
  (forall reason,
     env_response env = HttpRejected reason ->
     (syncUserRepoActivity cfg env u rp tok w).2 = Throw (HttpError reason)) /\
  (env_response env =
     HttpResolved {| resp_errors := None; resp_data := None |} ->
   (syncUserRepoActivity cfg env u rp tok w).2 = Throw TypeError).
Proof.
  intros Hstale.
  assert (Hrun : syncUserRepoActivity cfg env u rp tok w =
                 performFullSync cfg env u rp tok w \/
                 exists m, syncUserRepoActivity cfg env u rp tok w =
                           performIncrementalSync env u rp tok m w).
  { destruct (syncMetadataModel w !! key_of u rp) as [m|] eqn:Hlook.
    - right. exists m. apply syncUserRepoActivity_stale; auto.
    - left. now apply syncUserRepoActivity_first. }
  repeat apply conj.
  - intros w' res H.
    destruct Hrun as [Hr | [m Hr]]; rewrite Hr in H.
    + exact (performFullSync_returns_inv _ _ _ _ _ _ _ _ H).
    + exact (performIncrementalSync_returns_inv _ _ _ _ _ _ _ _ H).
  - intros reason Hr.
    destruct Hrun as [-> | [m ->]];
      unfold performFullSync, performIncrementalSync, graphqlRequest, bind;
      now rewrite Hr.
  - intros Hr.
    destruct Hrun as [-> | [m ->]];
      unfold performFullSync, performIncrementalSync, graphqlRequest, bind;
      now rewrite Hr.
Qed.

(** A first call whose answer has neither [errors] nor [data]. *)
Lemma X17_null_data_witness :
  (syncUserRepoActivity Scenario.defaults
     (with_response Scenario.first_call
        (HttpResolved {| resp_errors := None; resp_data := None |}))
     "octocat" Scenario.demo "token" Scenario.empty_world).2 =
  Throw TypeError.
Proof.
  apply (X17_returns_only_with_repository Scenario.defaults
           (with_response Scenario.first_call
              (HttpResolved {| resp_errors := None; resp_data := None |}))
           "octocat" Scenario.demo "token" Scenario.empty_world).
  - intros m Hm. vm_compute in Hm. discriminate.
  - reflexivity.
Defined.

(** X18. An interval of zero hours cannot be configured. The getter
    reads the interval with [|| 4], so an interval that is unset or set
    to [0] is four hours: a record younger than 14,400,000 ms is served
    from the cache. With any interval that is not negative, a record
    whose [lastSyncDate] is not before the clock of the call is served
    from the cache. A call served from the cache leaves the world as it
    is and returns [isIncremental = false], [itemsFetched = 0] and none
    of the five totals. *)
Theorem X18_zero_interval_is_four_hours (cfg : ConfigService) (env : Env)
  (u : string) (rp : RepoRef) (tok : string) (w : World) (m : SyncMetadata) :
  syncMetadataModel w !! key_of u rp = Some m ->
  ((INCREMENTAL_SYNC_INTERVAL_HOURS cfg = None \/
    INCREMENTAL_SYNC_INTERVAL_HOURS cfg = Some 0) ->
   env_now env - lastSyncDate m < 14400000 ->
   syncUserRepoActivity cfg env u rp tok w =
     (w, Return {| result_totals := None; isIncremental := false;
                   itemsFetched := 0 |})) /\
  ((forall h, INCREMENTAL_SYNC_INTERVAL_HOURS cfg = Some h -> 0 <= h) ->
   env_now env <= lastSyncDate m ->
   syncUserRepoActivity cfg env u rp tok w =
     (w, Return {| result_totals := None; isIncremental := false;
                   itemsFetched := 0 |})).
Proof.
  intros Hm. split.
  - intros Hcfg Hage. apply (syncUserRepoActivity_fresh _ _ _ _ _ _ _ Hm).
    unfold AppConfigService.incrementalSyncIntervalHours,
      AppConfigService.get_or.
    destruct Hcfg as [-> | ->]; simpl; lia.
  - intros Hcfg Hage. apply (syncUserRepoActivity_fresh _ _ _ _ _ _ _ Hm).
    unfold AppConfigService.incrementalSyncIntervalHours,
      AppConfigService.get_or.
    destruct (INCREMENTAL_SYNC_INTERVAL_HOURS cfg) as [h|] eqn:Hh; [|lia].
    specialize (Hcfg h eq_refl).
    destruct (h =? 0) eqn:Hz; [lia|]. apply Z.eqb_neq in Hz. lia.
Qed.

(** The interval set to [0]: the second call of the scenario, one hour
    after the first, is still served from the cache. *)
Lemma X18_zero_interval_witness :
  syncUserRepoActivity
    {| MAX_COMMITS_PER_REPO := None; MAX_PRS_PER_REPO := None;
       MAX_ISSUES_PER_REPO := None;
       INCREMENTAL_SYNC_INTERVAL_HOURS := Some 0 |}
    Scenario.second_call "octocat" Scenario.demo "token"
    Scenario.after_first =
  (Scenario.after_first,
   Return {| result_totals := None; isIncremental := false;
             itemsFetched := 0 |}).
Proof.
  destruct (X18_zero_interval_is_four_hours
              {| MAX_COMMITS_PER_REPO := None; MAX_PRS_PER_REPO := None;
                 MAX_ISSUES_PER_REPO := None;
                 INCREMENTAL_SYNC_INTERVAL_HOURS := Some 0 |}
              Scenario.second_call "octocat" Scenario.demo "token"
              Scenario.after_first Scenario.stored_after_first)
    as (Hzero & _).
  - vm_compute. reflexivity.
  - apply Hzero.
    + right. reflexivity.
    + vm_compute. reflexivity.
Defined.

Lemma split_slash_head_no_slash (s : string) :
  no_slash (split_slash_head s) = true.
Proof.
  induction s as [|c s IH]; simpl; [reflexivity|].
  destruct (Ascii.eqb c "/") eqn:Hc; simpl; [reflexivity|].
  now rewrite Hc, IH.
Qed.

Lemma split_slash_head_owner (owner rest : string) :
  no_slash owner = true ->
  split_slash_head (owner +:+ "/" +:+ rest) = owner.
Proof.
  induction owner as [|c s IH]; simpl; [reflexivity|].
  intros H. apply andb_true_iff in H as [Hc Hs].
  apply negb_true_iff in Hc. rewrite Hc. f_equal. now apply IH.
Qed.

(** X19. The owner stored with a document. [repoOwner] is the text of
    the full name before its first slash: it never contains a slash; it
    is the owner of the repository whenever the owner has no slash of
    its own; and then every commit, pull-request and issue document a
    returning call appends to the log carries that owner. *)
Theorem X19_repoOwner_is_owner (cfg : ConfigService) (env : Env)
  (u : string) (rp : RepoRef) (tok : string) (w w' : World)
  (res : SyncResult) :
  (forall s, no_slash (split_slash_head s) = true) /\
  (no_slash (repo_owner rp) = true ->
   split_slash_head (repo_owner rp +:+ "/" +:+ repo_name rp) = repo_owner rp) /\
  (no_slash (repo_owner rp) = true ->
   syncUserRepoActivity cfg env u rp tok w = (w', Return res) ->
   exists ws,
     dbWrites w' = dbWrites w ++ ws /\
     (forall d, In d (commit_docs ws) -> cd_repoOwner d = repo_owner rp) /\
     (forall d, In d (pr_docs ws) -> pd_repoOwner d = repo_owner rp) /\
     (forall d, In d (issue_docs ws) -> id_repoOwner d = repo_owner rp)).
Proof.
  split; [exact split_slash_head_no_slash|].
  split; [apply split_slash_head_owner|].
  intros Hown Hrun.
  pose proof (split_slash_head_owner _ (repo_name rp) Hown) as Hsplit.
  destruct (sync_outcome cfg env u rp tok w)
    as [(m & Hm & _ & H) | [(e' & _ & _ & H) | [(m & e' & _ & _ & _ & H)
       | [(r & ws & Hm & _ & Hok & H) | (m & r & ws & Hm & _ & _ & Hok & H)]]]];
    rewrite H in Hrun; try discriminate; injection Hrun as <- <-.
  - exists []. rewrite app_nil_r. repeat split; intros d Hd; destruct Hd.
  - exists (ws ++ [SyncMetadataUpsert (full_doc env u rp r)]).
    rewrite commit_docs_watermark, pr_docs_watermark, issue_docs_watermark.
    destruct Hok as (_ & _ & _ & _ & _ & _ & Fc & Fp & Fi).
    rewrite List.Forall_forall in Fc. rewrite List.Forall_forall in Fp.
    rewrite List.Forall_forall in Fi.
    split; [reflexivity|].
    repeat split; intros d Hd;
      [destruct (Fc d Hd) as (_ & -> & _) | destruct (Fp d Hd) as (_ & -> & _)
       | destruct (Fi d Hd) as (_ & -> & _)]; exact Hsplit.
  - exists (ws ++ [SyncMetadataUpsert (incremental_doc env u rp m r)]).
    rewrite commit_docs_watermark, pr_docs_watermark, issue_docs_watermark.
    destruct Hok as (_ & _ & _ & _ & _ & _ & Fc & Fp & Fi).
    rewrite List.Forall_forall in Fc. rewrite List.Forall_forall in Fp.
    rewrite List.Forall_forall in Fi.
    split; [reflexivity|].
    repeat split; intros d Hd;
      [destruct (Fc d Hd) as (_ & -> & _) | destruct (Fp d Hd) as (_ & -> & _)
       | destruct (Fi d Hd) as (_ & -> & _)]; exact Hsplit.
Qed.

(** The documents of the first call of the scenario carry the owner
    octo. *)
Lemma X19_scenario_witness :
  split_slash_head "octo/demo" = "octo" /\
  exists ws,
    dbWrites Scenario.after_first = dbWrites Scenario.empty_world ++ ws /\
    (forall d, In d (commit_docs ws) -> cd_repoOwner d = "octo") /\
    (forall d, In d (pr_docs ws) -> pd_repoOwner d = "octo") /\
    (forall d, In d (issue_docs ws) -> id_repoOwner d = "octo").
Proof.
  destruct (X19_repoOwner_is_owner Scenario.defaults Scenario.first_call
              "octocat" Scenario.demo "token" Scenario.empty_world
              Scenario.after_first
              {| result_totals :=
                   Some {| commits := 3; pullRequests := 1; issues := 0;
                           prComments := 2; issueComments := 0 |};
                 isIncremental := false; itemsFetched := 6 |})
    as (_ & Hsplit & Hdocs).
  split.
  - apply Hsplit. reflexivity.
  - apply Hdocs; reflexivity.
Defined.

(** ** The maintenance methods of the watermark store *)

(** X20. The two validity tests. For one date, [isIncrementalSyncValid]
    and [isFullSyncRequired] never both answer [true]; with a record
    for the key exactly one of them does, the first exactly when
    [lastSyncDate] is at or after the date; without a record both
    answer [false], so that a key never synchronised is not reported
    as requiring a full sync. Neither changes the world. *)
Theorem X20_validity_tests_exclusive (u r : string) (date : Z) (w : World) :
  exists v f,
    isIncrementalSyncValid u r date w = (w, Return v) /\
    isFullSyncRequired u r date w = (w, Return f) /\
    v && f = false /\
    (syncMetadataModel w !! (u, r) = None -> v = false /\ f = false) /\
    (forall m,
       syncMetadataModel w !! (u, r) = Some m ->
       f = negb v /\ (v = true <-> date <= lastSyncDate m)).
Proof.
  unfold isIncrementalSyncValid, isFullSyncRequired.
  destruct (syncMetadataModel w !! (u, r)) as [m|].
  - exists (date <=? lastSyncDate m), (lastSyncDate m <? date).
    split; [reflexivity|]. split; [reflexivity|].
    pose proof (Z.ltb_antisym date (lastSyncDate m)) as Hf.
    split; [rewrite Hf; apply andb_negb_r|].
    split; [discriminate|].
    intros m' Hm'. injection Hm' as <-.
    split; [exact Hf | apply Z.leb_le].
  - exists false, false. repeat split; try reflexivity; discriminate.
Qed.

(** The record of the scenario, tested against a date before and a date
    after its [lastSyncDate]. *)
Lemma X20_scenario_witness :
  isIncrementalSyncValid "octocat" "octo/demo" 10000 Scenario.after_first =
    (Scenario.after_first, Return true) /\
  isFullSyncRequired "octocat" "octo/demo" 10000 Scenario.after_first =
    (Scenario.after_first, Return false) /\
  isFullSyncRequired "octocat" "octo/demo" 20000 Scenario.after_first =
    (Scenario.after_first, Return true) /\
  isFullSyncRequired "hubot" "octo/demo" 20000 Scenario.after_first =
    (Scenario.after_first, Return false).
Proof.
  destruct (X20_validity_tests_exclusive "octocat" "octo/demo" 10000
              Scenario.after_first) as (v & f & Hv & Hf & _ & _ & Hsome).
  destruct (Hsome Scenario.stored_after_first) as (Hneg & Hiff).
  - vm_compute. reflexivity.
  - assert (v = true) as -> by (apply Hiff; vm_compute; discriminate).
    subst f. split; [exact Hv|]. split; [exact Hf|].
    split; vm_compute; reflexivity.
Defined.

(** X21. The freshness test of the engine and the one of the store. For
    a stored record and one clock, [isIncrementalSyncValid] asked with
    [incrementalSyncExpiryDate] agrees with [syncUserRepoActivity]
    except at the boundary: below the interval both say fresh (the call
    is served from the cache: it leaves the world as it is and returns
    with [isIncremental = false] and [itemsFetched = 0]); above it both
    say stale (the call posts a request); at an age of exactly the
    interval the store answers valid while the engine posts a
    request. *)
Theorem X21_freshness_tests_differ_at_boundary (cfg : ConfigService)
  (env : Env) (u : string) (rp : RepoRef) (tok : string) (w : World)
  (m : SyncMetadata) :
  syncMetadataModel w !! key_of u rp = Some m ->
  exists v,
    isIncrementalSyncValid u (repo_owner rp +:+ "/" +:+ repo_name rp)
      (AppConfigDates.incrementalSyncExpiryDate cfg (env_now env)) w =
      (w, Return v) /\
    (env_now env - lastSyncDate m <
       AppConfigService.incrementalSyncIntervalHours cfg * 60 * 60 * 1000 ->
     v = true /\
     exists res,
       syncUserRepoActivity cfg env u rp tok w = (w, Return res) /\
       isIncremental res = false /\ itemsFetched res = 0) /\
    (env_now env - lastSyncDate m =
       AppConfigService.incrementalSyncIntervalHours cfg * 60 * 60 * 1000 ->
     v = true /\
     httpPosts (syncUserRepoActivity cfg env u rp tok w).1 =
       httpPosts w ++ [incremental_post rp tok m]) /\
    (AppConfigService.incrementalSyncIntervalHours cfg * 60 * 60 * 1000 <
       env_now env - lastSyncDate m ->
     v = false /\
     httpPosts (syncUserRepoActivity cfg env u rp tok w).1 =
       httpPosts w ++ [incremental_post rp tok m]).
Proof.
  intros Hm.
  assert (Hposts : AppConfigService.incrementalSyncIntervalHours cfg
                   * 60 * 60 * 1000 <= env_now env - lastSyncDate m ->
                   httpPosts (syncUserRepoActivity cfg env u rp tok w).1 =
                   httpPosts w ++ [incremental_post rp tok m]).
  { intros Hstale.
    destruct (sync_outcome cfg env u rp tok w)
      as [(m' & Hm' & Hfresh & _) | [(e' & Hn & _)
         | [(m' & e' & Hm' & _ & _ & H)
         | [(r & ws & Hn & _) | (m' & r & ws & Hm' & _ & _ & _ & H)]]]];
      try congruence;
      rewrite Hm in Hm'; injection Hm' as <-;
      unfold cacheValidityMs in *; try lia; now rewrite H. }
  unfold isIncrementalSyncValid. unfold key_of in Hm. rewrite Hm.
  eexists. split; [reflexivity|].
  unfold AppConfigDates.incrementalSyncExpiryDate.
  split; [|split]; intros Hage.
  - split; [apply Z.leb_le; lia|].
    eexists. unfold key_of.
    split; [exact (syncUserRepoActivity_fresh _ _ _ _ _ _ _ Hm Hage)|].
    split; reflexivity.
  - split; [apply Z.leb_le; lia | apply Hposts; lia].
  - split; [apply Z.leb_gt; lia | apply Hposts; lia].
Qed.

(** The record of the scenario, asked again exactly four hours after
    its [lastSyncDate]. *)
Lemma X21_boundary_witness :
  isIncrementalSyncValid "octocat" "octo/demo"
    (AppConfigDates.incrementalSyncExpiryDate Scenario.defaults 14410010)
    Scenario.after_first = (Scenario.after_first, Return true) /\
  length (httpPosts
            (syncUserRepoActivity Scenario.defaults
               {| env_now := 14410010; env_analysisStartDate := 1000;
                  env_response := resolved Scenario.snapshot;
                  env_fetchedAt := 14410011; env_syncDate := 14410012;
                  env_upsertAt := 14410013 |}
               "octocat" Scenario.demo "token" Scenario.after_first).1) =
  2%nat.
Proof.
  destruct (X21_freshness_tests_differ_at_boundary Scenario.defaults
              {| env_now := 14410010; env_analysisStartDate := 1000;
                 env_response := resolved Scenario.snapshot;
                 env_fetchedAt := 14410011; env_syncDate := 14410012;
                 env_upsertAt := 14410013 |}
              "octocat" Scenario.demo "token" Scenario.after_first
              Scenario.stored_after_first)
    as (v & Hv & _ & Hat & _).
  - vm_compute. reflexivity.
  - destruct Hat as (-> & Hposts); [vm_compute; reflexivity|].
    split; [exact Hv|]. rewrite Hposts. reflexivity.
Defined.

(** X22. [cleanup] removes the records older than the threshold, and
    only those. After [cleanup] a record is stored for a key exactly
    when it was stored before with a [lastSyncDate] at or after the
    threshold; no key then requires a full sync with respect to that
    threshold; the logs are unchanged; cleaning up again with the same
    threshold changes nothing, and two cleanups amount to one with the
    later threshold. *)
Theorem X22_cleanup_removes_old_records (t : Z) (w : World) :
  (forall k m,
     syncMetadataModel (cleanup t w).1 !! k = Some m <->
     syncMetadataModel w !! k = Some m /\ t <= lastSyncDate m) /\
  (forall u r,
     isFullSyncRequired u r t (cleanup t w).1 =
       ((cleanup t w).1, Return false)) /\
  dbWrites (cleanup t w).1 = dbWrites w /\
  httpPosts (cleanup t w).1 = httpPosts w /\
  (cleanup t (cleanup t w).1).1 = (cleanup t w).1 /\
  (forall t2,
     syncMetadataModel (cleanup t2 (cleanup t w).1).1 =
     syncMetadataModel (cleanup (Z.max t t2) w).1).
Proof.
  assert (Hlook : forall t0 (c : gmap (string * string) SyncMetadata) k m,
            filter (fun km : (string * string) * SyncMetadata =>
                      t0 <= lastSyncDate km.2) c !! k = Some m <->
            c !! k = Some m /\ t0 <= lastSyncDate m).
  { intros t0 c k m. apply map_lookup_filter_Some. }
  repeat apply conj.
  - intros k m. apply Hlook.
  - intros u r. unfold isFullSyncRequired.
    destruct (syncMetadataModel (cleanup t w).1 !! (u, r)) as [m|] eqn:Hm;
      [|reflexivity].
    apply Hlook in Hm as [_ Hm].
    replace (lastSyncDate m <? t) with false
      by (symmetry; apply Z.ltb_ge; lia).
    reflexivity.
  - reflexivity.
  - reflexivity.
  - unfold cleanup, update_collection. simpl. f_equal.
    apply map_eq. intros k. apply option_eq. intros m.
    rewrite !Hlook. tauto.
  - intros t2. simpl. apply map_eq. intros k. apply option_eq. intros m.
    rewrite !Hlook. split.
    + intros [[Hm H1] H2]. split; [exact Hm | lia].
    + intros [Hm H]. repeat split; [exact Hm | lia | lia].
Qed.

(** The record of the scenario is older than 20000 and is removed; it
    is kept by a cleanup up to 10010. *)
Lemma X22_scenario_witness :
  syncMetadataModel (cleanup 10010 Scenario.after_first).1
    !! ("octocat", "octo/demo") = Some Scenario.stored_after_first /\
  syncMetadataModel (cleanup 20000 Scenario.after_first).1
    !! ("octocat", "octo/demo") = None.
Proof.
  split.
  - apply (X22_cleanup_removes_old_records 10010 Scenario.after_first).
    split; vm_compute; [reflexivity | discriminate].
  - destruct (syncMetadataModel (cleanup 20000 Scenario.after_first).1
                !! ("octocat", "octo/demo")) as [m|] eqn:Hm; [|reflexivity].
    apply (X22_cleanup_removes_old_records 20000 Scenario.after_first)
      in Hm as [Hm Hd].
    vm_compute in Hm. injection Hm as <-. vm_compute in Hd.
    now destruct Hd.
Defined.

(** X23. A cleaned-up key starts afresh. When [cleanup] removes the
    record of a key (its [lastSyncDate] is before the threshold), the
    next call for the key that is answered with a repository is a full
    sync: it posts the full query and its totals are the counts of the
    answer alone, not added to those of the removed record. *)
Theorem X23_cleanup_then_sync_is_full (cfg : ConfigService) (env : Env)
  (u : string) (rp : RepoRef) (tok : string) (w : World) (m : SyncMetadata)
  (t : Z) (r : Repository) :
  syncMetadataModel w !! key_of u rp = Some m ->
  lastSyncDate m < t ->
  env_response env = resolved r ->
  exists w' res,
    syncUserRepoActivity cfg env u rp tok (cleanup t w).1 = (w', Return res) /\
    isIncremental res = false /\
    result_totals res =
      Some (counts false u (env_analysisStartDate env)
              (or_nil (history_nodes r)) (or_nil (pullRequests_nodes r))
              (or_nil (issues_nodes r))) /\
    httpPosts w' = httpPosts w ++ [full_post cfg env rp tok].
Proof.
  intros Hm Hold Hresp.
  assert (Hnone : syncMetadataModel (cleanup t w).1 !! key_of u rp = None).
  { simpl. apply map_lookup_filter_None. right. intros m' Hm'.
    rewrite Hm in Hm'. injection Hm' as <-. simpl. lia. }
  rewrite syncUserRepoActivity_first by exact Hnone.
  destruct (performFullSync_world cfg env u rp tok r (cleanup t w).1 Hresp
              Hnone)
    as (ws & Hrun & _).
  eexists. eexists. split; [exact Hrun|]. simpl. repeat split.
Qed.

(** The record of the scenario is cleaned up, then the key is
    synchronised again. *)
Lemma X23_scenario_witness :
  exists w' res,
    syncUserRepoActivity Scenario.defaults Scenario.first_call "octocat"
      Scenario.demo "token" (cleanup 20000 Scenario.after_first).1 =
      (w', Return res) /\
    isIncremental res = false /\
    result_totals res =
      Some {| commits := 3; pullRequests := 1; issues := 0;
              prComments := 2; issueComments := 0 |} /\
    length (httpPosts w') = 2%nat.
Proof.
  destruct (X23_cleanup_then_sync_is_full Scenario.defaults
              Scenario.first_call "octocat" Scenario.demo "token"
              Scenario.after_first Scenario.stored_after_first 20000
              Scenario.snapshot)
    as (w' & res & Hrun & Hinc & Htot & Hposts).
  - vm_compute. reflexivity.
  - vm_compute. reflexivity.
  - reflexivity.
  - exists w', res. split; [exact Hrun|]. split; [exact Hinc|].
    split; [rewrite Htot; reflexivity|]. rewrite Hposts. reflexivity.
Defined.

(** X24. [findAllByUsername] lists the records of a user. It returns the
    records of the collection whose [username] is the one asked for, and
    leaves the world as it is. In a collection where every record is
    stored under its own user and repository, it lists every record
    [findByUsernameAndRepo] finds for the user, and each record it
    lists is the one [findByUsernameAndRepo] finds for the user and the
    repository of that record. *)
Theorem X24_findAllByUsername_lists_user_records (u : string) (w : World) :
  exists l,
    findAllByUsername u w = (w, Return l) /\
    (forall m,
       In m l <->
       exists k, syncMetadataModel w !! k = Some m /\ username m = u) /\
    (well_keyed (syncMetadataModel w) ->
     forall r m,
       SyncMetadataService.findByUsernameAndRepo u r w = (w, Return (Some m)) ->
       In m l) /\
    (well_keyed (syncMetadataModel w) ->
     forall m,
       In m l ->
       SyncMetadataService.findByUsernameAndRepo u (repo m) w =
         (w, Return (Some m))).
Proof.
  eexists. split; [reflexivity|].
  assert (Hin : forall m,
            In m (List.filter (fun m0 => bool_decide (username m0 = u))
                    (snd <$> map_to_list (syncMetadataModel w))) <->
            exists k, syncMetadataModel w !! k = Some m /\ username m = u).
  { intros m. rewrite List.filter_In, bool_decide_eq_true.
    rewrite <- list_elem_of_In, list_elem_of_fmap. split.
    - intros [([k m'] & -> & Hk) Hu]. apply elem_of_map_to_list in Hk.
      exists k. auto.
    - intros (k & Hk & Hu). split; [|exact Hu].
      exists (k, m). split; [reflexivity|]. now apply elem_of_map_to_list. }
  split; [exact Hin|]. split.
  - intros Hwk r m Hfind. apply Hin.
    unfold SyncMetadataService.findByUsernameAndRepo in Hfind.
    injection Hfind as Hfind. exists (u, r). split; [exact Hfind|].
    apply Hwk in Hfind. now injection Hfind as <- _.
  - intros Hwk m Hm. apply Hin in Hm as (k & Hk & Hu).
    unfold SyncMetadataService.findByUsernameAndRepo.
    pose proof (Hwk k m Hk) as ->. now rewrite <- Hu, Hk.
Qed.

(** After the first call of the scenario octocat has one record. *)
Lemma X24_scenario_witness :
  exists l,
    findAllByUsername "octocat" Scenario.after_first =
      (Scenario.after_first, Return l) /\
    In Scenario.stored_after_first l.
Proof.
  destruct (X24_findAllByUsername_lists_user_records "octocat"
              Scenario.after_first) as (l & Hl & Hin & _).
  exists l. split; [exact Hl|]. apply Hin.
  exists ("octocat", "octo/demo"). split; vm_compute; reflexivity.
Defined.

(** X25. Records stay under their own key. If every record of the
    collection is stored under its own [username] and [repo], this still
    holds after [upsert], after [syncUserRepoActivity] whatever its
    outcome, and after each maintenance method; it holds of the empty
    collection, hence of every collection these operations build. *)
Theorem X25_records_stay_under_their_key (w : World) :
  well_keyed ∅ /\
  (well_keyed (syncMetadataModel w) ->
   (forall env d,
      well_keyed (syncMetadataModel (SyncMetadataService.upsert env d w).1)) /\
   (forall cfg env u rp tok,
      well_keyed
        (syncMetadataModel (syncUserRepoActivity cfg env u rp tok w).1)) /\
   (forall now u r t,
      well_keyed (syncMetadataModel (updateTotalItems now u r t w).1)) /\
   (forall now u r t,
      well_keyed (syncMetadataModel (incrementTotalItems now u r t w).1)) /\
   (forall u r,
      well_keyed (syncMetadataModel (deleteByUsernameAndRepo u r w).1)) /\
   (forall t, well_keyed (syncMetadataModel (cleanup t w).1))).
Proof.
  split; [intros k d Hk; now rewrite lookup_empty in Hk|].
  intros Hwk.
  assert (Hins : forall k d, k = (username d, repo d) ->
                   well_keyed (<[k := d]> (syncMetadataModel w))).
  { intros k d Hk k' d' Hl.
    destruct (decide (k = k')) as [<-|Hne].
    - rewrite lookup_insert_eq in Hl. now injection Hl as <-.
    - rewrite lookup_insert_ne in Hl by exact Hne. now apply Hwk. }
  assert (Halt : forall (f : SyncMetadata -> SyncMetadata) k,
                   (forall d, username (f d) = username d /\
                              repo (f d) = repo d) ->
                   well_keyed (alter f k (syncMetadataModel w))).
  { intros f k Hf k' d' Hl.
    destruct (decide (k = k')) as [<-|Hne].
    - rewrite lookup_alter_eq in Hl.
      destruct (syncMetadataModel w !! k) as [d|] eqn:Hd; [|discriminate].
      simpl in Hl. injection Hl as <-.
      destruct (Hf d) as [-> ->]. now apply Hwk.
    - rewrite lookup_alter_ne in Hl by exact Hne. now apply Hwk. }
  repeat apply conj.
  - intros env d. simpl. now apply Hins.
  - intros cfg env u rp tok.
    destruct (sync_outcome cfg env u rp tok w)
      as [(m & _ & _ & H) | [(e' & _ & _ & H) | [(m & e' & _ & _ & _ & H)
         | [(r & ws & _ & _ & _ & H) | (m & r & ws & _ & _ & _ & _ & H)]]]];
      rewrite H; simpl; try exact Hwk; now apply Hins.
  - intros now u r t. simpl. apply Halt. now intros d.
  - intros now u r t. simpl. apply Halt. now intros d.
  - intros u r k d Hl. simpl in Hl.
    apply lookup_delete_Some in Hl as [_ Hl]. now apply Hwk.
  - intros t k d Hl. simpl in Hl.
    apply map_lookup_filter_Some in Hl as [Hl _]. now apply Hwk.
Qed.

(** The collection after the first call of the scenario. *)
Lemma X25_scenario_witness :
  well_keyed (syncMetadataModel Scenario.after_first).
Proof.
  destruct (X25_records_stay_under_their_key Scenario.empty_world)
    as (Hempty & Hkeep).
  destruct (Hkeep Hempty) as (_ & Hsync & _).
  exact (Hsync Scenario.defaults Scenario.first_call "octocat" Scenario.demo
           "token").
Defined.

(** X26. The two expiry dates. When the incremental interval is at most
    the full interval, as with the defaults of 4 and 24 hours, the
    expiry date of the full sync is at or before the one of the
    incremental sync for the same clock; a record that requires a full
    sync is then never valid for an incremental one, and a record valid
    for an incremental sync never requires a full one. *)
Theorem X26_full_expiry_before_incremental (cfg : ConfigService)
  (ttl : ConfigServiceTTL) (now : Z) (u r : string) (w : World) :
  AppConfigService.incrementalSyncIntervalHours cfg <=
    AppConfigDates.fullSyncIntervalHours ttl ->
  AppConfigDates.fullSyncExpiryDate ttl now <=
    AppConfigDates.incrementalSyncExpiryDate cfg now /\
  (isFullSyncRequired u r (AppConfigDates.fullSyncExpiryDate ttl now) w =
     (w, Return true) ->
   isIncrementalSyncValid u r
     (AppConfigDates.incrementalSyncExpiryDate cfg now) w =
     (w, Return false)) /\
  (isIncrementalSyncValid u r
     (AppConfigDates.incrementalSyncExpiryDate cfg now) w =
     (w, Return true) ->
   isFullSyncRequired u r (AppConfigDates.fullSyncExpiryDate ttl now) w =
     (w, Return false)).
Proof.
  intros Hle.
  assert (Hd : AppConfigDates.fullSyncExpiryDate ttl now <=
               AppConfigDates.incrementalSyncExpiryDate cfg now).
  { unfold AppConfigDates.fullSyncExpiryDate,
      AppConfigDates.incrementalSyncExpiryDate. lia. }
  split; [exact Hd|].
  unfold isFullSyncRequired, isIncrementalSyncValid.
  destruct (syncMetadataModel w !! (u, r)) as [m|].
  - split; intros H; injection H as H; repeat f_equal.
    + apply Z.ltb_lt in H. apply Z.leb_gt. lia.
    + apply Z.leb_le in H. apply Z.ltb_ge. lia.
  - split; intros H; discriminate.
Qed.

(** With nothing configured: 4 and 24 hours. *)
Lemma X26_defaults_witness :
  AppConfigDates.fullSyncExpiryDate
    {| CACHE_TTL_HOURS := None; FULL_SYNC_INTERVAL_HOURS := None |}
    100000000 = 13600000 /\
  AppConfigDates.incrementalSyncExpiryDate Scenario.defaults 100000000
    = 85600000 /\
  AppConfigDates.fullSyncExpiryDate
    {| CACHE_TTL_HOURS := None; FULL_SYNC_INTERVAL_HOURS := None |}
    100000000 <=
  AppConfigDates.incrementalSyncExpiryDate Scenario.defaults 100000000.
Proof.
  split; [reflexivity|]. split; [reflexivity|].
  apply (X26_full_expiry_before_incremental Scenario.defaults
           {| CACHE_TTL_HOURS := None; FULL_SYNC_INTERVAL_HOURS := None |}
           100000000 "octocat" "octo/demo" Scenario.empty_world).
  vm_compute. discriminate.
Defined.

(** X27. The freshness clock starts at the write. After a call that
    asked the data source and returned, a following call whose clock is
    within the interval of the instant the first call read for
    [lastSyncDate] is served from the cache: it changes nothing, so the
    record the first call stored stays, and it returns
    [isIncremental = false], [itemsFetched = 0] and none of the five
    totals, which the first call did return. *)
Theorem X27_resync_within_interval_is_cached (cfg : ConfigService)
  (e1 e2 : Env) (u : string) (rp : RepoRef) (tok : string)
  (w w1 : World) (r1 : SyncResult) :
  syncUserRepoActivity cfg e1 u rp tok w = (w1, Return r1) ->
  httpPosts w1 <> httpPosts w ->
  env_now e2 - env_syncDate e1 <
    AppConfigService.incrementalSyncIntervalHours cfg * 60 * 60 * 1000 ->
  syncUserRepoActivity cfg e2 u rp tok w1 =
    (w1, Return {| result_totals := None;
                   isIncremental := false;
                   itemsFetched := 0 |}) /\
  exists doc,
    syncMetadataModel w1 !! key_of u rp = Some doc /\
    result_totals r1 = Some (totalItems doc).
Proof.
  intros Hrun Hasked Hage.
  destruct (sync_outcome cfg e1 u rp tok w)
    as [(m & _ & _ & H) | [(e' & _ & _ & H) | [(m & e' & _ & _ & _ & H)
       | [(r & ws & _ & _ & _ & H) | (m & r & ws & _ & _ & _ & _ & H)]]]];
    rewrite H in Hrun; try discriminate; injection Hrun as <- <-.
  - now destruct Hasked.
  - split.
    + apply (syncUserRepoActivity_fresh cfg e2 u rp tok _ (full_doc e1 u rp r)).
      * simpl. apply lookup_insert_eq.
      * exact Hage.
    + exists (full_doc e1 u rp r). simpl. rewrite lookup_insert_eq.
      split; reflexivity.
  - split.
    + apply (syncUserRepoActivity_fresh cfg e2 u rp tok _
               (incremental_doc e1 u rp m r)).
      * simpl. apply lookup_insert_eq.
      * exact Hage.
    + exists (incremental_doc e1 u rp m r). simpl. rewrite lookup_insert_eq.
      split; reflexivity.
Qed.

(** The first and the second call of the scenario. *)
Lemma X27_scenario_witness :
  syncUserRepoActivity Scenario.defaults Scenario.second_call "octocat"
    Scenario.demo "token" Scenario.after_first =
  (Scenario.after_first,
   Return {| result_totals := None;
             isIncremental := false;
             itemsFetched := 0 |}).
Proof.
  apply (X27_resync_within_interval_is_cached Scenario.defaults
           Scenario.first_call Scenario.second_call "octocat" Scenario.demo
           "token" Scenario.empty_world Scenario.after_first
           {| result_totals :=
                Some {| commits := 3; pullRequests := 1; issues := 0;
                        prComments := 2; issueComments := 0 |};
              isIncremental := false; itemsFetched := 6 |}).
  - reflexivity.
  - vm_compute. discriminate.
  - vm_compute. reflexivity.
Defined.
